(** * The gas-price sampler of the smart yield optimizer

    A shallow embedding of the class [GasOptimizer] of [src/lib/openserv.ts]
    (the part of that file that follows the OpenServ client): the window of
    gas samples it keeps, [initialize] / [updateHistoricalData], which fill
    the window from the last hundred blocks, [getGasRecommendation], which
    turns the window and one live price into a recommendation, and
    [getHistoricalData].

    Conventions of the embedding.
    - The sampler is embedded twice.  This first part computes with exact
      integers ([Z]) and rationals ([Q]): block numbers and timestamps are
      integers, a price in gwei is the quotient [Number(wei) / 1e9], [-0] is
      not told apart from [+0], and time values are taken inside the range
      of [Date].  It carries the statements that do not depend on how a
      number is rounded: the reads issued and their order, what is stored
      and when, the guard, the least price and its rounding to an integer,
      the hour of a sample, the non-finite cases.
    - The last part of the file, [Double], computes [getGasRecommendation]
      in binary64 as the engine does.  It carries the statements that
      depend on the rounding: the digits of [estimatedSavings], the
      comparison behind the batching advice, the sums of the hours.
    - Where the code can produce [Infinity] or [NaN] (the start value of the
      hour search, a division by a live price of zero) values of the exact
      part have the type [number], with the IEEE rules for the non-finite
      cases.
    - [await] is sequencing: one operation runs from its call to its
      completion.  A rejected promise is the completion [Throw]. *)

From Stdlib Require Import ZArith QArith Qround Qminmax Qabs.
From Stdlib Require Import List String Ascii Bool Arith Lia Lqa DecimalString.
From Stdlib Require Import Sorted.
From Stdlib Require Import Floats.SpecFloat.
Import ListNotations.

Local Open Scope Q_scope.

(** ** Numbers *)

Inductive number : Type :=
| Fin (q : Q)
| PosInfinity
| NegInfinity
| NaN.

Definition Qltb (x y : Q) : bool :=
  match x ?= y with Lt => true | _ => false end.

Definition Qsign (x : Q) : comparison := x ?= 0.

Module Num.

(** [x < y]; every comparison with [NaN] is false. *)
Definition ltb (x y : number) : bool :=
  match x, y with
  | Fin a, Fin b => Qltb a b
  | Fin _, PosInfinity => true
  | NegInfinity, Fin _ => true
  | NegInfinity, PosInfinity => true
  | _, _ => false
  end.

(** [x > y] *)
Definition gtb (x y : number) : bool := ltb y x.

Definition neg (x : number) : number :=
  match x with
  | Fin a => Fin (- a)
  | PosInfinity => NegInfinity
  | NegInfinity => PosInfinity
  | NaN => NaN
  end.

Definition add (x y : number) : number :=
  match x, y with
  | NaN, _ | _, NaN => NaN
  | Fin a, Fin b => Fin (a + b)
  | PosInfinity, NegInfinity | NegInfinity, PosInfinity => NaN
  | PosInfinity, _ | _, PosInfinity => PosInfinity
  | NegInfinity, _ | _, NegInfinity => NegInfinity
  end.

Definition sub (x y : number) : number := add x (neg y).

(** The infinity whose sign is that of a product of a positive infinity
    with something of sign [s]. *)
Definition signed_inf (s : comparison) : number :=
  match s with
  | Gt => PosInfinity
  | Lt => NegInfinity
  | Eq => NaN
  end.

Definition sign (x : number) : option comparison :=
  match x with
  | Fin a => Some (Qsign a)
  | PosInfinity => Some Gt
  | NegInfinity => Some Lt
  | NaN => None
  end.

Definition mul (x y : number) : number :=
  match x, y with
  | NaN, _ | _, NaN => NaN
  | Fin a, Fin b => Fin (a * b)
  | PosInfinity, o | o, PosInfinity =>
      match sign o with Some s => signed_inf s | None => NaN end
  | NegInfinity, o | o, NegInfinity =>
      match sign o with Some s => neg (signed_inf s) | None => NaN end
  end.

(** Division.  A zero divisor is [+0]: [a / 0] is the infinity of the sign
    of [a], and [0 / 0] is [NaN]. *)
Definition div (x y : number) : number :=
  match x, y with
  | NaN, _ | _, NaN => NaN
  | Fin a, Fin b =>
      match Qsign b with
      | Eq => signed_inf (Qsign a)
      | _ => Fin (a / b)
      end
  | Fin _, _ => Fin 0
  | PosInfinity, Fin b =>
      match Qsign b with Lt => NegInfinity | _ => PosInfinity end
  | NegInfinity, Fin b =>
      match Qsign b with Lt => PosInfinity | _ => NegInfinity end
  | _, _ => NaN
  end.

Definition of_Z (z : Z) : number := Fin (inject_Z z).
Definition of_nat (n : nat) : number := of_Z (Z.of_nat n).

End Num.

(** [Number(v)] of a [bigint | null]: [Number(null)] is [0]. *)
Definition Number_of (v : option Z) : Q :=
  match v with
  | Some z => inject_Z z
  | None => 0
  end.

(** [Math.round]: the nearest integer, a half going up. *)
Definition Math_round (x : number) : number :=
  match x with
  | Fin a => Num.of_Z (Qfloor (a + 0.5))
  | _ => x
  end.

(** [Math.min(...xs)]: [Infinity] for no argument. *)
Definition Math_min (xs : list Q) : number :=
  match xs with
  | [] => PosInfinity
  | x :: rest => Fin (fold_left Qmin rest x)
  end.

(** Decimal digits of a natural number, as [String(n)] writes them. *)
Definition digits (n : nat) : string :=
  NilZero.string_of_uint (Nat.to_uint n).

Definition digitsZ (z : Z) : string := digits (Z.to_nat z).

(** ** The host

    What the operations take from the JavaScript engine they run in: the
    offset of local time ([LocalTZA], milliseconds to add to a UTC time
    value), the successive results of [Math.random()], and the text
    [Number::toString] gives for a magnitude of at least [10^21], which is
    the one case where [toFixed] defers to it. *)
Record Host : Type := {
  LocalTZA : Z -> Z;
  Math_random : nat -> Q;
  NumberToString : Q -> string
}.

Definition msPerHour : Z := 3600000.

(** [new Date(t).getUTCHours()] *)
Definition getUTCHours (t : Z) : nat :=
  Z.to_nat ((t / msPerHour) mod 24).

(** [new Date(t).getHours()]: the hour of the local time [t + LocalTZA t],
    for a time [t] in the range of [Date]; [Double.getHours] has the
    invalid date too. *)
Definition getHours (h : Host) (t : Z) : nat :=
  getUTCHours (t + LocalTZA h t).

(** [x.toFixed(1)] *)
Definition toFixed1 (h : Host) (x : number) : string :=
  match x with
  | NaN => "NaN"
  | PosInfinity => "Infinity"
  | NegInfinity => "-Infinity"
  | Fin q =>
      let s := if Qltb q 0 then "-" else "" in
      let a := Qabs q in
      if Qltb a 1e21 then
        let n := Qfloor (a * 10 + 0.5) in
        s ++ digitsZ (n / 10) ++ "." ++ digitsZ (n mod 10)
      else s ++ NumberToString h a
  end%string.

(** ** The chain accessor

    The part of [ethers.BrowserProvider] the sampler reads.  A read either
    completes with a value or throws.  Within one operation no quantity is
    read twice, so a provider is given by the answers it has for that
    operation; the statements below hold for every provider. *)

Record Error : Type := { message : string }.

Inductive completion (A : Type) : Type :=
| Normal (a : A)
| Throw (e : Error).
Arguments Normal {A} a.
Arguments Throw {A} e.

Module ethers.

Record Block : Type := {
  timestamp : Z;                (* seconds since the epoch *)
  baseFeePerGas : option Z      (* null | bigint, in wei *)
}.

Record FeeData : Type := {
  gasPrice : option Z           (* null | bigint, in wei *)
}.

Record BrowserProvider : Type := {
  getBlockNumber : completion Z;
  getBlock : Z -> completion (option Block);
  getFeeData : completion FeeData
}.

End ethers.

(** ** Data of the sampler *)

Record GasData : Type := {
  timestamp : Z;
  price : Q;
  priority : Q
}.

Record GasRecommendation : Type := {
  bestTime : string;
  estimatedSavings : string;
  currentGwei : number;
  historicalLow : number;
  batchingRecommendation : string
}.

(** The two private fields of the class. *)
Record GasOptimizer : Type := {
  historicalData : list GasData;
  provider : option ethers.BrowserProvider
}.

(** What [new GasOptimizer()] builds, the one instance [getInstance] hands
    out. *)
Definition instance : GasOptimizer :=
  {| historicalData := []; provider := None |}.

(** A read of the chain accessor, as it is issued. *)
Inductive Read : Type :=
| ReadBlockNumber
| ReadBlock (n : Z)
| ReadFeeData.

(** The state an operation runs in: the object, what [console.error] has
    been given, the reads issued so far (oldest first) and the number of
    [Math.random()] draws made. *)
Record Runtime : Type := {
  this : GasOptimizer;
  console : list (string * Error);
  reads : list Read;
  draws : nat
}.

Definition boot : Runtime :=
  {| this := instance; console := []; reads := []; draws := 0 |}.

(** ** Operations with state and exceptions *)

Definition M (A : Type) : Type := Runtime -> completion A * Runtime.

Definition ret {A} (a : A) : M A := fun rt => (Normal a, rt).

Definition bind {A B} (m : M A) (k : A -> M B) : M B :=
  fun rt =>
    match m rt with
    | (Normal a, rt') => k a rt'
    | (Throw e, rt') => (Throw e, rt')
    end.

Notation "x <- m ;; k" := (bind m (fun x => k))
  (at level 61, m at next level, right associativity).
Notation "m ;;; k" := (bind m (fun _ => k))
  (at level 61, right associativity).

Definition throw {A} (e : Error) : M A := fun rt => (Throw e, rt).

(** [try { body } catch (error) { handler }]: what the body did to the state
    before it threw stays done. *)
Definition try_catch {A} (body : M A) (handler : Error -> M A) : M A :=
  fun rt =>
    match body rt with
    | (Normal a, rt') => (Normal a, rt')
    | (Throw e, rt') => handler e rt'
    end.

Definition get_this : M GasOptimizer := fun rt => (Normal (this rt), rt).

Definition set_this (o : GasOptimizer) : M unit :=
  fun rt =>
    (Normal tt,
     {| this := o; console := console rt; reads := reads rt;
        draws := draws rt |}).

Definition set_provider (p : ethers.BrowserProvider) : M unit :=
  o <- get_this ;;
  set_this {| historicalData := historicalData o; provider := Some p |}.

Definition set_historicalData (blocks : list GasData) : M unit :=
  o <- get_this ;;
  set_this {| historicalData := blocks; provider := provider o |}.

Definition console_error (label : string) (e : Error) : M unit :=
  fun rt =>
    (Normal tt,
     {| this := this rt; console := console rt ++ [(label, e)];
        reads := reads rt; draws := draws rt |}).

(** Issue a read: it is recorded, then it completes as the provider says. *)
Definition issue {A} (r : Read) (answer : completion A) : M A :=
  fun rt =>
    (answer,
     {| this := this rt; console := console rt; reads := reads rt ++ [r];
        draws := draws rt |}).

Definition provider_getBlockNumber (p : ethers.BrowserProvider) : M Z :=
  issue ReadBlockNumber (ethers.getBlockNumber p).

Definition provider_getBlock (p : ethers.BrowserProvider) (n : Z)
  : M (option ethers.Block) :=
  issue (ReadBlock n) (ethers.getBlock p n).

Definition provider_getFeeData (p : ethers.BrowserProvider)
  : M ethers.FeeData :=
  issue ReadFeeData (ethers.getFeeData p).

(** [Math.random()] *)
Definition random (h : Host) : M Q :=
  fun rt =>
    (Normal (Math_random h (draws rt)),
     {| this := this rt; console := console rt; reads := reads rt;
        draws := S (draws rt) |}).

(** ** [initialize] and [updateHistoricalData] *)

(** The object pushed for a retrieved block; [r] is the [Math.random()]
    drawn for it.  The quotient and the sum are exact here; [Double.sample]
    rounds them. *)
Definition sample (block : ethers.Block) (r : Q) : GasData :=
  {| timestamp := ethers.timestamp block * 1000;
     price := Number_of (ethers.baseFeePerGas block) / 1e9;
     priority := r * 2 + 0.5 |}.

(** The loop [for (let i = 0; i < 100; i++)], from [i] on with [n] rounds
    left. *)
Fixpoint fetchBlocks (h : Host) (p : ethers.BrowserProvider)
    (currentBlock : Z) (i : Z) (n : nat) (blocks : list GasData)
  : M (list GasData) :=
  match n with
  | O => ret blocks
  | S n' =>
      block <- provider_getBlock p (currentBlock - i) ;;
      blocks' <- match block with
                 | Some b => r <- random h ;; ret (blocks ++ [sample b r])
                 | None => ret blocks
                 end ;;
      fetchBlocks h p currentBlock (i + 1) n' blocks'
  end.

Definition updateHistoricalData (h : Host) : M unit :=
  o <- get_this ;;
  match provider o with
  | None => ret tt
  | Some p =>
      try_catch
        (currentBlock <- provider_getBlockNumber p ;;
         blocks <- fetchBlocks h p currentBlock 0 100 [] ;;
         set_historicalData blocks)
        (fun error => console_error "Error updating gas data:" error)
  end.

Definition initialize (h : Host) (p : ethers.BrowserProvider) : M unit :=
  set_provider p ;;;
  updateHistoricalData h.

(** ** [getGasRecommendation] *)

Definition Uninitialized : Error :=
  {| message := "Gas optimizer not initialized" |}.

(** One entry of [hourlyAverages]. *)
Record Bucket : Type := { sum : Q; count : nat }.

(** [hourlyAverages[hour].sum += p; hourlyAverages[hour].count++], for an
    [hour] that is an index of the array, as every result of [getHours]
    is. *)
Fixpoint bump (hour : nat) (p : Q) (buckets : list Bucket) : list Bucket :=
  match buckets, hour with
  | [], _ => []
  | b :: rest, O => {| sum := sum b + p; count := S (count b) |} :: rest
  | b :: rest, S k => b :: bump k p rest
  end.

(** [new Array(24).fill(0).map(() => ({ sum: 0, count: 0 }))] followed by
    the [forEach] over the window. *)
Definition hourlyAverages (h : Host) (window : list GasData) : list Bucket :=
  fold_left
    (fun buckets data =>
       bump (getHours h (timestamp data)) (price data) buckets)
    window (repeat {| sum := 0; count := 0 |} 24).

Record Best : Type := { hour : nat; avg : number }.

(** [current.count > 0 ? current.sum / current.count : Infinity], the
    exact quotient of the exact sum; [Double.average] is the rounded one. *)
Definition average (current : Bucket) : number :=
  if (0 <? count current)%nat
  then Num.div (Fin (sum current)) (Num.of_nat (count current))
  else PosInfinity.

(** The callback of the [reduce] that looks for the best hour. *)
Definition pick (best : Best) (current : Bucket) (index : nat) : Best :=
  if Num.ltb (average current) (avg best)
  then {| hour := index; avg := average current |}
  else best.

(** [array.reduce(f, init)], the callback given the index too; [index] is
    that of the head of [array]. *)
Fixpoint reduce_from {A B} (f : B -> A -> nat -> B) (index : nat)
    (array : list A) (init : B) : B :=
  match array with
  | [] => init
  | x :: rest => reduce_from f (S index) rest (f init x index)
  end.

Definition bestHour (h : Host) (window : list GasData) : nat :=
  hour (reduce_from pick 0 (hourlyAverages h window)
          {| hour := 0; avg := PosInfinity |}).

Definition Batching : string :=
  "Batching transactions recommended for optimal gas savings".
Definition Individual : string :=
  "Individual transactions acceptable at current gas prices".

(** The values [getGasRecommendation] computes between the live read and
    the [return], as functions of the window and of the fee data read, in
    exact arithmetic.  What is printed of them to the last digit, and the
    comparison at its boundary, are those of [Double.liveGwei],
    [Double.potentialSavings] and [Double.shouldBatch]. *)
Definition liveGwei (fee : ethers.FeeData) : number :=
  Num.div (Fin (Number_of (ethers.gasPrice fee))) (Fin 1e9).

Definition lowest (window : list GasData) : number :=
  Math_min (map price window).

Definition avgPrice (window : list GasData) : number :=
  Num.div (Fin (fold_left (fun sum d => sum + price d) window 0))
          (Num.of_nat (List.length window)).

Definition potentialSavings (current low : number) : number :=
  Num.mul (Num.div (Num.sub current low) current) (Fin 100).

Definition shouldBatch (current average : number) : bool :=
  Num.gtb current (Num.mul average (Fin 1.2)).

Definition recommend (h : Host) (window : list GasData)
    (fee : ethers.FeeData) : GasRecommendation :=
  let current := liveGwei fee in
  let low := lowest window in
  let best := bestHour h window in
  {| bestTime :=
       digits best ++ ":00 - " ++ digits ((best + 1) mod 24) ++ ":00 UTC";
     estimatedSavings := toFixed1 h (potentialSavings current low) ++ "%";
     currentGwei := Math_round current;
     historicalLow := Math_round low;
     batchingRecommendation :=
       if shouldBatch current (avgPrice window) then Batching else Individual
  |}%string.

Definition getGasRecommendation (h : Host) : M GasRecommendation :=
  o <- get_this ;;
  match provider o, historicalData o with
  | None, _ | _, [] => throw Uninitialized
  | Some p, window =>
      currentFeeData <- provider_getFeeData p ;;
      ret (recommend h window currentFeeData)
  end.

(** ** [getHistoricalData] *)

Definition getHistoricalData : M (list GasData) :=
  o <- get_this ;;
  ret (historicalData o).

(** ** Vocabulary of the statements *)

(** The block numbers [from], [from - 1], ... : [n] of them. *)
Fixpoint countdown (from : Z) (n : nat) : list Z :=
  match n with
  | O => []
  | S n' => from :: countdown (from - 1) n'
  end.

(** The samples built from a run of answered block reads, [None] being a
    block that was not there; [d] is the number of draws made before. *)
Fixpoint samples (h : Host) (d : nat) (answers : list (option ethers.Block))
  : list GasData :=
  match answers with
  | [] => []
  | None :: rest => samples h d rest
  | Some b :: rest => sample b (Math_random h d) :: samples h (S d) rest
  end.

(** The blocks among the answers. *)
Fixpoint retrieved (answers : list (option ethers.Block))
  : list ethers.Block :=
  match answers with
  | [] => []
  | None :: rest => retrieved rest
  | Some b :: rest => b :: retrieved rest
  end.

Definition is_block_read (r : Read) : bool :=
  match r with ReadBlock _ => true | _ => false end.

(** The fetch attempts among a list of reads. *)
Definition attempts (rs : list Read) : list Read := filter is_block_read rs.

(** The runtimes the program can be in: what a sequence of calls makes of
    the fresh instance. *)
Inductive reachable (h : Host) : Runtime -> Prop :=
| reach_boot : reachable h boot
| reach_initialize rt p :
    reachable h rt -> reachable h (snd (initialize h p rt))
| reach_recommendation rt :
    reachable h rt -> reachable h (snd (getGasRecommendation h rt))
| reach_historical rt :
    reachable h rt -> reachable h (snd (getHistoricalData rt)).

(** Sum and mean of a list of prices. *)
Fixpoint Qsum (xs : list Q) : Q :=
  match xs with
  | [] => 0
  | x :: rest => x + Qsum rest
  end.

Definition mean (xs : list Q) : Q :=
  Qsum xs / inject_Z (Z.of_nat (List.length xs)).

(** The prices of the samples of a window that fall in hour [k], by the
    clock [clock]. *)
Definition prices_at (clock : Z -> nat) (k : nat) (window : list GasData)
  : list Q :=
  map price (filter (fun d => Nat.eqb (clock (timestamp d)) k) window).

(** The text of the one-hour window that starts at hour [H]. *)
Definition hour_window (H : nat) : string :=
  (digits H ++ ":00 - " ++ digits ((H + 1) mod 24) ++ ":00 UTC")%string.

(** The label [updateHistoricalData] logs a caught error under. *)
Definition gas_log : string := "Error updating gas data:".

(** The three ways an [initialize] can go. *)
Inductive initialize_case (p : ethers.BrowserProvider) : Prop :=
| HeadThrown e (_ : ethers.getBlockNumber p = Throw e)
| Answered head answers
    (_ : ethers.getBlockNumber p = Normal head)
    (_ : map (ethers.getBlock p) (countdown head 100) = map Normal answers)
| BlockThrown head answers k e
    (_ : ethers.getBlockNumber p = Normal head)
    (_ : (k < 100)%nat)
    (_ : map (ethers.getBlock p) (countdown head k) = map Normal answers)
    (_ : ethers.getBlock p (head - Z.of_nat k) = Throw e).

(** The error [e] is thrown by a read that [initialize] issues on [p]: by
    the head read, or by the first block read that throws. *)
Definition thrown_during_initialize (p : ethers.BrowserProvider) (e : Error)
  : Prop :=
  ethers.getBlockNumber p = Throw e
  \/ exists head k answers,
       ethers.getBlockNumber p = Normal head
       /\ (k < 100)%nat
       /\ map (ethers.getBlock p) (countdown head k) = map Normal answers
       /\ ethers.getBlock p (head - Z.of_nat k) = Throw e.

(** What a sample says of its block, and what a block gives to say: the
    time in milliseconds and the base fee in gwei. *)
Definition observed (d : GasData) : Z * Q := (timestamp d, price d).

Definition observation (b : ethers.Block) : Z * Q :=
  ((ethers.timestamp b * 1000)%Z,
   Number_of (ethers.baseFeePerGas b) / 1e9).

(** ** Hosts and providers of the examples *)

(** A browser whose local time is UTC, and one an hour ahead of it. *)
Definition utc : Host :=
  {| LocalTZA := fun _ => 0%Z;
     Math_random := fun _ => 1 # 4;
     NumberToString := fun _ => "1e+21"%string |}.

Definition utc_plus_1 : Host :=
  {| LocalTZA := fun _ => 3600000%Z;
     Math_random := fun _ => 1 # 4;
     NumberToString := fun _ => "1e+21"%string |}.

Definition network_error : Error := {| message := "could not detect network" |}.

(** A chain at block 1000 with twelve-second blocks; every fourth block is
    not to be had; the base fee rises by a tenth of a gwei per block. *)
Definition chain_answer (n : Z) : option ethers.Block :=
  if (n mod 4 =? 0)%Z then None
  else Some {| ethers.timestamp := (1700000000 + 12 * n)%Z;
               ethers.baseFeePerGas := Some (5600000000 + 100000000 * n)%Z |}.

Definition chain : ethers.BrowserProvider :=
  {| ethers.getBlockNumber := Normal 1000%Z;
     ethers.getBlock := fun n => Normal (chain_answer n);
     ethers.getFeeData := Normal {| ethers.gasPrice := Some 20000000000%Z |} |}.

(** A provider none of whose reads goes through. *)
Definition offline : ethers.BrowserProvider :=
  {| ethers.getBlockNumber := Throw network_error;
     ethers.getBlock := fun _ => Throw network_error;
     ethers.getFeeData := Throw network_error |}.

(** The chain above, the read of block 995 failing. *)
Definition flaky : ethers.BrowserProvider :=
  {| ethers.getBlockNumber := Normal 1000%Z;
     ethers.getBlock := fun n =>
       if (n =? 995)%Z then Throw network_error else ethers.getBlock chain n;
     ethers.getFeeData := Throw network_error |}.

(** A node that has pruned every block asked for. *)
Definition pruned : ethers.BrowserProvider :=
  {| ethers.getBlockNumber := Normal 1000%Z;
     ethers.getBlock := fun _ => Normal None;
     ethers.getFeeData := Normal {| ethers.gasPrice := Some 20000000000%Z |} |}.

(** A chain without a base fee: [baseFeePerGas] is [null] in every block. *)
Definition legacy_block (n : Z) : ethers.Block :=
  {| ethers.timestamp := (1700000000 + 12 * n)%Z;
     ethers.baseFeePerGas := None |}.

Definition legacy : ethers.BrowserProvider :=
  {| ethers.getBlockNumber := Normal 1000%Z;
     ethers.getBlock := fun n => Normal (Some (legacy_block n));
     ethers.getFeeData := Normal {| ethers.gasPrice := Some 20000000000%Z |} |}.

(** That chain, the read of block 995 failing. *)
Definition legacy_flaky : ethers.BrowserProvider :=
  {| ethers.getBlockNumber := Normal 1000%Z;
     ethers.getBlock := fun n =>
       if (n =? 995)%Z then Throw network_error
       else Normal (Some (legacy_block n));
     ethers.getFeeData := Normal {| ethers.gasPrice := Some 20000000000%Z |} |}.

(** A runtime whose window is [window] and whose provider is [p]. *)
Definition running (p : ethers.BrowserProvider) (window : list GasData)
  : Runtime :=
  {| this := {| historicalData := window; provider := Some p |};
     console := []; reads := []; draws := 0 |}.

(** A sample of price [p] at [hh] hours and [mm] minutes past the epoch. *)
Definition at_hour (hh mm : Z) (p : Q) : GasData :=
  {| timestamp := (hh * 3600000 + mm * 60000)%Z; price := p; priority := 1 |}.

(** The window of the specification's scenario: 10 and 12 gwei in hour 0,
    6 gwei in hour 5; [chain] reads a live price of 20 gwei. *)
Definition scenario : Runtime :=
  running chain [at_hour 0 0 10; at_hour 0 30 12; at_hour 5 0 6].

(** The bucket of hour [k] in [hourlyAverages]. *)
Definition bucket_at (clock : Z -> nat) (k : nat) (window : list GasData)
  : Bucket :=
  {| sum := fold_left Qplus (prices_at clock k window) 0;
     count := List.length (prices_at clock k window) |}.

(** A sample taken on 14 November 2023 at 22:13:20 UTC. *)
Definition evening : GasData :=
  {| timestamp := 1700000000000; price := 30; priority := 1 |}.

(** ** Further vocabulary *)

(** The chain accessor dates a block of a higher number later. *)
Definition dated_in_order (p : ethers.BrowserProvider) : Prop :=
  forall n m b b',
    (n < m)%Z ->
    ethers.getBlock p n = Normal (Some b) ->
    ethers.getBlock p m = Normal (Some b') ->
    (ethers.timestamp b < ethers.timestamp b')%Z.

(** The chain at block 1000, the read of block 995 failing and the live
    price read going through. *)
Definition glitchy : ethers.BrowserProvider :=
  {| ethers.getBlockNumber := Normal 1000%Z;
     ethers.getBlock := ethers.getBlock flaky;
     ethers.getFeeData := Normal {| ethers.gasPrice := Some 20000000000%Z |} |}.

(** * The page that shows the sampler

    The component [AdvancedReporting] of
    [src/components/AdvancedReporting.tsx]: its three pieces of state, the
    effect it runs when mounted ([initializeGasOptimizer]) and the update it
    runs then and on a timer ([updateGasData]).  The sampler it talks to is
    the one instance [GasOptimizer.getInstance()] returns, the [this] of the
    runtime. *)

(** ** Operations over any state *)

Module SE.

Definition t (S A : Type) : Type := S -> completion A * S.

Definition ret {S A} (a : A) : t S A := fun s => (Normal a, s).

Definition bind {S A B} (m : t S A) (k : A -> t S B) : t S B :=
  fun s =>
    match m s with
    | (Normal a, s') => k a s'
    | (Throw e, s') => (Throw e, s')
    end.

(** A value or an exception got from outside. *)
Definition settle {S A} (c : completion A) : t S A := fun s => (c, s).

(** [try { body } catch (error) { handler }] *)
Definition try_catch {S A} (body : t S A) (handler : Error -> t S A)
  : t S A :=
  fun s =>
    match body s with
    | (Normal a, s') => (Normal a, s')
    | (Throw e, s') => handler e s'
    end.

(** [try { body } finally { finalizer }]: the finalizer runs either way;
    the completion is that of the body unless the finalizer throws. *)
Definition try_finally {S A} (body : t S A) (finalizer : t S unit)
  : t S A :=
  fun s =>
    match body s with
    | (c, s') =>
        match finalizer s' with
        | (Normal _, s'') => (c, s'')
        | (Throw e, s'') => (Throw e, s'')
        end
    end.

(** An operation on a part [R] of the state, run on the whole. *)
Definition zoom {S R A} (get : S -> R) (put : R -> S -> S) (m : t R A)
  : t S A :=
  fun s =>
    match m (get s) with
    | (c, r') => (c, put r' s)
    end.

End SE.

Notation "x <-- m ;; k" := (SE.bind m (fun x => k))
  (at level 61, m at next level, right associativity).
Notation "m ;;- k" := (SE.bind m (fun _ => k))
  (at level 61, right associativity).

(** ** The state of the component *)

Record Page : Type := {
  runtime : Runtime;
  gasData : list GasData;
  gasRecommendation : option GasRecommendation;
  isLoading : bool;
  (** the delays of the timers set with [setInterval(updateGasData, _)],
      the first set first *)
  intervals : list Z
}.

(** The component as [useState] sets it up, over a runtime. *)
Definition fresh_page (rt : Runtime) : Page :=
  {| runtime := rt; gasData := []; gasRecommendation := None;
     isLoading := true; intervals := [] |}.

Definition with_runtime (rt : Runtime) (pg : Page) : Page :=
  {| runtime := rt; gasData := gasData pg;
     gasRecommendation := gasRecommendation pg;
     isLoading := isLoading pg; intervals := intervals pg |}.

(** A call on [GasOptimizer.getInstance()]. *)
Definition optimizer {A} (m : M A) : SE.t Page A :=
  SE.zoom runtime with_runtime m.

Definition setGasData (data : list GasData) : SE.t Page unit :=
  fun pg =>
    (Normal tt,
     {| runtime := runtime pg; gasData := data;
        gasRecommendation := gasRecommendation pg;
        isLoading := isLoading pg; intervals := intervals pg |}).

Definition setGasRecommendation (r : option GasRecommendation)
  : SE.t Page unit :=
  fun pg =>
    (Normal tt,
     {| runtime := runtime pg; gasData := gasData pg;
        gasRecommendation := r;
        isLoading := isLoading pg; intervals := intervals pg |}).

Definition setIsLoading (b : bool) : SE.t Page unit :=
  fun pg =>
    (Normal tt,
     {| runtime := runtime pg; gasData := gasData pg;
        gasRecommendation := gasRecommendation pg;
        isLoading := b; intervals := intervals pg |}).

(** [setInterval(updateGasData, delay)]; the value is the index of the
    timer. *)
Definition setInterval_updateGasData (delay : Z) : SE.t Page nat :=
  fun pg =>
    (Normal (List.length (intervals pg)),
     {| runtime := runtime pg; gasData := gasData pg;
        gasRecommendation := gasRecommendation pg;
        isLoading := isLoading pg; intervals := intervals pg ++ [delay] |}).

Definition update_log : string := "Error updating gas data:".
Definition initialize_log : string := "Error initializing gas optimizer:".

(** ** [updateGasData] *)

Definition updateGasData (h : Host) : SE.t Page unit :=
  SE.try_finally
    (SE.try_catch
       (historicalData <-- optimizer getHistoricalData ;;
        recommendation <-- optimizer (getGasRecommendation h) ;;
        setGasData historicalData ;;-
        setGasRecommendation (Some recommendation))
       (fun error =>
          optimizer (console_error "Error updating gas data:" error)))
    (setIsLoading false).

(** ** [initializeGasOptimizer]

    [ethereum] is [window.ethereum] as the constructor of
    [ethers.BrowserProvider] takes it: absent, or there, in which case the
    constructor gives a provider or throws.  The value is what the function
    returns: the timer that its closure [() => clearInterval(interval)]
    would clear, or nothing. *)
Definition initializeGasOptimizer (h : Host)
    (ethereum : option (completion ethers.BrowserProvider))
  : SE.t Page (option nat) :=
  match ethereum with
  | None => SE.ret None
  | Some construct =>
      SE.try_catch
        (provider <-- SE.settle construct ;;
         optimizer (initialize h provider) ;;-
         updateGasData h ;;-
         interval <-- setInterval_updateGasData 30000 ;;
         SE.ret (Some interval))
        (fun error =>
           optimizer (console_error "Error initializing gas optimizer:" error) ;;-
           setIsLoading false ;;-
           SE.ret None)
  end.

(** The page after the timer has fired [n] times. *)
Fixpoint ticks (h : Host) (n : nat) (pg : Page) : Page :=
  match n with
  | O => pg
  | S n' => ticks h n' (snd (updateGasData h pg))
  end.

(** The reads [n] calls of [getGasRecommendation] issue on the sampler [o],
    which they leave as it is: one live fee read each when the guard lets
    the call through, none when it does not. *)
Definition live_reads (o : GasOptimizer) (n : nat) : list Read :=
  match provider o, historicalData o with
  | Some _, _ :: _ => repeat ReadFeeData n
  | _, _ => []
  end.

(** The page after it was mounted: the effect of the component calls
    [initializeGasOptimizer]. *)
Definition mounted (h : Host)
    (ethereum : option (completion ethers.BrowserProvider)) (pg : Page)
  : Page :=
  snd (initializeGasOptimizer h ethereum pg).

(** The pages the component can be in: mounted once over some runtime of
    the sampler, the timer then firing any number of times. *)
Inductive displayed (h : Host) : Page -> Prop :=
| displayed_mounted rt ethereum :
    displayed h (mounted h ethereum (fresh_page rt))
| displayed_tick pg :
    displayed h pg -> intervals pg <> [] ->
    displayed h (snd (updateGasData h pg)).

(** What the page shows in its two panels. *)
Inductive Panel : Type := Spinner | Content | Nothing.

(** [isLoading ? ... : gasRecommendation ? ... : ...] *)
Definition recommendation_panel (pg : Page) : Panel :=
  if isLoading pg then Spinner
  else match gasRecommendation pg with
       | Some _ => Content
       | None => Nothing
       end.

(** [isLoading ? ... : gasData.length > 0 ? ... : ...] *)
Definition chart_panel (pg : Page) : Panel :=
  if isLoading pg then Spinner
  else if (0 <? List.length (gasData pg))%nat then Content else Nothing.

(** The recommendation on the page was computed from the chart data on the
    page; without a recommendation there is no chart data. *)
Definition coupled (h : Host) (pg : Page) : Prop :=
  match gasRecommendation pg with
  | None => gasData pg = []
  | Some r =>
      gasData pg <> [] /\ exists fee, r = recommend h (gasData pg) fee
  end.

(** * The OpenServ client

    The class [OpenServAgent] of [src/lib/openserv.ts]: a POST of JSON to
    an endpoint of the agent, and five calls built on it.  A JSON value is
    kept as a value: the body of a request is what [JSON.stringify] is
    given, the body of a response what [response.json()] gives. *)

Set Warnings "-register-all".
Inductive value : Type :=
| JUndefined
| JNull
| JBool (b : bool)
| JNumber (n : Q)
| JString (s : string)
| JArray (items : list value)
| JObject (fields : list (string * value)).

Fixpoint lookup (key : string) (fields : list (string * value)) : value :=
  match fields with
  | [] => JUndefined
  | (k, v) :: rest => if String.eqb k key then v else lookup key rest
  end.

(** What the code takes from the engine it runs on: the [TypeError] thrown
    for a read of the property [key] of [v], for [v] [undefined] or [null].
    Its message is the engine's own. *)
Record Engine : Type := {
  TypeError_reading : value -> string -> Error
}.

(** [v.key], for a [key] that no prototype has: a [TypeError] on
    [undefined] and [null], the field of an object, [undefined] on
    anything else. *)
Definition get (js : Engine) (v : value) (key : string) : completion value :=
  match v with
  | JUndefined | JNull => Throw (TypeError_reading js v key)
  | JObject fields => Normal (lookup key fields)
  | _ => Normal JUndefined
  end.

Definition strings (xs : list string) : value := JArray (map JString xs).

(** ** Requests, responses and the browser *)

Record Request : Type := {
  url : string;
  method : string;
  headers : list (string * string);
  body : value
}.

Record Response : Type := {
  ok : bool;
  statusText : string;
  json : completion value
}.

(** What the client takes from the browser: [fetch], which answers a
    request with a response or rejects, and the successive results of
    [crypto.randomUUID()] and of [Date.now()]. *)
Record Browser : Type := {
  fetch : Request -> completion Response;
  randomUUID : nat -> string;
  Date_now : nat -> Z
}.

(** The two variables of [import.meta.env] the client reads; a variable
    that is not set is [undefined]. *)
Record Env : Type := {
  VITE_OPENSERV_API_KEY : option string;
  VITE_BACKEND_URL : option string
}.

(** A string or [undefined] where a string is spliced or concatenated. *)
Definition text (s : option string) : string :=
  match s with
  | Some s => s
  | None => "undefined"
  end.

(** The state the client runs in: the console, the requests sent (oldest
    first), and the numbers of identifiers and of clock readings taken. *)
Record Web : Type := {
  web_console : list (string * Error);
  sent : list Request;
  uuids : nat;
  clock_reads : nat
}.

Definition offline_web : Web :=
  {| web_console := []; sent := []; uuids := 0; clock_reads := 0 |}.

Definition web_error (label : string) (e : Error) : SE.t Web unit :=
  fun w =>
    (Normal tt,
     {| web_console := web_console w ++ [(label, e)]; sent := sent w;
        uuids := uuids w; clock_reads := clock_reads w |}).

Definition crypto_randomUUID (b : Browser) : SE.t Web string :=
  fun w =>
    (Normal (randomUUID b (uuids w)),
     {| web_console := web_console w; sent := sent w;
        uuids := S (uuids w); clock_reads := clock_reads w |}).

Definition now (b : Browser) : SE.t Web Z :=
  fun w =>
    (Normal (Date_now b (clock_reads w)),
     {| web_console := web_console w; sent := sent w;
        uuids := uuids w; clock_reads := S (clock_reads w) |}).

Definition send (b : Browser) (r : Request) : SE.t Web Response :=
  fun w =>
    (fetch b r,
     {| web_console := web_console w; sent := sent w ++ [r];
        uuids := uuids w; clock_reads := clock_reads w |}).

Definition raise {A} (e : Error) : SE.t Web A := fun w => (Throw e, w).

(** ** The class *)

Record OpenServAgent : Type := {
  apiKey : option string;
  apiUrl : string
}.

(** The constructor. *)
Definition new_OpenServAgent (env : Env) : OpenServAgent :=
  {| apiKey := VITE_OPENSERV_API_KEY env;
     apiUrl := (text (VITE_BACKEND_URL env)
                ++ "/agents/smart-yield-optimizer")%string |}.

(** The request [fetchFromOpenServ] builds; [id] is the identifier drawn
    for it. *)
Definition request (agent : OpenServAgent) (endpoint : string)
    (data : value) (id : string) : Request :=
  {| url := (apiUrl agent ++ endpoint)%string;
     method := "POST";
     headers := [ ("Content-Type", "application/json");
                  ("Authorization", "Bearer " ++ text (apiKey agent));
                  ("X-Agent-Version", "1.0.0");
                  ("X-Request-ID", id) ]%string;
     body := data |}.

Definition api_error (statusText : string) : Error :=
  {| message := ("OpenServ API error: " ++ statusText)%string |}.

Definition fetchFromOpenServ (b : Browser) (agent : OpenServAgent)
    (endpoint : string) (data : value) : SE.t Web value :=
  SE.try_catch
    (id <-- crypto_randomUUID b ;;
     response <-- send b (request agent endpoint data id) ;;
     if negb (ok response) then raise (api_error (statusText response))
     else SE.settle (json response))
    (fun error =>
       web_error "OpenServ API Error:" error ;;-
       raise error).

Definition protocols : value := strings ["aave"; "curve"; "lido"; "gmx"]%string.

Definition agent_initialize (b : Browser) (agent : OpenServAgent)
  : SE.t Web unit :=
  SE.try_catch
    (fetchFromOpenServ b agent "/initialize"
       (JObject
          [ ("capabilities",
             strings ["market_analysis"; "risk_assessment";
                      "yield_optimization"; "protocol_health";
                      "transaction_simulation"]);
            ("supportedChains", strings ["ethereum"; "arbitrum"; "optimism"]);
            ("supportedProtocols", protocols) ]%string) ;;-
     SE.ret tt)
    (fun error =>
       web_error "Failed to initialize OpenServ agent:" error ;;-
       raise error).

(** The object [analyzeMarket] returns, built from the response in the
    order the source reads it. *)
Definition market_of (js : Engine) (analysis : value) : completion value :=
  match get js analysis "trend" with
  | Throw e => Throw e
  | Normal trend =>
  match get js analysis "opportunities" with
  | Throw e => Throw e
  | Normal opportunities =>
  match get js analysis "risks" with
  | Throw e => Throw e
  | Normal risks =>
  match get js trend "direction" with
  | Throw e => Throw e
  | Normal direction =>
  match get js analysis "network" with
  | Throw e => Throw e
  | Normal network =>
  match get js network "gasFees" with
  | Throw e => Throw e
  | Normal gasFees =>
  match get js analysis "market" with
  | Throw e => Throw e
  | Normal market =>
  match get js market "liquidity" with
  | Throw e => Throw e
  | Normal liquidity =>
  match get js market "volatility" with
  | Throw e => Throw e
  | Normal volatility =>
      Normal
        (JObject
           [ ("trend", trend);
             ("opportunities", opportunities);
             ("risks", risks);
             ("conditions",
              JObject [ ("trend", direction);
                        ("gasFees", gasFees);
                        ("liquidity", liquidity);
                        ("volatility", volatility) ]) ]%string)
  end end end end end end end end end.

Definition analyzeMarket (js : Engine) (b : Browser) (agent : OpenServAgent)
  : SE.t Web value :=
  SE.try_catch
    (timestamp <-- now b ;;
     analysis <-- fetchFromOpenServ b agent "/market/analyze"
                    (JObject
                       [ ("timestamp", JNumber (inject_Z timestamp));
                         ("includeMetrics",
                          strings ["trend"; "volatility"; "liquidity"; "gas"])
                       ]%string) ;;
     SE.settle (market_of js analysis))
    (fun error =>
       web_error "Market analysis failed:" error ;;-
       raise error).

Definition agent_getProtocolHealth (b : Browser) (agent : OpenServAgent)
  : SE.t Web value :=
  SE.try_catch
    (fetchFromOpenServ b agent "/protocol/health"
       (JObject
          [ ("protocols", protocols);
            ("metrics", strings ["tvl"; "utilization"; "risks"; "security"])
          ]%string))
    (fun error =>
       web_error "Protocol health check failed:" error ;;-
       raise error).

Definition optimizeYield (js : Engine) (b : Browser) (agent : OpenServAgent)
    (balance preferences : value) : SE.t Web value :=
  SE.try_catch
    (marketData <-- analyzeMarket js b agent ;;
     protocolHealth <-- agent_getProtocolHealth b agent ;;
     result <-- fetchFromOpenServ b agent "/strategy/optimize"
                  (JObject
                     [ ("balance", balance);
                       ("preferences", preferences);
                       ("marketData", marketData);
                       ("protocolHealth", protocolHealth) ]%string) ;;
     SE.settle (get js result "strategy"))
    (fun error =>
       web_error "Yield optimization failed:" error ;;-
       raise error).

Definition simulateStrategy (b : Browser) (agent : OpenServAgent)
    (strategy : value) : SE.t Web value :=
  SE.try_catch
    (fetchFromOpenServ b agent "/strategy/simulate"
       (JObject
          [ ("strategy", strategy);
            ("simulationPeriod", JString "30d");
            ("includeMetrics", strings ["returns"; "risks"; "costs"])
          ]%string))
    (fun error =>
       web_error "Strategy simulation failed:" error ;;-
       raise error).

(** ** Vocabulary for the client *)

(** What [fetchFromOpenServ] makes of the answer of [fetch]: a rejection
    stays what it is, a response that is not [ok] becomes an error that
    carries its status text, and the body of an [ok] response is read. *)
Definition outcome (answer : completion Response) : completion value :=
  match answer with
  | Throw e => Throw e
  | Normal response =>
      if negb (ok response) then Throw (api_error (statusText response))
      else json response
  end.

(** What is logged for a completion, under a label: the error, if it is
    one. *)
Definition logged {A} (label : string) (c : completion A)
  : list (string * Error) :=
  match c with
  | Throw e => [(label, e)]
  | Normal _ => []
  end.

(** Neither [undefined] nor [null]. *)
Definition readable (v : value) : bool :=
  match v with
  | JUndefined | JNull => false
  | _ => true
  end.

(** The field [key] of [v], [undefined] where there is none. *)
Definition field (v : value) (key : string) : value :=
  match v with
  | JObject fields => lookup key fields
  | _ => JUndefined
  end.

(** The requests sent since the state [w]. *)
Definition sent_since (w w' : Web) : list Request :=
  skipn (List.length (sent w)) (sent w').

(** The three endpoints [optimizeYield] posts to, in the order of the
    source. *)
Definition optimize_route (agent : OpenServAgent) : list string :=
  [ apiUrl agent ++ "/market/analyze";
    apiUrl agent ++ "/protocol/health";
    apiUrl agent ++ "/strategy/optimize" ]%string.

(** The state [w] with [entries] more on the console, [requests] more
    sent, [ids] more identifiers drawn and [readings] more readings of the
    clock. *)
Definition advanced (entries : list (string * Error))
    (requests : list Request) (ids readings : nat) (w : Web) : Web :=
  {| web_console := web_console w ++ entries;
     sent := sent w ++ requests;
     uuids := uuids w + ids;
     clock_reads := clock_reads w + readings |}.

(** The call [op] relays one request, [r w] from the state [w]: it sends
    that request and nothing else; it fails exactly when the request does,
    with the same error, logged once under "OpenServ API Error:" and once
    under [label]; when it succeeds nothing is logged. *)
Definition relays {A} (b : Browser) (op : SE.t Web A) (label : string)
    (r : Web -> Request) : Prop :=
  forall w,
    sent (snd (op w)) = sent w ++ [r w]
    /\ (forall e,
          fst (op w) = Throw e <-> outcome (fetch b (r w)) = Throw e)
    /\ (forall e,
          fst (op w) = Throw e ->
          web_console (snd (op w))
          = web_console w ++ [("OpenServ API Error:", e); (label, e)]%string)
    /\ (forall a,
          fst (op w) = Normal a -> web_console (snd (op w)) = web_console w).

(** The bodies of the requests of the client. *)
Definition initialize_body : value :=
  JObject
    [ ("capabilities",
       strings ["market_analysis"; "risk_assessment"; "yield_optimization";
                "protocol_health"; "transaction_simulation"]);
      ("supportedChains", strings ["ethereum"; "arbitrum"; "optimism"]);
      ("supportedProtocols", protocols) ]%string.

Definition health_body : value :=
  JObject
    [ ("protocols", protocols);
      ("metrics", strings ["tvl"; "utilization"; "risks"; "security"])
    ]%string.

Definition simulate_body (strategy : value) : value :=
  JObject
    [ ("strategy", strategy);
      ("simulationPeriod", JString "30d");
      ("includeMetrics", strings ["returns"; "risks"; "costs"]) ]%string.

Definition market_body (timestamp : Z) : value :=
  JObject
    [ ("timestamp", JNumber (inject_Z timestamp));
      ("includeMetrics", strings ["trend"; "volatility"; "liquidity"; "gas"])
    ]%string.

Definition optimize_body (balance preferences marketData protocolHealth : value)
  : value :=
  JObject
    [ ("balance", balance);
      ("preferences", preferences);
      ("marketData", marketData);
      ("protocolHealth", protocolHealth) ]%string.

(** The object [analyzeMarket] returns for a response all of whose parts
    can be read. *)
Definition market_view (analysis : value) : value :=
  JObject
    [ ("trend", field analysis "trend");
      ("opportunities", field analysis "opportunities");
      ("risks", field analysis "risks");
      ("conditions",
       JObject
         [ ("trend", field (field analysis "trend") "direction");
           ("gasFees", field (field analysis "network") "gasFees");
           ("liquidity", field (field analysis "market") "liquidity");
           ("volatility", field (field analysis "market") "volatility") ])
    ]%string.

(** The parts of a response that [analyzeMarket] reads a property of. *)
Definition well_shaped (analysis : value) : bool :=
  readable analysis
  && readable (field analysis "trend")
  && readable (field analysis "network")
  && readable (field analysis "market").

(** The first read of the object [analyzeMarket] returns that cannot be
    made, in the order in which the source writes them: the value that is
    [undefined] or [null] and the property asked of it.  [analysis.trend]
    comes first, then [analysis.trend.direction], [analysis.network.gasFees]
    and [analysis.market.liquidity]; the other reads are of values already
    read from. *)
Definition first_unreadable (analysis : value) : option (value * string) :=
  if negb (readable analysis) then
    Some (analysis, "trend"%string)
  else if negb (readable (field analysis "trend")) then
    Some (field analysis "trend", "direction"%string)
  else if negb (readable (field analysis "network")) then
    Some (field analysis "network", "gasFees"%string)
  else if negb (readable (field analysis "market")) then
    Some (field analysis "market", "liquidity"%string)
  else None.

(** The three requests of an [optimizeYield] that starts in the state [w],
    with the identifiers drawn for them: the next three. *)
Definition market_request (b : Browser) (agent : OpenServAgent) (w : Web)
  : Request :=
  request agent "/market/analyze" (market_body (Date_now b (clock_reads w)))
    (randomUUID b (uuids w)).

Definition health_request (b : Browser) (agent : OpenServAgent) (w : Web)
  : Request :=
  request agent "/protocol/health" health_body (randomUUID b (uuids w + 1)).

Definition optimize_request (b : Browser) (agent : OpenServAgent) (w : Web)
    (balance preferences marketData protocolHealth : value) : Request :=
  request agent "/strategy/optimize"
    (optimize_body balance preferences marketData protocolHealth)
    (randomUUID b (uuids w + 2)).

(** ** Engines, browsers and agents of the examples *)

(** The wording of V8. *)
Definition cannot_read (what : string) (key : string) : Error :=
  {| message :=
       ("Cannot read properties of " ++ what
        ++ " (reading '" ++ key ++ "')")%string |}.

Definition V8 : Engine :=
  {| TypeError_reading := fun v key =>
       cannot_read (match v with JNull => "null" | _ => "undefined" end) key |}.

Definition agent0 : OpenServAgent :=
  new_OpenServAgent {| VITE_OPENSERV_API_KEY := Some "key";
                       VITE_BACKEND_URL := Some "https://backend" |}%string.

(** A backend that answers every request with an empty object. *)
Definition hollow : Browser :=
  {| fetch := fun _ => Normal {| ok := true; statusText := "OK";
                                 json := Normal (JObject []) |};
     randomUUID := fun _ => "00000000-0000-4000-8000-000000000000"%string;
     Date_now := fun _ => 1700000000000%Z |}.

(** A backend that answers the market analysis and the health check, and
    the optimization with an object that has no [strategy]. *)
Definition sparse : Browser :=
  {| fetch := fun r =>
       Normal
         {| ok := true; statusText := "OK";
            json :=
              Normal
                (if String.eqb (url r)
                      "https://backend/agents/smart-yield-optimizer/market/analyze"
                 then JObject [ ("trend", JObject [("direction", JString "up")]);
                                ("network", JObject []);
                                ("market", JObject []) ]
                 else JObject [])%string |};
     randomUUID := fun _ => "00000000-0000-4000-8000-000000000000"%string;
     Date_now := fun _ => 1700000000000%Z |}.

(** A backend that is down. *)
Definition unreachable : Browser :=
  {| fetch := fun _ => Throw {| message := "Failed to fetch" |};
     randomUUID := fun _ => "00000000-0000-4000-8000-000000000000"%string;
     Date_now := fun _ => 1700000000000%Z |}.

(** A backend whose gateway answers 502 to every request. *)
Definition bad_gateway : Browser :=
  {| fetch := fun _ => Normal {| ok := false; statusText := "Bad Gateway";
                                 json := Normal JNull |};
     randomUUID := fun _ => "00000000-0000-4000-8000-000000000000"%string;
     Date_now := fun _ => 1700000000000%Z |}.

(** * The recommendation in binary64

    The numbers of JavaScript are the doubles of IEEE 754.  The sections
    above compute with exact integers and rationals, which is what their
    statements need: which reads are issued and in which order, what is
    stored and when, the least price of a window and its rounding, the
    non-finite cases.  A statement that depends on the last bit of a
    computed number needs the rounding too: the digit printed for the
    savings, the comparison that decides the batching advice, the mean of
    an hour.  This part computes [getGasRecommendation] as the engine
    does: in binary64, every operation rounded to nearest, ties to even,
    with signed zeros, infinities and NaN.  The operations are those of the
    standard library's [SpecFloat], at precision 53 and exponent bound
    1024.

    The time a sample carries is a double as well, and [new Date] of it is
    the invalid date outside the range of [Date]. *)

Module Double.

Definition double : Type := spec_float.

Definition prec : Z := 53.
Definition emax : Z := 1024.

(** The double nearest to an integer: [Number(z)] of a bigint, and the
    value of an integer literal. *)
Definition of_Z (z : Z) : double := binary_normalize prec emax z 0 false.

Definition of_nat (n : nat) : double := of_Z (Z.of_nat n).

Definition add : double -> double -> double := SFadd prec emax.
Definition sub : double -> double -> double := SFsub prec emax.
Definition mul : double -> double -> double := SFmul prec emax.
Definition div : double -> double -> double := SFdiv prec emax.

(** [x < y] and [x > y]; every comparison with NaN is false. *)
Definition ltb (x y : double) : bool := SFltb x y.
Definition gtb (x y : double) : bool := SFltb y x.

Definition Infinity : double := S754_infinity false.

(** The literals [1.2] and [0.5]: the doubles nearest to 6/5 and to 1/2. *)
Definition literal_1_2 : double := S754_finite false 5404319552844595 (-52).
Definition literal_0_5 : double := S754_finite false 4503599627370496 (-53).

(** The real number a double stands for, both zeros being 0. *)
Definition real (x : double) : number :=
  match x with
  | S754_zero _ => Fin 0
  | S754_infinity false => PosInfinity
  | S754_infinity true => NegInfinity
  | S754_nan => NaN
  | S754_finite s m e =>
      Fin (inject_Z (if s then Zneg m else Zpos m) * 2 ^ e)
  end.

(** [Number(v)] of a [bigint | null]: [Number(null)] is [+0]. *)
Definition Number_of (v : option Z) : double :=
  match v with
  | Some z => of_Z z
  | None => S754_zero false
  end.

(** [Math.round]: the nearest integer, a half going up; a result of zero
    has the sign of the argument. *)
Definition Math_round (x : double) : double :=
  match x, real x with
  | S754_finite s _ _, Fin q =>
      match Qfloor (q + 0.5) with
      | Z0 => S754_zero s
      | n => of_Z n
      end
  | _, _ => x
  end.

Definition is_nan (x : double) : bool :=
  match x with S754_nan => true | _ => false end.

(** One step of [Math.min]: [-0] is below [+0]. *)
Definition lower (lowest x : double) : double :=
  match x, lowest with
  | S754_zero true, S754_zero false => x
  | _, _ => if ltb x lowest then x else lowest
  end.

(** [Math.min(...xs)]: NaN if an argument is, [Infinity] for no
    argument. *)
Definition Math_min (xs : list double) : double :=
  if existsb is_nan xs then S754_nan else fold_left lower xs Infinity.

(** [x.toFixed(1)]: the digits are those of the real number [x] stands
    for. *)
Definition toFixed (h : Host) (x : double) : string := toFixed1 h (real x).

(** [new Date(t)]: the time value of the date, none for the invalid date.
    A time that is not finite or is beyond 8.64e15 milliseconds either way
    is no date; any other is cut to an integer. *)
Definition TimeClip (t : double) : option Z :=
  match real t with
  | Fin q =>
      if Qle_bool (Qabs q) 8.64e15
      then Some (Z.quot (Qnum q) (Zpos (Qden q)))
      else None
  | _ => None
  end.

(** [new Date(t).getHours()]: the hour of local time, none (NaN) for the
    invalid date. *)
Definition getHours (h : Host) (t : double) : option nat :=
  match TimeClip t with
  | Some tv => Some (getUTCHours (tv + LocalTZA h tv))
  | None => None
  end.

(** ** Data of the sampler *)

Record GasData : Type := {
  timestamp : double;
  price : double;
  priority : double
}.

Record GasRecommendation : Type := {
  bestTime : string;
  estimatedSavings : string;
  currentGwei : double;
  historicalLow : double;
  batchingRecommendation : string
}.

Record GasOptimizer : Type := {
  historicalData : list GasData;
  provider : option ethers.BrowserProvider
}.

(** The object [updateHistoricalData] pushes for a retrieved block; [r] is
    the [Math.random()] drawn for it.  The [timestamp] of a block is an
    integer number of seconds. *)
Definition sample (block : ethers.Block) (r : double) : GasData :=
  {| timestamp := mul (of_Z (ethers.timestamp block)) (of_Z 1000);
     price := div (Number_of (ethers.baseFeePerGas block)) (of_Z 1000000000);
     priority := add (mul r (of_Z 2)) literal_0_5 |}.

(** ** [getGasRecommendation] *)

Record Bucket : Type := { sum : double; count : nat }.

(** [hourlyAverages[hour].sum += p; hourlyAverages[hour].count++], for an
    [hour] that is an index of the array. *)
Fixpoint bump (hour : nat) (p : double) (buckets : list Bucket)
  : list Bucket :=
  match buckets, hour with
  | [], _ => []
  | b :: rest, O => {| sum := add (sum b) p; count := S (count b) |} :: rest
  | b :: rest, S k => b :: bump k p rest
  end.

(** The [forEach] over the window.  For a sample whose time is no date,
    [hour] is NaN, [hourlyAverages[hour]] is [undefined], and reading its
    [sum] throws. *)
Fixpoint forEach (js : Engine) (h : Host) (window : list GasData)
    (buckets : list Bucket) : completion (list Bucket) :=
  match window with
  | [] => Normal buckets
  | data :: rest =>
      match getHours h (timestamp data) with
      | Some hour => forEach js h rest (bump hour (price data) buckets)
      | None => Throw (TypeError_reading js JUndefined "sum")
      end
  end.

(** [new Array(24).fill(0).map(() => ({ sum: 0, count: 0 }))], then the
    [forEach]. *)
Definition hourlyAverages (js : Engine) (h : Host) (window : list GasData)
  : completion (list Bucket) :=
  forEach js h window (repeat {| sum := of_Z 0; count := 0 |} 24).

Record Best : Type := { hour : nat; avg : double }.

(** [current.count > 0 ? current.sum / current.count : Infinity] *)
Definition average (current : Bucket) : double :=
  if (0 <? count current)%nat
  then div (sum current) (of_nat (count current))
  else Infinity.

(** The callback of the [reduce] that looks for the best hour. *)
Definition pick (best : Best) (current : Bucket) (index : nat) : Best :=
  if ltb (average current) (avg best)
  then {| hour := index; avg := average current |}
  else best.

Definition bestHour (buckets : list Bucket) : nat :=
  hour (reduce_from pick 0 buckets {| hour := 0; avg := Infinity |}).

Definition liveGwei (fee : ethers.FeeData) : double :=
  div (Number_of (ethers.gasPrice fee)) (of_Z 1000000000).

Definition lowest (window : list GasData) : double :=
  Math_min (map price window).

Definition avgPrice (window : list GasData) : double :=
  div (fold_left (fun sum d => add sum (price d)) window (of_Z 0))
      (of_nat (List.length window)).

Definition potentialSavings (current low : double) : double :=
  mul (div (sub current low) current) (of_Z 100).

Definition shouldBatch (current average : double) : bool :=
  gtb current (mul average literal_1_2).

(** What follows the live read. *)
Definition recommend (js : Engine) (h : Host) (window : list GasData)
    (fee : ethers.FeeData) : completion GasRecommendation :=
  let current := liveGwei fee in
  let low := lowest window in
  let average := avgPrice window in
  match hourlyAverages js h window with
  | Throw e => Throw e
  | Normal buckets =>
      let best := bestHour buckets in
      Normal
        {| bestTime :=
             digits best ++ ":00 - " ++ digits ((best + 1) mod 24)
             ++ ":00 UTC";
           estimatedSavings :=
             toFixed h (potentialSavings current low) ++ "%";
           currentGwei := Math_round current;
           historicalLow := Math_round low;
           batchingRecommendation :=
             if shouldBatch current average then Batching else Individual
        |}%string
  end.

(** The call on the sampler [o], which it leaves as it is. *)
Definition getGasRecommendation (js : Engine) (h : Host) (o : GasOptimizer)
  : completion GasRecommendation :=
  match provider o, historicalData o with
  | None, _ | _, [] => Throw Uninitialized
  | Some p, window =>
      match ethers.getFeeData p with
      | Throw e => Throw e
      | Normal currentFeeData => recommend js h window currentFeeData
      end
  end.

(** ** Vocabulary *)

(** The samples counted over all the buckets. *)
Definition total_count (buckets : list Bucket) : nat :=
  fold_right (fun b n => (count b + n)%nat) 0%nat buckets.

(** The place of a double in the order of [<], for a double that is not
    NaN: the infinities outside, the two zeros together, and between them
    the finite numbers by sign, exponent and mantissa.  [before] is the
    order of these places. *)
Definition place (x : double) : Z * Z * Z :=
  match x with
  | S754_infinity true => (-2, 0, 0)%Z
  | S754_finite true m e => (-1, - e, Zneg m)%Z
  | S754_zero _ | S754_nan => (0, 0, 0)%Z
  | S754_finite false m e => (1, e, Zpos m)%Z
  | S754_infinity false => (2, 0, 0)%Z
  end.

Definition before (a b : Z * Z * Z) : Prop :=
  let '(a1, a2, a3) := a in
  let '(b1, b2, b3) := b in
  (a1 < b1 \/ (a1 = b1 /\ (a2 < b2 \/ (a2 = b2 /\ a3 < b3))))%Z.

(** The time of the sample is a date. *)
Definition dated (d : GasData) : bool :=
  match TimeClip (timestamp d) with Some _ => true | None => false end.

(** The sample falls in the local hour [k]. *)
Definition in_hour (h : Host) (k : nat) (d : GasData) : bool :=
  match getHours h (timestamp d) with
  | Some hour => Nat.eqb hour k
  | None => false
  end.

(** The prices of the samples of a window that fall in hour [k], and the
    bucket they make: the prices added to [+0] one after the other in the
    order of the window, every sum rounded. *)
Definition prices_at (h : Host) (k : nat) (window : list GasData)
  : list double :=
  map price (filter (in_hour h k) window).

Definition bucket_at (h : Host) (k : nat) (window : list GasData) : Bucket :=
  {| sum := fold_left add (prices_at h k window) (of_Z 0);
     count := List.length (prices_at h k window) |}.

(** A sampler with the provider [p] and the window [window]. *)
Definition running (p : ethers.BrowserProvider) (window : list GasData)
  : GasOptimizer :=
  {| historicalData := window; provider := Some p |}.

(** A provider whose live read gives [wei]. *)
Definition live (wei : Z) : ethers.BrowserProvider :=
  {| ethers.getBlockNumber := Normal 1000%Z;
     ethers.getBlock := fun _ => Normal None;
     ethers.getFeeData := Normal {| ethers.gasPrice := Some wei |} |}.

(** The sample of a block of 14 November 2023, 22:13:20 UTC, with the base
    fee [wei] and a draw of one half. *)
Definition block_sample (wei : Z) : GasData :=
  sample {| ethers.timestamp := 1700000000;
            ethers.baseFeePerGas := Some wei |}
         literal_0_5.

(** A window of three such samples, of 3, 1.5 and 2 gwei. *)
Definition three_blocks : list GasData :=
  [block_sample 3000000000; block_sample 1500000000;
   block_sample 2000000000].

(** A sample of price [p] at [hh] hours past the epoch. *)
Definition at_hour (hh : Z) (p : double) : GasData :=
  {| timestamp := of_Z (hh * 3600000); price := p; priority := of_Z 1 |}.

End Double.

(** * Properties *)

(** ** The fetch loop *)

Lemma map_Normal_nil {A} (answers : list A) :
  [] = map (@Normal A) answers -> answers = [].
Proof. destruct answers; [reflexivity | discriminate]. Qed.

Lemma map_Normal_cons {A} (c : completion A) cs (answers : list A) :
  c :: cs = map Normal answers ->
  exists a rest, answers = a :: rest /\ c = Normal a /\ cs = map Normal rest.
Proof.
  destruct answers as [| a rest]; [discriminate |].
  simpl. intros E. injection E as -> ->. eauto.
Qed.

Lemma countdown_length from n : List.length (countdown from n) = n.
Proof.
  revert from. induction n as [| n IH]; intros from; simpl;
    [reflexivity | now rewrite IH].
Qed.

Lemma countdown_In from n z :
  In z (countdown from n) <-> (from - Z.of_nat n < z <= from)%Z.
Proof.
  revert from. induction n as [| n IH]; intros from.
  - simpl. lia.
  - cbn [countdown In]. rewrite IH. lia.
Qed.

Lemma countdown_NoDup from n : NoDup (countdown from n).
Proof.
  revert from. induction n as [| n IH]; intros from; simpl; constructor.
  - rewrite countdown_In. lia.
  - apply IH.
Qed.

Lemma countdown_snoc from n :
  countdown from (S n) = countdown from n ++ [(from - Z.of_nat n)%Z].
Proof.
  revert from. induction n as [| n IH]; intros from.
  - simpl. now rewrite Z.sub_0_r.
  - change (countdown from (S (S n)))
      with (from :: countdown (from - 1) (S n)).
    rewrite IH. simpl. do 3 f_equal. lia.
Qed.

(** When every one of the [n] reads is answered, the loop issues them all,
    in descending order, and appends one sample per block that was there. *)
Lemma fetchBlocks_answered h p cur n :
  forall i blocks rt answers,
    map (ethers.getBlock p) (countdown (cur - i) n) = map Normal answers ->
    fetchBlocks h p cur i n blocks rt =
      (Normal (blocks ++ samples h (draws rt) answers),
       {| this := this rt; console := console rt;
          reads := reads rt ++ map ReadBlock (countdown (cur - i) n);
          draws := draws rt + List.length (retrieved answers) |}).
Proof.
  induction n as [| n IH]; intros i blocks rt answers E.
  - apply map_Normal_nil in E. subst answers. destruct rt. simpl.
    now rewrite !app_nil_r, Nat.add_0_r.
  - simpl in E. apply map_Normal_cons in E.
    destruct E as (a & rest & -> & Ea & Erest).
    replace (cur - i - 1)%Z with (cur - (i + 1))%Z in Erest by lia.
    cbn [fetchBlocks]. unfold bind at 1.
    unfold provider_getBlock, issue. rewrite Ea.
    destruct a as [b |]; unfold bind at 1.
    + unfold bind at 1, random, ret.
      rewrite (IH _ _ _ _ Erest). cbn [this console reads draws].
      cbn [samples retrieved List.length countdown map].
      replace (cur - i - 1)%Z with (cur - (i + 1))%Z by lia.
      rewrite <- !app_assoc. cbn [app].
      now rewrite Nat.add_succ_r.
    + unfold ret. rewrite (IH _ _ _ _ Erest).
      cbn [this console reads draws samples retrieved countdown map].
      replace (cur - i - 1)%Z with (cur - (i + 1))%Z by lia.
      now rewrite <- !app_assoc.
Qed.

(** When the read of index [k] is the first to throw, the loop ends there:
    it throws what the read threw, and no later read is issued. *)
Lemma fetchBlocks_thrown h p cur n :
  forall i blocks rt answers k e,
    (k < n)%nat ->
    map (ethers.getBlock p) (countdown (cur - i) k) = map Normal answers ->
    ethers.getBlock p (cur - i - Z.of_nat k) = Throw e ->
    fetchBlocks h p cur i n blocks rt =
      (Throw e,
       {| this := this rt; console := console rt;
          reads := reads rt ++ map ReadBlock (countdown (cur - i) (S k));
          draws := draws rt + List.length (retrieved answers) |}).
Proof.
  induction n as [| n IH]; intros i blocks rt answers k e Hk E Ek; [lia |].
  cbn [fetchBlocks]. unfold bind at 1. unfold provider_getBlock, issue.
  destruct k as [| k].
  - apply map_Normal_nil in E. subst answers.
    rewrite Z.sub_0_r in Ek. rewrite Ek. destruct rt. simpl.
    now rewrite Nat.add_0_r.
  - simpl in E. apply map_Normal_cons in E.
    destruct E as (a & rest & -> & Ea & Erest).
    replace (cur - i - 1)%Z with (cur - (i + 1))%Z in Erest by lia.
    replace (cur - i - Z.of_nat (S k))%Z
      with (cur - (i + 1) - Z.of_nat k)%Z in Ek by lia.
    rewrite Ea.
    assert (Hk' : (k < n)%nat) by lia.
    destruct a as [b |]; unfold bind at 1.
    + unfold bind at 1, random, ret.
      rewrite (IH _ _ _ _ _ _ Hk' Erest Ek).
      cbn [this console reads draws retrieved List.length].
      change (countdown (cur - i) (S (S k)))
        with ((cur - i)%Z :: countdown (cur - i - 1) (S k)).
      replace (cur - i - 1)%Z with (cur - (i + 1))%Z by lia.
      cbn [map]. rewrite <- !app_assoc. cbn [app].
      now rewrite Nat.add_succ_r.
    + unfold ret. rewrite (IH _ _ _ _ _ _ Hk' Erest Ek).
      cbn [this console reads draws retrieved].
      change (countdown (cur - i) (S (S k)))
        with ((cur - i)%Z :: countdown (cur - i - 1) (S k)).
      replace (cur - i - 1)%Z with (cur - (i + 1))%Z by lia.
      cbn [map]. now rewrite <- !app_assoc.
Qed.

(** Any provider falls in one of the two cases. *)
Lemma answered_or_thrown (p : ethers.BrowserProvider) n :
  forall from,
    (exists answers,
        map (ethers.getBlock p) (countdown from n) = map Normal answers)
    \/ (exists k answers e,
          (k < n)%nat
          /\ map (ethers.getBlock p) (countdown from k) = map Normal answers
          /\ ethers.getBlock p (from - Z.of_nat k) = Throw e).
Proof.
  induction n as [| n IH]; intros from.
  - left. exists []. reflexivity.
  - destruct (ethers.getBlock p from) as [a | e] eqn:E0.
    + destruct (IH (from - 1)%Z)
        as [(answers & E) | (k & answers & e & Hk & E & Ek)].
      * left. exists (a :: answers). simpl. now rewrite E0, E.
      * right. exists (S k), (a :: answers), e. repeat split; [lia | |].
        -- simpl. now rewrite E0, E.
        -- replace (from - Z.of_nat (S k))%Z
             with (from - 1 - Z.of_nat k)%Z by lia.
           exact Ek.
    + right. exists 0%nat, [], e. repeat split; [lia |].
      now rewrite Z.sub_0_r.
Qed.

Lemma samples_length h d answers :
  List.length (samples h d answers) = List.length (retrieved answers).
Proof.
  revert d. induction answers as [| [b |] rest IH]; intros d; simpl; auto.
Qed.

Lemma retrieved_length answers :
  (List.length (retrieved answers) <= List.length answers)%nat.
Proof. induction answers as [| [b |] rest IH]; simpl; lia. Qed.

Lemma answers_length {A B} (f : A -> completion B) xs answers :
  map f xs = map Normal answers -> List.length answers = List.length xs.
Proof.
  intros E. apply (f_equal (@List.length _)) in E.
  now rewrite !length_map in E.
Qed.

(** ** [initialize] *)

(** The head read throws. *)
Lemma initialize_head_thrown h p rt e :
  ethers.getBlockNumber p = Throw e ->
  initialize h p rt =
    (Normal tt,
     {| this := {| historicalData := historicalData (this rt);
                   provider := Some p |};
        console := console rt ++ [(gas_log, e)];
        reads := reads rt ++ [ReadBlockNumber];
        draws := draws rt |}).
Proof.
  intros E.
  unfold initialize, bind, set_provider, bind, get_this, set_this.
  unfold updateHistoricalData, bind, get_this. cbn [this provider].
  unfold try_catch, bind, provider_getBlockNumber, issue. rewrite E.
  reflexivity.
Qed.

(** The head read and the hundred block reads are answered. *)
Lemma initialize_answered h p rt head answers :
  ethers.getBlockNumber p = Normal head ->
  map (ethers.getBlock p) (countdown head 100) = map Normal answers ->
  initialize h p rt =
    (Normal tt,
     {| this := {| historicalData := samples h (draws rt) answers;
                   provider := Some p |};
        console := console rt;
        reads := reads rt
                 ++ ReadBlockNumber :: map ReadBlock (countdown head 100);
        draws := draws rt + List.length (retrieved answers) |}).
Proof.
  intros E0 E.
  unfold initialize, bind, set_provider, bind, get_this, set_this.
  unfold updateHistoricalData, bind, get_this. cbn [this provider].
  unfold try_catch, bind, provider_getBlockNumber, issue. rewrite E0.
  rewrite <- (Z.sub_0_r head) in E.
  rewrite (fetchBlocks_answered _ _ _ _ _ _ _ _ E).
  unfold set_historicalData, bind, get_this, set_this.
  cbn [this console reads draws historicalData provider app].
  rewrite Z.sub_0_r, <- app_assoc. reflexivity.
Qed.

(** The head read is answered and the block read of index [k] is the first
    to throw. *)
Lemma initialize_block_thrown h p rt head answers k e :
  ethers.getBlockNumber p = Normal head ->
  (k < 100)%nat ->
  map (ethers.getBlock p) (countdown head k) = map Normal answers ->
  ethers.getBlock p (head - Z.of_nat k) = Throw e ->
  initialize h p rt =
    (Normal tt,
     {| this := {| historicalData := historicalData (this rt);
                   provider := Some p |};
        console := console rt ++ [(gas_log, e)];
        reads := reads rt
                 ++ ReadBlockNumber :: map ReadBlock (countdown head (S k));
        draws := draws rt + List.length (retrieved answers) |}).
Proof.
  intros E0 Hk E Ek.
  unfold initialize, bind, set_provider, bind, get_this, set_this.
  unfold updateHistoricalData, bind, get_this. cbn [this provider].
  unfold try_catch, bind, provider_getBlockNumber, issue. rewrite E0.
  rewrite <- (Z.sub_0_r head) in E, Ek.
  rewrite (fetchBlocks_thrown _ _ _ _ _ _ _ _ _ _ Hk E Ek).
  unfold console_error.
  cbn [this console reads draws historicalData provider].
  rewrite Z.sub_0_r, <- app_assoc. reflexivity.
Qed.

Arguments fetchBlocks : simpl never.

Lemma initialize_cases p : initialize_case p.
Proof.
  destruct (ethers.getBlockNumber p) as [head | e] eqn:E0.
  - destruct (answered_or_thrown p 100 head)
      as [(answers & E) | (k & answers & e & Hk & E & Ek)].
    + eapply Answered; eassumption.
    + eapply BlockThrown; eassumption.
  - eapply HeadThrown; eassumption.
Qed.

(** [initialize] never throws. *)
Lemma initialize_normal h p rt : fst (initialize h p rt) = Normal tt.
Proof.
  destruct (initialize_cases p)
    as [e E | head answers E0 E | head answers k e E0 Hk E Ek].
  - now rewrite (initialize_head_thrown _ _ _ _ E).
  - now rewrite (initialize_answered _ _ _ _ _ E0 E).
  - now rewrite (initialize_block_thrown _ _ _ _ _ _ _ E0 Hk E Ek).
Qed.

(** The window after [initialize] is the old one or has at most a hundred
    samples. *)
Lemma initialize_window h p rt :
  historicalData (this (snd (initialize h p rt))) = historicalData (this rt)
  \/ (List.length (historicalData (this (snd (initialize h p rt)))) <= 100)%nat.
Proof.
  destruct (initialize_cases p)
    as [e E | head answers E0 E | head answers k e E0 Hk E Ek].
  - left. now rewrite (initialize_head_thrown _ _ _ _ E).
  - right. rewrite (initialize_answered _ _ _ _ _ E0 E).
    cbn [snd this historicalData]. rewrite samples_length.
    pose proof (retrieved_length answers) as Hr.
    pose proof (answers_length _ _ _ E) as Ha.
    rewrite countdown_length in Ha. lia.
  - left. now rewrite (initialize_block_thrown _ _ _ _ _ _ _ E0 Hk E Ek).
Qed.

Lemma getGasRecommendation_this h rt :
  this (snd (getGasRecommendation h rt)) = this rt.
Proof.
  unfold getGasRecommendation, bind, get_this.
  destruct (provider (this rt)) as [p |]; [| reflexivity].
  destruct (historicalData (this rt)); [reflexivity |].
  unfold provider_getFeeData, issue.
  destruct (ethers.getFeeData p); reflexivity.
Qed.

(** The cap of a hundred samples holds in every reachable runtime. *)
Lemma reachable_cap h rt :
  reachable h rt -> (List.length (historicalData (this rt)) <= 100)%nat.
Proof.
  induction 1 as [| rt p _ IH | rt _ IH | rt _ IH].
  - simpl. lia.
  - destruct (initialize_window h p rt) as [-> | Hle]; assumption.
  - now rewrite getGasRecommendation_this.
  - exact IH.
Qed.

Lemma countdown_seq from n :
  countdown from n = map (fun i => (from - Z.of_nat i)%Z) (seq 0 n).
Proof.
  induction n as [| n IH].
  - reflexivity.
  - rewrite countdown_snoc, seq_S, map_app, IH. reflexivity.
Qed.

Lemma samples_observed h d answers :
  map observed (samples h d answers) = map observation (retrieved answers).
Proof.
  revert d. induction answers as [| [b |] rest IH]; intros d; simpl.
  - reflexivity.
  - now rewrite IH.
  - apply IH.
Qed.

Lemma attempts_block_reads zs : attempts (map ReadBlock zs) = map ReadBlock zs.
Proof.
  unfold attempts. induction zs as [| z zs IH]; simpl; [| rewrite IH];
    reflexivity.
Qed.

Lemma attempts_head_read rs : attempts (ReadBlockNumber :: rs) = attempts rs.
Proof. reflexivity. Qed.

Lemma attempts_app rs rs' : attempts (rs ++ rs') = attempts rs ++ attempts rs'.
Proof. apply filter_app. Qed.

Lemma NoDup_map_ReadBlock zs : NoDup zs -> NoDup (map ReadBlock zs).
Proof.
  induction 1 as [| z zs Hz _ IH]; simpl; constructor; [| exact IH].
  rewrite in_map_iff. intros (z' & E & Hin). injection E as ->. auto.
Qed.

Lemma NoDup_initialize_reads head n :
  NoDup (ReadBlockNumber :: map ReadBlock (countdown head n)).
Proof.
  constructor.
  - rewrite in_map_iff. intros (z & E & _). discriminate.
  - apply NoDup_map_ReadBlock, countdown_NoDup.
Qed.

(** ** [getGasRecommendation] and [getHistoricalData] *)

Lemma getGasRecommendation_returns h rt p fee :
  provider (this rt) = Some p ->
  historicalData (this rt) <> [] ->
  ethers.getFeeData p = Normal fee ->
  getGasRecommendation h rt =
    (Normal (recommend h (historicalData (this rt)) fee),
     {| this := this rt; console := console rt;
        reads := reads rt ++ [ReadFeeData]; draws := draws rt |}).
Proof.
  intros Hp Hw Hfee. unfold getGasRecommendation, bind, get_this.
  rewrite Hp. destruct (historicalData (this rt)) as [| d w]; [easy |].
  unfold provider_getFeeData, issue. now rewrite Hfee.
Qed.

Lemma getGasRecommendation_thrown h rt p e :
  provider (this rt) = Some p ->
  historicalData (this rt) <> [] ->
  ethers.getFeeData p = Throw e ->
  getGasRecommendation h rt =
    (Throw e,
     {| this := this rt; console := console rt;
        reads := reads rt ++ [ReadFeeData]; draws := draws rt |}).
Proof.
  intros Hp Hw Hfee. unfold getGasRecommendation, bind, get_this.
  rewrite Hp. destruct (historicalData (this rt)) as [| d w]; [easy |].
  unfold provider_getFeeData, issue. now rewrite Hfee.
Qed.

(** C1.  In every state of the sampler, [getGasRecommendation] called with
    an empty window, or with no provider set, throws the error "Gas
    optimizer not initialized"; it issues no read and returns no
    recommendation. *)
Theorem recommendation_uninitialized h rt :
  provider (this rt) = None \/ historicalData (this rt) = [] ->
  getGasRecommendation h rt = (Throw Uninitialized, rt).
Proof.
  intros [Hp | Hw]; unfold getGasRecommendation, bind, get_this, throw.
  - now rewrite Hp.
  - rewrite Hw. now destruct (provider (this rt)).
Qed.

Lemma recommendation_uninitialized_witness :
  (provider (this boot) = None \/ historicalData (this boot) = [])
  /\ getGasRecommendation utc boot = (Throw Uninitialized, boot)
  /\ getGasRecommendation utc (running chain []) =
       (Throw Uninitialized, running chain []).
Proof.
  split; [left; reflexivity |]. split.
  - apply (recommendation_uninitialized utc boot). left. reflexivity.
  - apply (recommendation_uninitialized utc (running chain [])).
    right. reflexivity.
Defined.

(** C9, as the code has it.  [getHistoricalData] never throws: in every
    state it returns the stored window as it is and leaves the state
    alone.  After an [initialize] it returns the window that [initialize]
    left, which is, when the reads were answered, the list of the samples
    of the blocks that were there, and the empty list when none was. *)
Theorem historical_data_verbatim h p rt :
  getHistoricalData rt = (Normal (historicalData (this rt)), rt)
  /\ fst (getHistoricalData (snd (initialize h p rt)))
     = Normal (historicalData (this (snd (initialize h p rt))))
  /\ forall head answers,
       ethers.getBlockNumber p = Normal head ->
       map (ethers.getBlock p) (countdown head 100) = map Normal answers ->
       fst (getHistoricalData (snd (initialize h p rt)))
       = Normal (samples h (draws rt) answers)
       /\ (retrieved answers = [] ->
           fst (getHistoricalData (snd (initialize h p rt))) = Normal []).
Proof.
  split; [reflexivity |]. split; [reflexivity |].
  intros head answers E0 Ea.
  rewrite (initialize_answered _ _ _ _ _ E0 Ea).
  unfold getHistoricalData, bind, get_this, ret.
  cbn [fst snd this historicalData]. split; [reflexivity |].
  intros Hnone. f_equal. apply length_zero_iff_nil.
  now rewrite samples_length, Hnone.
Qed.

Lemma historical_data_verbatim_witness :
  ethers.getBlockNumber chain = Normal 1000%Z
  /\ exists window,
       fst (getHistoricalData (snd (initialize utc chain boot)))
       = Normal window
       /\ List.length window = 75%nat.
Proof.
  split; [reflexivity |].
  destruct (historical_data_verbatim utc chain boot) as (_ & _ & Hafter).
  destruct (Hafter 1000%Z
              (map chain_answer (countdown 1000 100))
              eq_refl eq_refl) as (Hwindow & _).
  eexists. split; [exact Hwindow | reflexivity].
Defined.

(** C9 does not hold as stated: on the fresh instance, and after an
    [initialize] that found no block, [getHistoricalData] returns the empty
    window instead of failing. *)
Lemma historical_data_of_empty_window :
  fst (getHistoricalData boot) = Normal []
  /\ fst (getHistoricalData boot) <> Throw Uninitialized
  /\ fst (getHistoricalData (snd (initialize utc pruned boot))) = Normal [].
Proof.
  split; [reflexivity |]. split; [discriminate |].
  rewrite (initialize_answered utc pruned boot 1000 (repeat None 100));
    reflexivity.
Qed.

(** ** Failures of the chain accessor *)

(** What [initialize] leaves behind when a read it issues throws [e]. *)
Lemma initialize_thrown h p rt e :
  thrown_during_initialize p e ->
  console (snd (initialize h p rt)) = console rt ++ [(gas_log, e)]
  /\ historicalData (this (snd (initialize h p rt))) = historicalData (this rt).
Proof.
  intros [E | (head & k & answers & E0 & Hk & E & Ek)].
  - now rewrite (initialize_head_thrown _ _ _ _ E).
  - now rewrite (initialize_block_thrown _ _ _ _ _ _ _ E0 Hk E Ek).
Qed.

(** The reads of one [initialize]: the head read, then block reads, no read
    twice, at most a hundred fetch attempts. *)
Lemma initialize_reads h p rt :
  exists added,
    reads (snd (initialize h p rt)) = reads rt ++ added
    /\ NoDup added
    /\ (List.length (attempts added) <= 100)%nat.
Proof.
  destruct (initialize_cases p)
    as [e E | head answers E0 E | head answers k e E0 Hk E Ek].
  - rewrite (initialize_head_thrown _ _ _ _ E). exists [ReadBlockNumber].
    repeat split.
    + constructor; [intros [] | constructor].
    + simpl. lia.
  - rewrite (initialize_answered _ _ _ _ _ E0 E).
    eexists. split; [reflexivity |]. split.
    + apply NoDup_initialize_reads.
    + rewrite attempts_head_read, attempts_block_reads, length_map,
        countdown_length. lia.
  - rewrite (initialize_block_thrown _ _ _ _ _ _ _ E0 Hk E Ek).
    eexists. split; [reflexivity |]. split.
    + apply NoDup_initialize_reads.
    + rewrite attempts_head_read, attempts_block_reads, length_map,
        countdown_length. lia.
Qed.

(** C3, as the code has it.  A failure of the live read of
    [getGasRecommendation] reaches the caller: the call throws what
    [getFeeData] threw, after that one read.  A failure of the head read or
    of a block read during [initialize] does not: [initialize] always
    completes normally; the error is handed to [console.error] and the
    window stays as it was.  No read is issued twice in one [initialize]. *)
Theorem accessor_failures h p rt :
  fst (initialize h p rt) = Normal tt
  /\ (forall e,
        thrown_during_initialize p e ->
        console (snd (initialize h p rt)) = console rt ++ [(gas_log, e)]
        /\ historicalData (this (snd (initialize h p rt)))
           = historicalData (this rt))
  /\ (exists added,
        reads (snd (initialize h p rt)) = reads rt ++ added /\ NoDup added)
  /\ (forall e,
        provider (this rt) = Some p ->
        historicalData (this rt) <> [] ->
        ethers.getFeeData p = Throw e ->
        fst (getGasRecommendation h rt) = Throw e
        /\ reads (snd (getGasRecommendation h rt)) = reads rt ++ [ReadFeeData]).
Proof.
  split; [apply initialize_normal |].
  split; [intros e; apply initialize_thrown |].
  split.
  - destruct (initialize_reads h p rt) as (added & E & Hnd & _). eauto.
  - intros e Hp Hw Hfee.
    now rewrite (getGasRecommendation_thrown _ _ _ _ Hp Hw Hfee).
Qed.

Lemma accessor_failures_witness :
  thrown_during_initialize flaky network_error
  /\ console (snd (initialize utc flaky (running flaky [at_hour 5 0 6])))
     = [(gas_log, network_error)]
  /\ historicalData (this (snd (initialize utc flaky (running flaky [at_hour 5 0 6]))))
     = [at_hour 5 0 6]
  /\ fst (getGasRecommendation utc (running flaky [at_hour 5 0 6]))
     = Throw network_error.
Proof.
  assert (T : thrown_during_initialize flaky network_error).
  { right. exists 1000%Z, 5%nat.
    exists [None; Some {| ethers.timestamp := 1700011988%Z;
                          ethers.baseFeePerGas := Some 105500000000%Z |};
            Some {| ethers.timestamp := 1700011976%Z;
                    ethers.baseFeePerGas := Some 105400000000%Z |};
            Some {| ethers.timestamp := 1700011964%Z;
                    ethers.baseFeePerGas := Some 105300000000%Z |};
            None].
    repeat split. lia. }
  pose proof (accessor_failures utc flaky (running flaky [at_hour 5 0 6]))
    as (_ & Hinit & _ & Hlive).
  split; [exact T |].
  destruct (Hinit network_error T) as [Hc Hw].
  split; [exact Hc |]. split; [exact Hw |].
  apply (Hlive network_error); [reflexivity | discriminate | reflexivity].
Defined.

(** C3 does not hold as stated: with a provider whose every read throws,
    [initialize] completes normally, and the error is only on the console. *)
Lemma initialize_swallows_failure :
  ethers.getBlockNumber offline = Throw network_error
  /\ initialize utc offline boot =
       (Normal tt,
        {| this := {| historicalData := []; provider := Some offline |};
           console := [(gas_log, network_error)];
           reads := [ReadBlockNumber];
           draws := 0 |})
  /\ fst (initialize utc offline boot) <> Throw network_error.
Proof.
  split; [reflexivity |].
  rewrite (initialize_head_thrown utc offline boot network_error eq_refl).
  split; [reflexivity | discriminate].
Qed.

(** ** The window that [initialize] stores *)

(** C7.  In every reachable state, after [initialize] the stored window has
    at most a hundred samples and at most a hundred fetch attempts were
    made.  When the reads are answered, the window holds one sample per
    block that was there, in the order of the reads, and nothing for a
    block that was not; the attempts are a hundred all the same. *)
Theorem window_cap h p rt :
  reachable h rt ->
  (List.length (historicalData (this (snd (initialize h p rt)))) <= 100)%nat
  /\ (exists added,
        reads (snd (initialize h p rt)) = reads rt ++ added
        /\ (List.length (attempts added) <= 100)%nat
        /\ forall head answers,
             ethers.getBlockNumber p = Normal head ->
             map (ethers.getBlock p) (countdown head 100) = map Normal answers ->
             List.length (attempts added) = 100%nat
             /\ map observed (historicalData (this (snd (initialize h p rt))))
                = map observation (retrieved answers)
             /\ List.length (historicalData (this (snd (initialize h p rt))))
                = List.length (retrieved answers)).
Proof.
  intros Hr. split.
  - apply (reachable_cap h). now constructor.
  - destruct (initialize_reads h p rt) as (added & E & _ & Hle).
    exists added. split; [exact E |]. split; [exact Hle |].
    intros head answers E0 Ea.
    rewrite (initialize_answered _ _ _ _ _ E0 Ea) in E |- *.
    cbn [snd this historicalData reads] in E |- *.
    apply app_inv_head in E. subst added.
    rewrite attempts_head_read, attempts_block_reads, length_map,
      countdown_length.
    rewrite samples_observed, samples_length. auto.
Qed.

Lemma window_cap_witness :
  reachable utc boot
  /\ (List.length (historicalData (this (snd (initialize utc chain boot))))
      <= 100)%nat
  /\ List.length (historicalData (this (snd (initialize utc chain boot))))
     = 75%nat.
Proof.
  split; [constructor |]. split.
  - apply (window_cap utc chain boot). constructor.
  - reflexivity.
Defined.

(** C8, as the code has it, in the three cases an [initialize] can be in.
    - The head read is answered with [head] and none of the block reads
      throws: [initialize] issues, after the head read, exactly a hundred
      block reads, of [head], [head - 1], ..., [head - 99] in that order,
      and stores for each block that was there, in the same order, a sample
      whose [timestamp] is the block's times 1000 and whose [price] is the
      block's base fee over [1e9].
    - The block read of index [k] is the first to throw: the attempts end
      at that read, the reads issued being the head read and the [k + 1]
      block reads of [head], ..., [head - k]; no sample is stored, the
      window is the one there was before, whatever was retrieved.
    - The head read throws: it is the only read issued, there is no fetch
      attempt, and the window is the one there was before. *)
Theorem initialize_fetches h p rt :
  (forall head answers,
      ethers.getBlockNumber p = Normal head ->
      map (ethers.getBlock p) (countdown head 100) = map Normal answers ->
      reads (snd (initialize h p rt)) =
        reads rt
        ++ ReadBlockNumber
           :: map (fun i => ReadBlock (head - Z.of_nat i)) (seq 0 100)
      /\ List.length (attempts (reads (snd (initialize h p rt))))
         = (List.length (attempts (reads rt)) + 100)%nat
      /\ map observed (historicalData (this (snd (initialize h p rt))))
         = map (fun b => ((ethers.timestamp b * 1000)%Z,
                          Number_of (ethers.baseFeePerGas b) / 1e9))
               (retrieved answers))
  /\ (forall head answers k e,
        ethers.getBlockNumber p = Normal head ->
        (k < 100)%nat ->
        map (ethers.getBlock p) (countdown head k) = map Normal answers ->
        ethers.getBlock p (head - Z.of_nat k) = Throw e ->
        reads (snd (initialize h p rt)) =
          reads rt
          ++ ReadBlockNumber
             :: map (fun i => ReadBlock (head - Z.of_nat i)) (seq 0 (S k))
        /\ List.length (attempts (reads (snd (initialize h p rt))))
           = (List.length (attempts (reads rt)) + S k)%nat
        /\ historicalData (this (snd (initialize h p rt)))
           = historicalData (this rt))
  /\ (forall e,
        ethers.getBlockNumber p = Throw e ->
        reads (snd (initialize h p rt)) = reads rt ++ [ReadBlockNumber]
        /\ attempts (reads (snd (initialize h p rt))) = attempts (reads rt)
        /\ historicalData (this (snd (initialize h p rt)))
           = historicalData (this rt)).
Proof.
  split; [| split].
  - intros head answers E0 Ea. rewrite (initialize_answered _ _ _ _ _ E0 Ea).
    cbn [snd this historicalData reads]. split; [| split].
    + now rewrite countdown_seq, map_map.
    + now rewrite attempts_app, length_app, attempts_head_read,
        attempts_block_reads, length_map, countdown_length.
    + apply samples_observed.
  - intros head answers k e E0 Hk Ea Ek.
    rewrite (initialize_block_thrown _ _ _ _ _ _ _ E0 Hk Ea Ek).
    cbn [snd this historicalData reads]. split; [| split].
    + now rewrite countdown_seq, map_map.
    + now rewrite attempts_app, length_app, attempts_head_read,
        attempts_block_reads, length_map, countdown_length.
    + reflexivity.
  - intros e E0. rewrite (initialize_head_thrown _ _ _ _ E0).
    cbn [snd this historicalData reads]. split; [reflexivity |].
    split; [| reflexivity].
    rewrite attempts_app. cbn. now rewrite app_nil_r.
Qed.

Lemma initialize_fetches_witness :
  (ethers.getBlockNumber chain = Normal 1000%Z
   /\ List.length (attempts (reads (snd (initialize utc chain boot))))
      = 100%nat
   /\ hd_error (historicalData (this (snd (initialize utc chain boot))))
      = Some {| timestamp := 1700011988000;
                price := 105500000000 / 1e9;
                priority := (1 # 4) * 2 + 0.5 |})
  /\ (ethers.getBlock flaky 995 = Throw network_error
      /\ List.length (attempts (reads (snd (initialize utc flaky (running chain [evening])))))
         = 6%nat
      /\ historicalData (this (snd (initialize utc flaky (running chain [evening]))))
         = [evening])
  /\ (ethers.getBlockNumber offline = Throw network_error
      /\ reads (snd (initialize utc offline boot)) = [ReadBlockNumber]).
Proof.
  split; [| split].
  - split; [reflexivity |].
    pose proof (initialize_fetches utc chain boot) as (Hall & _ & _).
    destruct (Hall 1000%Z (map chain_answer (countdown 1000 100))
                eq_refl eq_refl) as (_ & Hn & _).
    split; [exact Hn | reflexivity].
  - split; [reflexivity |].
    pose proof (initialize_fetches utc flaky (running chain [evening]))
      as (_ & Hblock & _).
    destruct (Hblock 1000%Z (map chain_answer (countdown 1000 5)) 5%nat
                network_error eq_refl (le_n_S _ _ (le_n_S _ _ (le_n_S _ _
                  (le_n_S _ _ (le_n_S _ _ (le_n_S _ _ (Nat.le_0_l _)))))))
                eq_refl eq_refl)
      as (_ & Hn & Hw).
    split; [exact Hn | exact Hw].
  - split; [reflexivity |].
    pose proof (initialize_fetches utc offline boot) as (_ & _ & Hhead).
    exact (proj1 (Hhead network_error eq_refl)).
Defined.

(** C8 does not hold as stated: when the read of block 995 throws, the
    sixth fetch attempt is the last one, and no sample is stored. *)
Lemma fetch_stops_at_failure :
  attempts (reads (snd (initialize utc flaky boot))) =
    [ReadBlock 1000; ReadBlock 999; ReadBlock 998; ReadBlock 997;
     ReadBlock 996; ReadBlock 995]
  /\ List.length (attempts (reads (snd (initialize utc flaky boot)))) <> 100%nat
  /\ historicalData (this (snd (initialize utc flaky boot))) = [].
Proof.
  assert (E : initialize utc flaky boot =
              (Normal tt,
               {| this := {| historicalData := []; provider := Some flaky |};
                  console := [(gas_log, network_error)];
                  reads := ReadBlockNumber :: map ReadBlock (countdown 1000 6);
                  draws := 3 |})).
  { apply (initialize_block_thrown utc flaky boot 1000
             (map chain_answer (countdown 1000 5))
             5 network_error); [reflexivity | lia | reflexivity | reflexivity]. }
  rewrite E. cbn [snd this historicalData reads].
  split; [reflexivity |]. split; [discriminate | reflexivity].
Qed.

(** ** Arithmetic of the recommendation *)

Lemma Qltb_lt x y : Qltb x y = true <-> x < y.
Proof.
  unfold Qltb. rewrite Qlt_alt. destruct (x ?= y); split; congruence.
Qed.

Lemma Qltb_comp x x' y y' : x == x' -> y == y' -> Qltb x y = Qltb x' y'.
Proof. intros Hx Hy. unfold Qltb. now rewrite Hx, Hy. Qed.

Lemma Qsign_nonzero x : ~ x == 0 -> Qsign x <> Eq.
Proof. unfold Qsign. now rewrite <- Qeq_alt. Qed.

Lemma div_finite a b :
  ~ b == 0 -> Num.div (Fin a) (Fin b) = Fin (a / b).
Proof.
  intros Hb. apply Qsign_nonzero in Hb. unfold Num.div.
  destruct (Qsign b); congruence.
Qed.

Lemma liveGwei_finite fee :
  liveGwei fee = Fin (Number_of (ethers.gasPrice fee) / 1e9).
Proof. reflexivity. Qed.

Lemma Qmin_cases x y : Qmin x y = x \/ Qmin x y = y.
Proof.
  unfold Qmin, GenericMinMax.gmin. destruct (x ?= y); auto.
Qed.

Lemma fold_Qmin_In rest : forall x, In (fold_left Qmin rest x) (x :: rest).
Proof.
  induction rest as [| y rest IH]; intros x; simpl.
  - now left.
  - destruct (IH (Qmin x y)) as [E | Hin].
    + destruct (Qmin_cases x y) as [E' | E']; [left | right; left]; congruence.
    + auto.
Qed.

Lemma fold_Qmin_le rest :
  forall x y, In y (x :: rest) -> fold_left Qmin rest x <= y.
Proof.
  induction rest as [| z rest IH]; intros x y Hin; simpl.
  - destruct Hin as [-> | []]. apply Qle_refl.
  - destruct Hin as [-> | [-> | Hin]].
    + eapply Qle_trans; [apply IH; now left | apply Q.le_min_l].
    + eapply Qle_trans; [apply IH; now left | apply Q.le_min_r].
    + apply IH. now right.
Qed.

(** On a window that is not empty, [historicalLow] before rounding is a
    price of the window, and no price of the window is below it. *)
Lemma lowest_spec window :
  window <> [] ->
  exists low,
    lowest window = Fin low
    /\ In low (map price window)
    /\ forall d, In d window -> low <= price d.
Proof.
  destruct window as [| d0 rest]; [easy | intros _].
  unfold lowest. cbn [map Math_min]. eexists. split; [reflexivity |]. split.
  - apply (fold_Qmin_In (map price rest) (price d0)).
  - intros d Hin. apply (fold_Qmin_le (map price rest) (price d0)).
    change (In (price d) (map price (d0 :: rest))). now apply in_map.
Qed.

Lemma fold_sum_Qsum window : forall acc,
  fold_left (fun sum d => sum + price d) window acc
  == acc + Qsum (map price window).
Proof.
  induction window as [| d rest IH]; intros acc; simpl.
  - lra.
  - rewrite IH. lra.
Qed.

(** On a window that is not empty, [avgPrice] is the mean of its prices. *)
Lemma avgPrice_spec window :
  window <> [] ->
  exists a, avgPrice window = Fin a /\ a == mean (map price window).
Proof.
  intros Hw. unfold avgPrice, Num.of_nat, Num.of_Z.
  assert (Hn : ~ inject_Z (Z.of_nat (List.length window)) == 0).
  { destruct window as [| d rest]; [easy |].
    unfold Qeq. cbn [Qnum Qden inject_Z List.length]. lia. }
  rewrite (div_finite _ _ Hn). eexists. split; [reflexivity |].
  unfold mean. rewrite fold_sum_Qsum, length_map. now rewrite Qplus_0_l.
Qed.

Lemma potentialSavings_finite c low :
  ~ c == 0 ->
  potentialSavings (Fin c) (Fin low) = Fin ((c - low) / c * 100).
Proof.
  intros Hc. unfold potentialSavings, Num.sub, Num.neg, Num.add.
  now rewrite (div_finite _ _ Hc).
Qed.

(** [toFixed(1)] does not tell apart two fractions of the same value, below
    the magnitude where it hands over to [Number::toString]. *)
Lemma toFixed1_comp h q q' :
  q == q' -> Qabs q' < 1e21 -> toFixed1 h (Fin q) = toFixed1 h (Fin q').
Proof.
  intros E Hsmall. unfold toFixed1.
  assert (Ea : Qabs q == Qabs q') by now rewrite E.
  rewrite (Qltb_comp q q' 0 0 E (Qeq_refl 0)).
  rewrite (Qltb_comp (Qabs q) (Qabs q') 1e21 1e21 Ea (Qeq_refl _)).
  apply Qltb_lt in Hsmall. rewrite Hsmall.
  now rewrite (Qfloor_comp (Qabs q * 10 + 0.5) (Qabs q' * 10 + 0.5))
    by now rewrite Ea.
Qed.

Lemma toFixed1_negative h q :
  q < 0 -> exists text, toFixed1 h (Fin q) = ("-" ++ text)%string.
Proof.
  intros Hq. apply Qltb_lt in Hq. unfold toFixed1. rewrite Hq.
  destruct (Qltb (Qabs q) 1e21); eexists; reflexivity.
Qed.

Lemma savings_negative c low :
  0 < c -> c < low -> (c - low) / c * 100 < 0.
Proof.
  intros Hc Hlow.
  assert (E : (c - low) / c * 100 == - ((low - c) * 100 * / c))
    by (field; lra).
  rewrite E.
  assert (Hinv : 0 < / c) by now apply Qinv_lt_0_compat.
  assert (Hpos : 0 < (low - c) * 100) by lra.
  pose proof (Qmult_lt_0_compat _ _ Hpos Hinv) as Hprod. lra.
Qed.

Lemma Math_round_spec q :
  exists z,
    Math_round (Fin q) = Num.of_Z z
    /\ inject_Z z - 0.5 <= q /\ q < inject_Z z + 0.5.
Proof.
  exists (Qfloor (q + 0.5)). split; [reflexivity |].
  pose proof (Qfloor_le (q + 0.5)) as Hle.
  pose proof (Qlt_floor (q + 0.5)) as Hlt.
  rewrite inject_Z_plus in Hlt. change (inject_Z 1) with 1 in Hlt.
  split; lra.
Qed.

(** C6, as the code has it.  With a window that is not empty, the
    [historicalLow] of the recommendation is the smallest price of the
    window rounded to the nearest integer (a half going up): it is within
    one half of that smallest price, which is a price of the window and at
    most every price of the window. *)
Theorem historical_low_rounded h rt p fee :
  provider (this rt) = Some p ->
  historicalData (this rt) <> [] ->
  ethers.getFeeData p = Normal fee ->
  exists r low z,
    fst (getGasRecommendation h rt) = Normal r
    /\ In low (map price (historicalData (this rt)))
    /\ (forall d, In d (historicalData (this rt)) -> low <= price d)
    /\ historicalLow r = Math_round (Fin low)
    /\ historicalLow r = Num.of_Z z
    /\ inject_Z z - 0.5 <= low /\ low < inject_Z z + 0.5.
Proof.
  intros Hp Hw Hfee.
  destruct (lowest_spec _ Hw) as (low & Elow & Hin & Hmin).
  destruct (Math_round_spec low) as (z & Ez & Hz1 & Hz2).
  rewrite (getGasRecommendation_returns _ _ _ _ Hp Hw Hfee).
  exists (recommend h (historicalData (this rt)) fee), low, z.
  cbn [fst recommend historicalLow]. rewrite Elow, Ez. auto 10.
Qed.

Lemma historical_low_rounded_witness :
  provider (this scenario) = Some chain
  /\ historicalData (this scenario) <> []
  /\ exists r,
       fst (getGasRecommendation utc scenario) = Normal r
       /\ historicalLow r = Fin 6.
Proof.
  assert (Hw : historicalData (this scenario) <> []) by discriminate.
  split; [reflexivity |]. split; [exact Hw |].
  destruct (historical_low_rounded utc scenario chain
              {| ethers.gasPrice := Some 20000000000%Z |}
              eq_refl Hw eq_refl)
    as (r & low & z & Hr & _).
  exists r. split; [exact Hr |].
  injection Hr as <-. reflexivity.
Defined.

(** C6 does not hold as stated: with the one price 5.6 in the window the
    field is 6, which is neither the smallest price nor at most it. *)
Lemma historical_low_above_price :
  exists r,
    fst (getGasRecommendation utc (running chain [at_hour 23 0 5.6]))
    = Normal r
    /\ lowest [at_hour 23 0 5.6] = Fin 5.6
    /\ historicalLow r = Fin 6
    /\ ~ 6 == 5.6
    /\ ~ 6 <= price (at_hour 23 0 5.6).
Proof.
  eexists. split; [reflexivity |]. cbn [historicalLow].
  split; [reflexivity |]. split; [reflexivity |].
  split; [discriminate |]. intros H. now apply H.
Qed.

(** ** Blocks without a base fee *)

Lemma samples_In h answers b :
  forall d, In (Some b) answers ->
  exists r, In (sample b r) (samples h d answers).
Proof.
  induction answers as [| [b' |] rest IH]; intros d Hin.
  - destruct Hin.
  - destruct Hin as [E | Hin].
    + injection E as ->. eexists. left. reflexivity.
    + destruct (IH (S d) Hin) as (r & Hr). exists r. right. exact Hr.
  - destruct Hin as [E | Hin]; [discriminate |]. exact (IH d Hin).
Qed.

Lemma samples_inv h answers x :
  forall d, In x (samples h d answers) ->
  exists b r, In (Some b) answers /\ x = sample b r.
Proof.
  induction answers as [| [b' |] rest IH]; intros d Hin.
  - destruct Hin.
  - destruct Hin as [E | Hin].
    + exists b', (Math_random h d). split; [now left | now symmetry].
    + destruct (IH (S d) Hin) as (b & r & Hb & E). exists b, r.
      split; [now right | exact E].
  - destruct (IH d Hin) as (b & r & Hb & E). exists b, r.
    split; [now right | exact E].
Qed.

Lemma gwei_positive : 0 < 1e9.
Proof. reflexivity. Qed.

Lemma price_of_null_fee b r :
  ethers.baseFeePerGas b = None -> price (sample b r) == 0.
Proof. intros E. cbn [sample price]. rewrite E. reflexivity. Qed.

Lemma price_nonnegative b r :
  (forall f, ethers.baseFeePerGas b = Some f -> (0 <= f)%Z) ->
  0 <= price (sample b r).
Proof.
  intros Hf. cbn [sample price].
  destruct (ethers.baseFeePerGas b) as [f |]; [| discriminate].
  specialize (Hf f eq_refl). cbn [Number_of].
  apply Qle_shift_div_l; [exact gwei_positive |].
  rewrite Qmult_0_l. unfold Qle. cbn [inject_Z Qnum Qden]. lia.
Qed.

(** C10, as the code has it.  In an [initialize] none of whose reads
    throws, a block that was retrieved and whose [baseFeePerGas] is [null]
    is not left out: [initialize] stores a sample for it, with a price of
    zero.  When no base fee is negative that sample is the smallest of the
    window, and the next recommendation, for a live price above zero,
    reports a [historicalLow] of 0 and savings of 100.0%. *)
Theorem null_base_fee h p rt head answers b :
  ethers.getBlockNumber p = Normal head ->
  map (ethers.getBlock p) (countdown head 100) = map Normal answers ->
  In (Some b) answers ->
  ethers.baseFeePerGas b = None ->
  (exists d,
      In d (historicalData (this (snd (initialize h p rt))))
      /\ timestamp d = (ethers.timestamp b * 1000)%Z
      /\ price d == 0)
  /\ forall fee,
       (forall b' f, In (Some b') answers ->
                     ethers.baseFeePerGas b' = Some f -> (0 <= f)%Z) ->
       ethers.getFeeData p = Normal fee ->
       0 < Number_of (ethers.gasPrice fee) ->
       exists r,
         fst (getGasRecommendation h (snd (initialize h p rt))) = Normal r
         /\ historicalLow r = Fin 0
         /\ estimatedSavings r = "100.0%"%string.
Proof.
  intros E0 Ea Hb Hnull.
  rewrite (initialize_answered _ _ _ _ _ E0 Ea).
  cbn [snd this historicalData].
  destruct (samples_In h answers b (draws rt) Hb) as (r0 & Hd0).
  split.
  - exists (sample b r0). split; [exact Hd0 |]. split; [reflexivity |].
    now apply price_of_null_fee.
  - intros fee Hpos Hfee Hlive.
    set (rt' := {| this := {| historicalData := samples h (draws rt) answers;
                              provider := Some p |};
                   console := console rt;
                   reads := reads rt ++ ReadBlockNumber
                              :: map ReadBlock (countdown head 100);
                   draws := draws rt + List.length (retrieved answers) |}).
    assert (Hw : historicalData (this rt') <> []).
    { cbn [rt' this historicalData]. intros E. rewrite E in Hd0. destruct Hd0. }
    rewrite (getGasRecommendation_returns h rt' p fee eq_refl Hw Hfee).
    destruct (lowest_spec _ Hw) as (low & Elow & Hin & Hmin).
    cbn [rt' this historicalData] in Elow, Hin, Hmin.
    assert (Hlow : low == 0).
    { apply Qle_antisym.
      - rewrite <- (price_of_null_fee b r0 Hnull). now apply Hmin.
      - apply in_map_iff in Hin. destruct Hin as (d & <- & Hd).
        apply samples_inv in Hd. destruct Hd as (b' & r' & Hb' & ->).
        apply price_nonnegative. intros f. now apply Hpos. }
    eexists. split; [reflexivity |].
    cbn [rt' this historicalData recommend historicalLow estimatedSavings].
    rewrite Elow, liveGwei_finite.
    set (c := Number_of (ethers.gasPrice fee) / 1e9).
    assert (Hc : 0 < c).
    { apply Qlt_shift_div_l; [exact gwei_positive |]. now rewrite Qmult_0_l. }
    assert (Hc0 : ~ c == 0) by lra.
    split.
    + cbn [Math_round]. rewrite (Qfloor_comp (low + 0.5) 0.5); [reflexivity |].
      rewrite Hlow. ring.
    + rewrite (potentialSavings_finite _ _ Hc0).
      rewrite (toFixed1_comp h ((c - low) / c * 100) 100);
        [reflexivity | | reflexivity].
      rewrite Hlow. field. exact Hc0.
Qed.

Lemma legacy_blocks_null zs b :
  In (Some b) (map (fun n => Some (legacy_block n)) zs) ->
  ethers.baseFeePerGas b = None.
Proof.
  induction zs as [| z zs IH]; intros Hin; [destruct Hin |].
  destruct Hin as [E | Hin].
  - injection E as <-. reflexivity.
  - exact (IH Hin).
Qed.

Lemma null_base_fee_witness :
  ethers.getBlockNumber legacy = Normal 1000%Z
  /\ 0 < Number_of (Some 20000000000%Z)
  /\ exists r,
       fst (getGasRecommendation utc (snd (initialize utc legacy boot)))
       = Normal r
       /\ historicalLow r = Fin 0
       /\ estimatedSavings r = "100.0%"%string.
Proof.
  split; [reflexivity |]. split; [reflexivity |].
  assert (Hin : In (Some (legacy_block 1000))
                   (map (fun n => Some (legacy_block n)) (countdown 1000 100)))
    by (left; reflexivity).
  destruct (null_base_fee utc legacy boot 1000
              (map (fun n => Some (legacy_block n)) (countdown 1000 100))
              (legacy_block 1000) eq_refl eq_refl Hin eq_refl)
    as (_ & Hrec).
  apply (Hrec {| ethers.gasPrice := Some 20000000000%Z |}).
  - intros b' f Hb' Hf. rewrite (legacy_blocks_null _ _ Hb') in Hf.
    discriminate.
  - reflexivity.
  - reflexivity.
Defined.

(** C10 does not hold as stated: a block with a [null] base fee that was
    retrieved leaves no sample when a later read of the same [initialize]
    throws.  Block 1000 is retrieved, the read of block 995 throws: the
    window stays empty, and the next recommendation is refused. *)
Lemma null_fee_block_dropped :
  ethers.getBlock legacy_flaky 1000 = Normal (Some (legacy_block 1000))
  /\ ethers.baseFeePerGas (legacy_block 1000) = None
  /\ In (ReadBlock 1000) (reads (snd (initialize utc legacy_flaky boot)))
  /\ historicalData (this (snd (initialize utc legacy_flaky boot))) = []
  /\ fst (getGasRecommendation utc (snd (initialize utc legacy_flaky boot)))
     = Throw Uninitialized.
Proof.
  assert (E : initialize utc legacy_flaky boot =
              (Normal tt,
               {| this := {| historicalData := [];
                             provider := Some legacy_flaky |};
                  console := [(gas_log, network_error)];
                  reads := ReadBlockNumber :: map ReadBlock (countdown 1000 6);
                  draws := 5 |})).
  { apply (initialize_block_thrown utc legacy_flaky boot 1000
             (map (fun n => Some (legacy_block n)) (countdown 1000 5))
             5 network_error); [reflexivity | lia | reflexivity | reflexivity]. }
  rewrite E. cbn [snd this historicalData reads].
  split; [reflexivity |]. split; [reflexivity |].
  split; [right; left; reflexivity |]. split; reflexivity.
Qed.

(** ** The hour search *)

(** *** The order of [<] on numbers other than [NaN] *)

Lemma Qltb_irrefl x : Qltb x x = false.
Proof.
  destruct (Qltb x x) eqn:E; [| reflexivity].
  apply Qltb_lt in E. now apply Qlt_irrefl in E.
Qed.

Lemma Qltb_false x y : Qltb x y = false <-> y <= x.
Proof.
  split; intros H.
  - apply Qnot_lt_le. rewrite <- Qltb_lt. congruence.
  - destruct (Qltb x y) eqn:E; [| reflexivity].
    apply Qltb_lt in E. now apply Qle_not_lt in H.
Qed.

Lemma ltb_irrefl x : Num.ltb x x = false.
Proof. destruct x; simpl; auto using Qltb_irrefl. Qed.

Ltac order_cases :=
  simpl; try congruence;
  rewrite ?Qltb_lt, ?Qltb_false; intros; try lra.

(** [x < y] and [y < z] give [x < z]. *)
Lemma ltb_trans x y z :
  Num.ltb x y = true -> Num.ltb y z = true -> Num.ltb x z = true.
Proof. destruct x, y, z; order_cases. Qed.

(** [x <= y] and [y <= z] give [x <= z], nothing being [NaN]. *)
Lemma leb_trans x y z :
  y <> NaN ->
  Num.ltb y x = false -> Num.ltb z y = false -> Num.ltb z x = false.
Proof. destruct x, y, z; order_cases. Qed.

(** [x < y] and [y <= z] give [x < z]. *)
Lemma ltb_leb_trans x y z :
  z <> NaN ->
  Num.ltb x y = true -> Num.ltb z y = false -> Num.ltb x z = true.
Proof. destruct x, y, z; order_cases. Qed.

(** *** The buckets *)

Lemma getHours_bound h t : (getHours h t < 24)%nat.
Proof.
  unfold getHours, getUTCHours.
  pose proof (Z.mod_pos_bound ((t + LocalTZA h t) / msPerHour) 24) as Hb.
  lia.
Qed.

Lemma nth_error_bump hour p : forall bs k,
  nth_error (bump hour p bs) k =
    if Nat.eqb hour k
    then option_map (fun b => {| sum := sum b + p; count := S (count b) |})
                    (nth_error bs k)
    else nth_error bs k.
Proof.
  induction hour as [| hour IH]; intros [| b bs] [| k]; try reflexivity.
  - cbn [bump nth_error Nat.eqb]. now destruct (Nat.eqb hour k).
  - cbn [bump nth_error Nat.eqb]. apply IH.
Qed.

Lemma prices_at_cons clock k d window :
  prices_at clock k (d :: window) =
    if Nat.eqb (clock (timestamp d)) k
    then price d :: prices_at clock k window
    else prices_at clock k window.
Proof.
  unfold prices_at. cbn [filter].
  now destruct (Nat.eqb (clock (timestamp d)) k).
Qed.

(** The bucket of hour [k] after the [forEach]: the prices of the samples
    of that hour added, in the order of the window, to what was there. *)
Lemma buckets_fold clock window : forall bs k,
  nth_error
    (fold_left (fun buckets data =>
                  bump (clock (timestamp data)) (price data) buckets)
               window bs) k
  = option_map
      (fun b => {| sum := fold_left Qplus (prices_at clock k window) (sum b);
                   count := count b + List.length (prices_at clock k window) |})
      (nth_error bs k).
Proof.
  induction window as [| d window IH]; intros bs k.
  - cbn [fold_left prices_at filter map List.length].
    destruct (nth_error bs k) as [[s c] |]; [| reflexivity].
    cbn [option_map sum count]. now rewrite Nat.add_0_r.
  - cbn [fold_left]. rewrite IH, nth_error_bump, prices_at_cons.
    destruct (Nat.eqb (clock (timestamp d)) k);
      destruct (nth_error bs k) as [[s c] |]; try reflexivity.
    cbn [option_map sum count fold_left List.length].
    now rewrite Nat.add_succ_r.
Qed.

Lemma hourlyAverages_nth h window k :
  nth_error (hourlyAverages h window) k =
    if (k <? 24)%nat then Some (bucket_at (getHours h) k window) else None.
Proof.
  unfold hourlyAverages. rewrite (buckets_fold (getHours h)).
  destruct (k <? 24)%nat eqn:Hk.
  - apply Nat.ltb_lt in Hk. rewrite nth_error_repeat by exact Hk.
    reflexivity.
  - apply Nat.ltb_ge in Hk.
    assert (E : nth_error (repeat {| sum := 0; count := 0 |} 24) k = None).
    { apply nth_error_None. now rewrite repeat_length. }
    now rewrite E.
Qed.

Lemma fold_Qplus_Qsum ps : forall acc, fold_left Qplus ps acc == acc + Qsum ps.
Proof.
  induction ps as [| p ps IH]; intros acc; simpl.
  - lra.
  - rewrite IH. lra.
Qed.

(** The average of a bucket: [Infinity] for an hour without a sample, the
    mean of the prices of the hour otherwise. *)
Lemma average_bucket clock k window :
  (prices_at clock k window = []
   /\ average (bucket_at clock k window) = PosInfinity)
  \/ (prices_at clock k window <> []
      /\ exists a,
           average (bucket_at clock k window) = Fin a
           /\ a == mean (prices_at clock k window)).
Proof.
  unfold average, bucket_at. cbn [sum count].
  destruct (prices_at clock k window) as [| p ps] eqn:E.
  - left. split; reflexivity.
  - right. split; [discriminate |].
    assert (Hn : ~ inject_Z (Z.of_nat (List.length (p :: ps))) == 0).
    { unfold Qeq. cbn [Qnum Qden inject_Z List.length]. lia. }
    replace (0 <? List.length (p :: ps))%nat with true by reflexivity.
    unfold Num.of_nat, Num.of_Z. rewrite (div_finite _ _ Hn).
    eexists. split; [reflexivity |].
    unfold mean. now rewrite fold_Qplus_Qsum, Qplus_0_l.
Qed.

(** *** The [reduce] *)

Lemma average_ordered b : average b <> NaN.
Proof.
  unfold average. destruct (0 <? count b)%nat eqn:E; [| discriminate].
  apply Nat.ltb_lt in E.
  assert (Hn : ~ inject_Z (Z.of_nat (count b)) == 0).
  { unfold Qeq. cbn [Qnum Qden inject_Z]. lia. }
  unfold Num.of_nat, Num.of_Z. rewrite (div_finite _ _ Hn). discriminate.
Qed.

(** What the [reduce] returns, started at index [i] with [best]: an average
    that no bucket of the array is below; and either [best] itself, or the
    first bucket below [best] that no later bucket is below. *)
Lemma reduce_pick bs : forall i best,
  avg best <> NaN ->
  avg (reduce_from pick i bs best) <> NaN
  /\ Num.ltb (avg best) (avg (reduce_from pick i bs best)) = false
  /\ (forall j b, nth_error bs j = Some b ->
        Num.ltb (average b) (avg (reduce_from pick i bs best)) = false)
  /\ (reduce_from pick i bs best = best
      \/ exists j b,
           nth_error bs j = Some b
           /\ reduce_from pick i bs best
              = {| hour := i + j; avg := average b |}
           /\ Num.ltb (average b) (avg best) = true
           /\ forall j' b', (j' < j)%nat -> nth_error bs j' = Some b' ->
                Num.ltb (average b) (average b') = true).
Proof.
  induction bs as [| x rest IH]; intros i best Hbest.
  - cbn [reduce_from]. repeat split; auto using ltb_irrefl.
    intros [| j] b E; discriminate.
  - cbn [reduce_from].
    assert (Hpick : avg (pick best x i) <> NaN).
    { unfold pick. destruct (Num.ltb (average x) (avg best));
        [apply average_ordered | exact Hbest]. }
    destruct (IH (S i) (pick best x i) Hpick) as (HR & Hle & Hall & Hwhich).
    set (R := reduce_from pick (S i) rest (pick best x i)) in *.
    assert (Hx : Num.ltb (average x) (avg (pick best x i)) = false).
    { unfold pick. destruct (Num.ltb (average x) (avg best)) eqn:Ex;
        [apply ltb_irrefl | exact Ex]. }
    assert (Hb : Num.ltb (avg best) (avg (pick best x i)) = false).
    { unfold pick. destruct (Num.ltb (average x) (avg best)) eqn:Ex;
        [| apply ltb_irrefl].
      cbn [avg]. destruct (Num.ltb (avg best) (average x)) eqn:Ey;
        [| reflexivity].
      pose proof (ltb_trans _ _ _ Ex Ey) as Hc.
      now rewrite ltb_irrefl in Hc. }
    split; [exact HR |]. split; [| split].
    + exact (leb_trans _ _ _ Hpick Hle Hb).
    + intros [| j] b E.
      * injection E as <-. exact (leb_trans _ _ _ Hpick Hle Hx).
      * exact (Hall j b E).
    + unfold pick in Hwhich, Hx, Hb |- *.
      destruct (Num.ltb (average x) (avg best)) eqn:Ex.
      * right. destruct Hwhich as [E | (j & b & Ej & E & Hlt & Hfirst)].
        -- exists 0%nat, x. rewrite Nat.add_0_r.
           repeat split; [exact E | exact Ex |]. intros j' b' Hj'. lia.
        -- exists (S j), b. rewrite Nat.add_succ_r.
           repeat split; [exact Ej | exact E | |].
           ++ cbn [avg] in Hlt. exact (ltb_trans _ _ _ Hlt Ex).
           ++ intros [| j'] b' Hj' E'.
              ** injection E' as <-. exact Hlt.
              ** apply (Hfirst j' b'); [lia | exact E'].
      * destruct Hwhich as [E | (j & b & Ej & E & Hlt & Hfirst)].
        -- left. exact E.
        -- right. exists (S j), b. rewrite Nat.add_succ_r.
           repeat split; [exact Ej | exact E | exact Hlt |].
           intros [| j'] b' Hj' E'.
           ++ injection E' as <-.
              exact (ltb_leb_trans _ _ _ (average_ordered _) Hlt Ex).
           ++ apply (Hfirst j' b'); [lia | exact E'].
Qed.

Lemma prices_at_hour clock k window :
  prices_at clock k window <> [] ->
  exists d, In d window /\ clock (timestamp d) = k.
Proof.
  unfold prices_at. intros Hne.
  destruct (filter (fun d => Nat.eqb (clock (timestamp d)) k) window)
    as [| d ds] eqn:E; [now destruct Hne |].
  assert (Hd : In d (filter (fun d => Nat.eqb (clock (timestamp d)) k) window))
    by (rewrite E; now left).
  apply filter_In in Hd. destruct Hd as [Hin Hk].
  exists d. split; [exact Hin | now apply Nat.eqb_eq].
Qed.

Lemma prices_at_In clock d window :
  In d window -> prices_at clock (clock (timestamp d)) window <> [].
Proof.
  intros Hin E. unfold prices_at in E.
  assert (Hd : In d (filter (fun d' => Nat.eqb (clock (timestamp d'))
                                               (clock (timestamp d))) window)).
  { apply filter_In. split; [exact Hin | apply Nat.eqb_refl]. }
  apply (in_map price) in Hd. rewrite E in Hd. destruct Hd.
Qed.

Lemma average_finite clock k window :
  Num.ltb (average (bucket_at clock k window)) PosInfinity = true ->
  prices_at clock k window <> []
  /\ exists a,
       average (bucket_at clock k window) = Fin a
       /\ a == mean (prices_at clock k window).
Proof.
  intros Hlt.
  destruct (average_bucket clock k window) as [[_ E] | Hfin]; [| exact Hfin].
  rewrite E in Hlt. discriminate.
Qed.

(** The hour the code picks, on a window that is not empty: an hour of
    the local clock of the host that has a sample, whose mean price no hour
    with a sample is below, and the first such hour. *)
Lemma best_hour_least_mean h window :
  window <> [] ->
  (bestHour h window < 24)%nat
  /\ prices_at (getHours h) (bestHour h window) window <> []
  /\ forall k,
       prices_at (getHours h) k window <> [] ->
       mean (prices_at (getHours h) (bestHour h window) window)
       <= mean (prices_at (getHours h) k window)
       /\ ((k < bestHour h window)%nat ->
           mean (prices_at (getHours h) (bestHour h window) window)
           < mean (prices_at (getHours h) k window)).
Proof.
  intros Hw. unfold bestHour.
  set (start := {| hour := 0%nat; avg := PosInfinity |}).
  assert (Hstart : avg start <> NaN) by discriminate.
  destruct (reduce_pick (hourlyAverages h window) 0 start Hstart)
    as (_ & _ & Hall & Hwhich).
  set (R := reduce_from pick 0 (hourlyAverages h window) start) in *.
  assert (Hbucket : forall k, prices_at (getHours h) k window <> [] ->
            nth_error (hourlyAverages h window) k
            = Some (bucket_at (getHours h) k window)).
  { intros k Hk. rewrite hourlyAverages_nth.
    destruct (prices_at_hour _ _ _ Hk) as (d & _ & <-).
    pose proof (getHours_bound h (timestamp d)) as Hlt.
    apply Nat.ltb_lt in Hlt. now rewrite Hlt. }
  destruct Hwhich as [E | (j & b & Ej & E & Hlt & Hfirst)].
  - exfalso. destruct window as [| d0 rest]; [now destruct Hw |].
    assert (H0 : prices_at (getHours h) (getHours h (timestamp d0)) (d0 :: rest) <> [])
      by (apply prices_at_In; now left).
    pose proof (Hall _ _ (Hbucket _ H0)) as Hge. rewrite E in Hge.
    destruct (average_bucket (getHours h) (getHours h (timestamp d0)) (d0 :: rest))
      as [[E0 _] | (_ & a & Ea & _)]; [now apply H0 |].
    rewrite Ea in Hge. discriminate.
  - rewrite E. cbn [hour avg Nat.add] in *.
    rewrite hourlyAverages_nth in Ej.
    destruct (j <? 24)%nat eqn:Hj; [| discriminate].
    injection Ej as <-. apply Nat.ltb_lt in Hj.
    destruct (average_finite _ _ _ Hlt) as (Hne & aj & Eaj & Emj).
    split; [exact Hj |]. split; [exact Hne |].
    intros k Hk.
    destruct (average_bucket (getHours h) k window)
      as [[E0 _] | (_ & ak & Eak & Emk)]; [now destruct Hk |].
    split.
    + pose proof (Hall _ _ (Hbucket _ Hk)) as Hge.
      rewrite E in Hge. cbn [avg] in Hge.
      rewrite Eak, Eaj in Hge. cbn [Num.ltb] in Hge.
      apply Qltb_false in Hge. now rewrite <- Emj, <- Emk.
    + intros Hkj. pose proof (Hfirst _ _ Hkj (Hbucket _ Hk)) as Hlt'.
      rewrite Eak, Eaj in Hlt'. cbn [Num.ltb] in Hlt'.
      apply Qltb_lt in Hlt'. now rewrite <- Emj, <- Emk.
Qed.

(** ** The text of [bestTime] *)

(** In every host, the hour written in [bestTime] is the hour of the local
    clock found by the search. *)
Lemma best_time_local h rt p fee :
  provider (this rt) = Some p ->
  historicalData (this rt) <> [] ->
  ethers.getFeeData p = Normal fee ->
  exists r,
    fst (getGasRecommendation h rt) = Normal r
    /\ bestTime r = hour_window (bestHour h (historicalData (this rt))).
Proof.
  intros Hp Hw Hfee.
  rewrite (getGasRecommendation_returns _ _ _ _ Hp Hw Hfee).
  eexists. split; reflexivity.
Qed.

Lemma prices_at_ext clock clock' k window :
  (forall d, In d window -> clock (timestamp d) = clock' (timestamp d)) ->
  prices_at clock k window = prices_at clock' k window.
Proof.
  intros Hext. unfold prices_at. f_equal. apply filter_ext_in.
  intros d Hd. now rewrite (Hext d Hd).
Qed.

(** Where local time is UTC at the time of every sample, [bestTime] is
    the window of the UTC hour of least mean price, hours without a sample
    left out and the lowest hour taken among equals. *)
Lemma best_time_where_local_is_utc h rt p fee :
  provider (this rt) = Some p ->
  historicalData (this rt) <> [] ->
  ethers.getFeeData p = Normal fee ->
  (forall d, In d (historicalData (this rt)) -> LocalTZA h (timestamp d) = 0%Z) ->
  exists r H,
    fst (getGasRecommendation h rt) = Normal r
    /\ bestTime r = hour_window H
    /\ (H < 24)%nat
    /\ prices_at getUTCHours H (historicalData (this rt)) <> []
    /\ forall k,
         prices_at getUTCHours k (historicalData (this rt)) <> [] ->
         mean (prices_at getUTCHours H (historicalData (this rt)))
         <= mean (prices_at getUTCHours k (historicalData (this rt)))
         /\ ((k < H)%nat ->
             mean (prices_at getUTCHours H (historicalData (this rt)))
             < mean (prices_at getUTCHours k (historicalData (this rt)))).
Proof.
  intros Hp Hw Hfee Hutc.
  destruct (best_time_local h rt p fee Hp Hw Hfee) as (r & Hr & Ebest).
  destruct (best_hour_least_mean h _ Hw) as (H24 & Hne & Hleast).
  assert (Hext : forall k,
            prices_at (getHours h) k (historicalData (this rt))
            = prices_at getUTCHours k (historicalData (this rt))).
  { intros k. apply prices_at_ext. intros d Hd. unfold getHours.
    now rewrite (Hutc d Hd), Z.add_0_r. }
  exists r, (bestHour h (historicalData (this rt))).
  split; [exact Hr |]. split; [exact Ebest |]. split; [exact H24 |].
  rewrite <- Hext. split; [exact Hne |].
  intros k Hk. rewrite <- (Hext k) in Hk |- *. now apply Hleast.
Qed.

Example best_time_of_scenario :
  exists r,
    fst (getGasRecommendation utc scenario) = Normal r
    /\ bestTime r = hour_window 5
    /\ mean (prices_at getUTCHours 5 (historicalData (this scenario))) == 6
    /\ mean (prices_at getUTCHours 0 (historicalData (this scenario))) == 11.
Proof.
  destruct (best_time_where_local_is_utc utc scenario chain
              {| ethers.gasPrice := Some 20000000000%Z |}
              eq_refl ltac:(discriminate) eq_refl (fun _ _ => eq_refl))
    as (r & H & Hr & _).
  exists r. split; [exact Hr |]. injection Hr as <-.
  split; [reflexivity |]. split; reflexivity.
Qed.

(** C2, at an input where the code departs from it.  In a browser whose
    local time is an hour ahead of UTC, for a window of one sample taken at
    22:13:20 UTC, the only UTC hour with a sample is 22, and [bestTime]
    reads 23:00 - 0:00 UTC: the hour is that of the local clock
    ([getHours]), under a label that says UTC. *)
Theorem best_time_labels_local_hour :
  exists r,
    fst (getGasRecommendation utc_plus_1 (running chain [evening])) = Normal r
    /\ getUTCHours (timestamp evening) = 22%nat
    /\ (forall k, prices_at getUTCHours k [evening] <> [] -> k = 22%nat)
    /\ getHours utc_plus_1 (timestamp evening) = 23%nat
    /\ bestTime r = "23:00 - 0:00 UTC"%string
    /\ bestTime r <> hour_window 22.
Proof.
  eexists. split; [reflexivity |]. split; [reflexivity |]. split.
  - intros k Hk. apply prices_at_hour in Hk.
    destruct Hk as (d & [<- | []] & <-). reflexivity.
  - split; [reflexivity |]. split; [reflexivity | discriminate].
Qed.

(** ** The scenarios of the specification *)

Example scenario_recommendation :
  fst (getGasRecommendation utc scenario) =
    Normal {| bestTime := "5:00 - 6:00 UTC";
              estimatedSavings := "70.0%";
              currentGwei := Fin 20;
              historicalLow := Fin 6;
              batchingRecommendation := Batching |}.
Proof. reflexivity. Qed.

Example scenario_no_block :
  fst (initialize utc pruned boot) = Normal tt
  /\ historicalData (this (snd (initialize utc pruned boot))) = []
  /\ fst (getGasRecommendation utc (snd (initialize utc pruned boot)))
     = Throw Uninitialized.
Proof.
  rewrite (initialize_answered utc pruned boot 1000 (repeat None 100));
    [| reflexivity | reflexivity].
  repeat split.
Qed.

Example live_price_of_zero :
  exists r,
    fst (getGasRecommendation utc
           (running {| ethers.getBlockNumber := Normal 1000%Z;
                       ethers.getBlock := fun _ => Normal None;
                       ethers.getFeeData :=
                         Normal {| ethers.gasPrice := None |} |}
                    [at_hour 5 0 6]))
    = Normal r
    /\ estimatedSavings r = "-Infinity%"%string.
Proof. eexists. split; reflexivity. Qed.

(** * Further properties of the sampler *)

(** ** The buckets partition the window *)

(** ** What the recommendation says of savings *)

Lemma Qsum_lower low xs :
  (forall x, In x xs -> low <= x) ->
  inject_Z (Z.of_nat (List.length xs)) * low <= Qsum xs.
Proof.
  induction xs as [| x xs IH]; intros Hlow.
  - cbn [List.length Qsum]. change (inject_Z (Z.of_nat 0)) with 0. lra.
  - cbn [List.length Qsum]. rewrite Nat2Z.inj_succ, <- Z.add_1_r.
    rewrite inject_Z_plus. change (inject_Z 1) with 1.
    assert (Hx : low <= x) by (apply Hlow; now left).
    assert (Hxs : inject_Z (Z.of_nat (List.length xs)) * low <= Qsum xs)
      by (apply IH; intros y Hy; apply Hlow; now right).
    lra.
Qed.

(** No price of a window below [low], its mean is not below [low]. *)
Lemma mean_lower low xs :
  xs <> [] -> (forall x, In x xs -> low <= x) -> low <= mean xs.
Proof.
  intros Hne Hlow. unfold mean.
  assert (Hn : 0 < inject_Z (Z.of_nat (List.length xs))).
  { destruct xs as [| x xs]; [easy |].
    unfold Qlt. cbn [Qnum Qden inject_Z List.length]. lia. }
  apply Qle_shift_div_l; [exact Hn |].
  rewrite Qmult_comm. now apply Qsum_lower.
Qed.

Lemma live_positive fee :
  0 < Number_of (ethers.gasPrice fee) ->
  0 < Number_of (ethers.gasPrice fee) / 1e9.
Proof.
  intros H. apply Qlt_shift_div_l; [exact gwei_positive |].
  now rewrite Qmult_0_l.
Qed.

Lemma savings_upper c low :
  0 < c -> 0 <= low -> (c - low) / c * 100 <= 100.
Proof.
  intros Hc Hlow.
  assert (E : 100 - (c - low) / c * 100 == low * 100 * / c) by (field; lra).
  assert (Hinv : 0 <= / c) by (apply Qlt_le_weak; now apply Qinv_lt_0_compat).
  assert (Hnum : 0 <= low * 100) by lra.
  pose proof (Qmult_le_0_compat _ _ Hnum Hinv) as Hprod. lra.
Qed.

Lemma savings_lower c low :
  0 < c -> low <= c -> 0 <= (c - low) / c * 100.
Proof.
  intros Hc Hlow.
  assert (E : (c - low) / c * 100 == (c - low) * 100 * / c) by (field; lra).
  assert (Hinv : 0 <= / c) by (apply Qlt_le_weak; now apply Qinv_lt_0_compat).
  assert (Hnum : 0 <= (c - low) * 100) by lra.
  pose proof (Qmult_le_0_compat _ _ Hnum Hinv) as Hprod. lra.
Qed.

(** X2.  For a live price above zero over a window without a negative
    price, the savings the recommendation shows are the text of a value of
    at most 100; the value is not negative when some sample is at or below
    the live price, and negative when every sample is above it. *)
Theorem savings_within_bounds h rt p fee :
  provider (this rt) = Some p ->
  historicalData (this rt) <> [] ->
  ethers.getFeeData p = Normal fee ->
  0 < Number_of (ethers.gasPrice fee) ->
  (forall d, In d (historicalData (this rt)) -> 0 <= price d) ->
  let c := Number_of (ethers.gasPrice fee) / 1e9 in
  exists r v,
    fst (getGasRecommendation h rt) = Normal r
    /\ estimatedSavings r = (toFixed1 h (Fin v) ++ "%")%string
    /\ v <= 100
    /\ ((exists d, In d (historicalData (this rt)) /\ price d <= c) -> 0 <= v)
    /\ ((forall d, In d (historicalData (this rt)) -> c < price d) -> v < 0).
Proof.
  intros Hp Hw Hfee Hlive Hnonneg c.
  assert (Hc : 0 < c) by now apply live_positive.
  assert (Hc0 : ~ c == 0) by lra.
  destruct (lowest_spec _ Hw) as (low & Elow & Hin & Hmin).
  rewrite (getGasRecommendation_returns _ _ _ _ Hp Hw Hfee).
  exists (recommend h (historicalData (this rt)) fee), ((c - low) / c * 100).
  cbn [fst recommend estimatedSavings].
  rewrite Elow, liveGwei_finite. fold c.
  rewrite (potentialSavings_finite _ _ Hc0).
  apply in_map_iff in Hin. destruct Hin as (d0 & E0 & Hd0).
  split; [reflexivity |]. split; [reflexivity |]. split; [| split].
  - apply savings_upper; [exact Hc |]. rewrite <- E0. now apply Hnonneg.
  - intros (d & Hd & Hle). apply savings_lower; [exact Hc |].
    eapply Qle_trans; [apply (Hmin d Hd) | exact Hle].
  - intros Habove. apply savings_negative; [exact Hc |].
    rewrite <- E0. now apply Habove.
Qed.

Lemma savings_within_bounds_witness :
  0 < Number_of (Some 20000000000%Z)
  /\ (forall d, In d (historicalData (this scenario)) -> 0 <= price d)
  /\ exists r v,
       fst (getGasRecommendation utc scenario) = Normal r
       /\ estimatedSavings r = (toFixed1 utc (Fin v) ++ "%")%string
       /\ v <= 100.
Proof.
  assert (Hn : forall d, In d (historicalData (this scenario)) -> 0 <= price d).
  { intros d [<- | [<- | [<- | []]]]; discriminate. }
  split; [reflexivity |]. split; [exact Hn |].
  destruct (savings_within_bounds utc scenario chain
              {| ethers.gasPrice := Some 20000000000%Z |}
              eq_refl ltac:(discriminate) eq_refl eq_refl Hn)
    as (r & v & Hr & Hs & Hv & _).
  exists r, v. auto.
Defined.

(** ** A live price of zero *)

(** X4.  A live price of zero, which is what a [gasPrice] of [null] or
    [0n] gives, is not turned away: the recommendation is returned with a
    [currentGwei] of 0, and the division by it shows in [estimatedSavings],
    which reads -Infinity% over a window whose smallest price is above
    zero and NaN% when that price is zero.  Over a window without a
    negative price the advice is then for individual transactions. *)
Theorem zero_live_price h rt p fee :
  provider (this rt) = Some p ->
  historicalData (this rt) <> [] ->
  ethers.getFeeData p = Normal fee ->
  ethers.gasPrice fee = None \/ ethers.gasPrice fee = Some 0%Z ->
  exists r low,
    fst (getGasRecommendation h rt) = Normal r
    /\ currentGwei r = Fin 0
    /\ lowest (historicalData (this rt)) = Fin low
    /\ (0 < low -> estimatedSavings r = "-Infinity%"%string)
    /\ (low == 0 -> estimatedSavings r = "NaN%"%string)
    /\ ((forall d, In d (historicalData (this rt)) -> 0 <= price d) ->
        batchingRecommendation r = Individual).
Proof.
  intros Hp Hw Hfee Hzero.
  destruct (lowest_spec _ Hw) as (low & Elow & Hin & Hmin).
  destruct (avgPrice_spec _ Hw) as (a & Ea & Em).
  rewrite (getGasRecommendation_returns _ _ _ _ Hp Hw Hfee).
  exists (recommend h (historicalData (this rt)) fee), low.
  cbn [fst recommend currentGwei estimatedSavings batchingRecommendation].
  rewrite Elow, Ea.
  assert (Elive : liveGwei fee = Fin (0 / 1e9)).
  { unfold liveGwei. now destruct Hzero as [-> | ->]. }
  rewrite Elive.
  split; [reflexivity |]. split; [reflexivity |]. split; [reflexivity |].
  unfold potentialSavings, Num.sub, Num.neg, Num.add, Num.div.
  change (Qsign (0 / 1e9)) with Eq. unfold Qsign.
  assert (Ez : 0 / 1e9 == 0) by reflexivity.
  split; [| split].
  - intros Hlow.
    assert (E : (0 / 1e9 + - low ?= 0) = Lt)
      by (apply (proj1 (Qlt_alt _ _)); rewrite Ez; clear Ez; lra).
    now rewrite E.
  - intros Hlow.
    assert (E : (0 / 1e9 + - low ?= 0) = Eq)
      by (apply (proj1 (Qeq_alt _ _)); rewrite Ez; clear Ez; lra).
    now rewrite E.
  - intros Hnonneg.
    assert (Hmean : 0 <= a).
    { rewrite Em. apply mean_lower.
      - intros E. apply map_eq_nil in E. now apply Hw.
      - intros x Hx. apply in_map_iff in Hx. destruct Hx as (d & <- & Hd).
        now apply Hnonneg. }
    unfold shouldBatch, Num.gtb, Num.mul, Num.ltb.
    assert (E : Qltb (a * 1.2) (0 / 1e9) = false)
      by (apply Qltb_false; rewrite Ez; clear Ez; lra).
    now rewrite E.
Qed.

Lemma zero_live_price_witness :
  exists r,
    fst (getGasRecommendation utc
           (running {| ethers.getBlockNumber := Normal 1000%Z;
                       ethers.getBlock := fun _ => Normal None;
                       ethers.getFeeData :=
                         Normal {| ethers.gasPrice := None |} |}
                    [at_hour 5 0 6]))
    = Normal r
    /\ currentGwei r = Fin 0.
Proof.
  destruct (zero_live_price utc
              (running {| ethers.getBlockNumber := Normal 1000%Z;
                          ethers.getBlock := fun _ => Normal None;
                          ethers.getFeeData :=
                            Normal {| ethers.gasPrice := None |} |}
                       [at_hour 5 0 6])
              _ {| ethers.gasPrice := None |}
              eq_refl ltac:(discriminate) eq_refl (or_introl eq_refl))
    as (r & low & Hr & Hc & _).
  exists r. split; assumption.
Defined.

(** ** The order of the window *)

Lemma answers_of_countdown (p : ethers.BrowserProvider) n :
  forall from answers b,
    map (ethers.getBlock p) (countdown from n) = map Normal answers ->
    In (Some b) answers ->
    exists m, (m <= from)%Z /\ ethers.getBlock p m = Normal (Some b).
Proof.
  induction n as [| n IH]; intros from answers b E Hin.
  - apply map_Normal_nil in E. subst answers. destruct Hin.
  - cbn [countdown map] in E. apply map_Normal_cons in E.
    destruct E as (a & rest & -> & Ea & Erest).
    destruct Hin as [-> | Hin].
    + exists from. split; [lia | exact Ea].
    + destruct (IH _ _ _ Erest Hin) as (m & Hm & Em).
      exists m. split; [lia | exact Em].
Qed.

Lemma samples_timestamps h d answers :
  map timestamp (samples h d answers)
  = map (fun b => (ethers.timestamp b * 1000)%Z) (retrieved answers).
Proof.
  revert d. induction answers as [| [b |] rest IH]; intros d; simpl.
  - reflexivity.
  - now rewrite IH.
  - apply IH.
Qed.

Lemma retrieved_In answers b :
  In b (retrieved answers) <-> In (Some b) answers.
Proof.
  induction answers as [| [b' |] rest IH]; simpl.
  - reflexivity.
  - rewrite IH. split; intros [E | H]; auto; left; congruence.
  - rewrite IH. split; [auto | intros [E | H]; [discriminate | exact H]].
Qed.

Lemma countdown_dated (p : ethers.BrowserProvider) n :
  dated_in_order p ->
  forall from answers,
    map (ethers.getBlock p) (countdown from n) = map Normal answers ->
    StronglySorted Z.gt
      (map (fun b => (ethers.timestamp b * 1000)%Z) (retrieved answers)).
Proof.
  intros Hdated. induction n as [| n IH]; intros from answers E.
  - apply map_Normal_nil in E. subst answers. constructor.
  - cbn [countdown map] in E. apply map_Normal_cons in E.
    destruct E as (a & rest & -> & Ea & Erest).
    destruct a as [b |]; cbn [retrieved map]; [| exact (IH _ _ Erest)].
    constructor; [exact (IH _ _ Erest) |].
    apply Forall_forall. intros t Ht. apply in_map_iff in Ht.
    destruct Ht as (b' & <- & Hb'). apply retrieved_In in Hb'.
    destruct (answers_of_countdown p n _ _ _ Erest Hb') as (m & Hm & Em).
    assert (Hlt : (ethers.timestamp b' < ethers.timestamp b)%Z)
      by (apply (Hdated m from); [lia | exact Em | exact Ea]).
    lia.
Qed.

(** X5.  When the accessor dates a block of a higher number later and the
    reads are answered, the window [initialize] stores is in order, the
    most recent sample first: its timestamps descend strictly. *)
Theorem window_most_recent_first h p rt head answers :
  ethers.getBlockNumber p = Normal head ->
  map (ethers.getBlock p) (countdown head 100) = map Normal answers ->
  dated_in_order p ->
  StronglySorted Z.gt
    (map timestamp (historicalData (this (snd (initialize h p rt))))).
Proof.
  intros E0 Ea Hdated. rewrite (initialize_answered _ _ _ _ _ E0 Ea).
  cbn [snd this historicalData]. rewrite samples_timestamps.
  exact (countdown_dated p 100 Hdated head answers Ea).
Qed.

Lemma chain_dated_in_order : dated_in_order chain.
Proof.
  intros n m b b' Hnm En Em. cbn [chain ethers.getBlock] in En, Em.
  unfold chain_answer in En, Em.
  destruct (n mod 4 =? 0)%Z; [discriminate |].
  destruct (m mod 4 =? 0)%Z; [discriminate |].
  apply (f_equal (fun o => match o with
                           | Normal (Some x) => ethers.timestamp x
                           | _ => 0%Z
                           end)) in En, Em.
  cbn [ethers.timestamp] in En, Em. lia.
Qed.

Lemma window_most_recent_first_witness :
  dated_in_order chain
  /\ StronglySorted Z.gt
       (map timestamp (historicalData (this (snd (initialize utc chain boot))))).
Proof.
  split; [exact chain_dated_in_order |].
  exact (window_most_recent_first utc chain boot 1000
           (map chain_answer (countdown 1000 100))
           eq_refl eq_refl chain_dated_in_order).
Defined.

(** ** Refreshing *)

(** X7.  An [initialize] whose reads are answered replaces the window: the
    times and prices it stores are those of the blocks it retrieved,
    whatever the window was before; a second [initialize] on the same
    answers stores the same times and prices again, nothing being kept or
    merged. *)
Theorem refresh_replaces_window h p rt rt' head answers :
  ethers.getBlockNumber p = Normal head ->
  map (ethers.getBlock p) (countdown head 100) = map Normal answers ->
  map observed (historicalData (this (snd (initialize h p rt))))
  = map observed (historicalData (this (snd (initialize h p rt'))))
  /\ map observed
       (historicalData (this (snd (initialize h p (snd (initialize h p rt))))))
     = map observed (historicalData (this (snd (initialize h p rt))))
  /\ List.length
       (historicalData (this (snd (initialize h p (snd (initialize h p rt))))))
     = List.length (retrieved answers).
Proof.
  intros E0 Ea.
  rewrite !(initialize_answered _ _ _ _ _ E0 Ea).
  cbn [snd this historicalData draws].
  rewrite !samples_observed, samples_length. auto.
Qed.

Lemma refresh_replaces_window_witness :
  map observed
    (historicalData (this (snd (initialize utc chain (running chain [evening])))))
  = map observed (historicalData (this (snd (initialize utc chain boot)))).
Proof.
  apply (refresh_replaces_window utc chain (running chain [evening]) boot 1000
           (map chain_answer (countdown 1000 100)) eq_refl eq_refl).
Defined.

(** X8.  [initialize] stores the provider before it fetches.  When a read
    of the refresh throws, the sampler is left with the new provider and
    the old window: the next recommendation takes its live price from the
    new provider and everything else from the window of before. *)
Theorem stale_window_new_provider h p rt e fee :
  thrown_during_initialize p e ->
  historicalData (this rt) <> [] ->
  ethers.getFeeData p = Normal fee ->
  provider (this (snd (initialize h p rt))) = Some p
  /\ fst (getGasRecommendation h (snd (initialize h p rt)))
     = Normal (recommend h (historicalData (this rt)) fee).
Proof.
  intros Hthrown Hw Hfee.
  assert (E : this (snd (initialize h p rt))
              = {| historicalData := historicalData (this rt);
                   provider := Some p |}).
  { destruct Hthrown as [E | (head & k & answers & E0 & Hk & Ea & Ek)].
    - now rewrite (initialize_head_thrown _ _ _ _ E).
    - now rewrite (initialize_block_thrown _ _ _ _ _ _ _ E0 Hk Ea Ek). }
  split; [now rewrite E |].
  rewrite (getGasRecommendation_returns h _ p fee).
  - now rewrite E.
  - now rewrite E.
  - now rewrite E.
  - exact Hfee.
Qed.

Lemma stale_window_new_provider_witness :
  thrown_during_initialize glitchy network_error
  /\ fst (getGasRecommendation utc
            (snd (initialize utc glitchy (running chain [at_hour 5 0 6]))))
     = Normal (recommend utc [at_hour 5 0 6]
                 {| ethers.gasPrice := Some 20000000000%Z |}).
Proof.
  assert (T : thrown_during_initialize glitchy network_error).
  { right. exists 1000%Z, 5%nat, (map chain_answer (countdown 1000 5)).
    repeat split. lia. }
  split; [exact T |].
  apply (stale_window_new_provider utc glitchy (running chain [at_hour 5 0 6])
           network_error {| ethers.gasPrice := Some 20000000000%Z |} T);
    [discriminate | reflexivity].
Defined.

(** * The page *)

(** ** [updateGasData] *)

Lemma getGasRecommendation_inv h rt r rt' :
  getGasRecommendation h rt = (Normal r, rt') ->
  historicalData (this rt) <> []
  /\ (exists fee, r = recommend h (historicalData (this rt)) fee)
  /\ this rt' = this rt
  /\ console rt' = console rt
  /\ draws rt' = draws rt
  /\ reads rt' = reads rt ++ [ReadFeeData].
Proof.
  unfold getGasRecommendation, bind, get_this, throw.
  destruct (provider (this rt)) as [p |]; [| discriminate].
  destruct (historicalData (this rt)) as [| d w]; [discriminate |].
  unfold provider_getFeeData, issue, ret.
  destruct (ethers.getFeeData p) as [fee | e]; [| discriminate].
  intros E. injection E as <- <-. cbn [this console draws reads].
  split; [discriminate |]. split; [now exists fee |]. auto.
Qed.

Lemma getGasRecommendation_thrown_inv h rt e rt' :
  getGasRecommendation h rt = (Throw e, rt') ->
  this rt' = this rt
  /\ console rt' = console rt
  /\ draws rt' = draws rt
  /\ (reads rt' = reads rt \/ reads rt' = reads rt ++ [ReadFeeData]).
Proof.
  unfold getGasRecommendation, bind, get_this, throw.
  destruct (provider (this rt)) as [p |].
  - destruct (historicalData (this rt)) as [| d w].
    + intros E. injection E as _ <-. auto.
    + unfold provider_getFeeData, issue, ret.
      destruct (ethers.getFeeData p) as [fee | e']; [discriminate |].
      intros E. injection E as _ <-. cbn [this console draws reads]. auto.
  - intros E. injection E as _ <-. auto.
Qed.

(** The two ways an [updateGasData] can go. *)
Lemma updateGasData_run h pg :
  (exists r rt',
      getGasRecommendation h (runtime pg) = (Normal r, rt')
      /\ updateGasData h pg =
           (Normal tt,
            {| runtime := rt';
               gasData := historicalData (this (runtime pg));
               gasRecommendation := Some r;
               isLoading := false;
               intervals := intervals pg |}))
  \/ (exists e rt',
        getGasRecommendation h (runtime pg) = (Throw e, rt')
        /\ updateGasData h pg =
             (Normal tt,
              {| runtime := {| this := this rt';
                               console := console rt' ++ [(update_log, e)];
                               reads := reads rt';
                               draws := draws rt' |};
                 gasData := gasData pg;
                 gasRecommendation := gasRecommendation pg;
                 isLoading := false;
                 intervals := intervals pg |})).
Proof.
  unfold updateGasData, SE.try_finally, SE.try_catch, SE.bind.
  unfold optimizer, SE.zoom, getHistoricalData, bind, get_this, ret.
  cbn [with_runtime runtime gasData gasRecommendation isLoading intervals].
  destruct pg as [rt data rec loading timers].
  cbn [with_runtime runtime gasData gasRecommendation isLoading intervals].
  destruct (getGasRecommendation h rt) as [[r | e] rt'] eqn:E.
  - left. exists r, rt'. split; reflexivity.
  - right. exists e, rt'. split; reflexivity.
Qed.

Lemma updateGasData_settles h pg :
  fst (updateGasData h pg) = Normal tt
  /\ isLoading (snd (updateGasData h pg)) = false
  /\ intervals (snd (updateGasData h pg)) = intervals pg.
Proof.
  destruct (updateGasData_run h pg)
    as [(r & rt' & E & ->) | (e & rt' & E & ->)]; repeat split.
Qed.

(** X9.  [updateGasData] never throws and always ends with [isLoading]
    off.  It sets the chart data and the recommendation together or not at
    all: either both are set, the data to the window of the sampler and the
    recommendation to one computed from that same window, and nothing is
    logged; or both stay as they were and the error is logged once, which
    is what happens when the sampler has no window or the live read
    fails. *)
Theorem update_is_all_or_nothing h pg :
  fst (updateGasData h pg) = Normal tt
  /\ isLoading (snd (updateGasData h pg)) = false
  /\ intervals (snd (updateGasData h pg)) = intervals pg
  /\ ((exists fee,
          gasData (snd (updateGasData h pg))
          = historicalData (this (runtime pg))
          /\ gasData (snd (updateGasData h pg)) <> []
          /\ gasRecommendation (snd (updateGasData h pg))
             = Some (recommend h (historicalData (this (runtime pg))) fee)
          /\ console (runtime (snd (updateGasData h pg)))
             = console (runtime pg))
      \/ (exists e,
            fst (getGasRecommendation h (runtime pg)) = Throw e
            /\ gasData (snd (updateGasData h pg)) = gasData pg
            /\ gasRecommendation (snd (updateGasData h pg))
               = gasRecommendation pg
            /\ console (runtime (snd (updateGasData h pg)))
               = console (runtime pg) ++ [(update_log, e)])).
Proof.
  destruct (updateGasData_run h pg)
    as [(r & rt' & E & ->) | (e & rt' & E & ->)];
    cbn [fst snd runtime gasData gasRecommendation isLoading intervals console].
  - repeat split. left.
    destruct (getGasRecommendation_inv _ _ _ _ E)
      as (Hw & (fee & ->) & _ & Hc & _).
    exists fee. auto.
  - repeat split. right. exists e. rewrite E.
    destruct (getGasRecommendation_thrown_inv _ _ _ _ E) as (_ & Hc & _).
    rewrite Hc. auto.
Qed.

(** ** Mounting *)

Lemma optimizer_initialize h p pg :
  optimizer (initialize h p) pg
  = (Normal tt, with_runtime (snd (initialize h p (runtime pg))) pg).
Proof.
  unfold optimizer, SE.zoom.
  pose proof (initialize_normal h p (runtime pg)) as Hn.
  destruct (initialize h p (runtime pg)) as [c rt']. cbn [fst] in Hn.
  now subst c.
Qed.

(** What mounting does when the provider can be built. *)
Lemma initializeGasOptimizer_provider h p pg :
  initializeGasOptimizer h (Some (Normal p)) pg
  = (Normal (Some (List.length (intervals pg))),
     {| runtime :=
          runtime (snd (updateGasData h
                          (with_runtime (snd (initialize h p (runtime pg))) pg)));
        gasData :=
          gasData (snd (updateGasData h
                          (with_runtime (snd (initialize h p (runtime pg))) pg)));
        gasRecommendation :=
          gasRecommendation
            (snd (updateGasData h
                    (with_runtime (snd (initialize h p (runtime pg))) pg)));
        isLoading := false;
        intervals := intervals pg ++ [30000%Z] |}).
Proof.
  unfold initializeGasOptimizer, SE.try_catch.
  unfold SE.bind at 1. unfold SE.settle.
  unfold SE.bind at 1. rewrite optimizer_initialize.
  set (pg1 := with_runtime (snd (initialize h p (runtime pg))) pg).
  unfold SE.bind at 1.
  destruct (updateGasData_settles h pg1) as (Hn & Hl & Hi).
  destruct (updateGasData h pg1) as [c pg2]. cbn [fst snd] in *. subst c.
  unfold SE.bind, setInterval_updateGasData, SE.ret.
  rewrite Hl, Hi. reflexivity.
Qed.

Lemma initialize_console h p rt :
  console (snd (initialize h p rt)) = console rt
  \/ exists e, console (snd (initialize h p rt)) = console rt ++ [(gas_log, e)].
Proof.
  destruct (initialize_cases p)
    as [e E | head answers E0 E | head answers k e E0 Hk E Ek].
  - right. exists e. now rewrite (initialize_head_thrown _ _ _ _ E).
  - left. now rewrite (initialize_answered _ _ _ _ _ E0 E).
  - right. exists e.
    now rewrite (initialize_block_thrown _ _ _ _ _ _ _ E0 Hk E Ek).
Qed.

Lemma updateGasData_console h pg :
  console (runtime (snd (updateGasData h pg))) = console (runtime pg)
  \/ exists e,
       console (runtime (snd (updateGasData h pg)))
       = console (runtime pg) ++ [(update_log, e)].
Proof.
  destruct (updateGasData_run h pg)
    as [(r & rt' & E & ->) | (e & rt' & E & ->)]; cbn [snd runtime console].
  - left. now destruct (getGasRecommendation_inv _ _ _ _ E) as (_ & _ & _ & Hc & _).
  - right. exists e.
    destruct (getGasRecommendation_thrown_inv _ _ _ _ E) as (_ & Hc & _).
    now rewrite Hc.
Qed.

(** X10.  [initializeGasOptimizer] never throws.  Without
    [window.ethereum] it changes nothing, [isLoading] staying on.  When the
    provider cannot be built it logs the error under [initialize_log] and
    turns [isLoading] off, and sets no timer.  When the provider is built,
    then whatever its reads do, one timer of 30000 ms is set, [isLoading]
    ends off, and at most two errors are logged, both under [update_log],
    none under [initialize_log]: no failure of the accessor reaches the
    handler of [initializeGasOptimizer]. *)
Theorem mount_outcomes h pg :
  initializeGasOptimizer h None pg = (Normal None, pg)
  /\ (forall e,
        fst (initializeGasOptimizer h (Some (Throw e)) pg) = Normal None
        /\ intervals (mounted h (Some (Throw e)) pg) = intervals pg
        /\ isLoading (mounted h (Some (Throw e)) pg) = false
        /\ console (runtime (mounted h (Some (Throw e)) pg))
           = console (runtime pg) ++ [(initialize_log, e)])
  /\ (forall p,
        fst (initializeGasOptimizer h (Some (Normal p)) pg)
        = Normal (Some (List.length (intervals pg)))
        /\ intervals (mounted h (Some (Normal p)) pg)
           = intervals pg ++ [30000%Z]
        /\ isLoading (mounted h (Some (Normal p)) pg) = false
        /\ provider (this (runtime (mounted h (Some (Normal p)) pg))) = Some p
        /\ exists logged,
             console (runtime (mounted h (Some (Normal p)) pg))
             = console (runtime pg) ++ logged
             /\ (List.length logged <= 2)%nat
             /\ Forall (fun entry => fst entry = update_log) logged).
Proof.
  split; [reflexivity |]. split.
  - intros e. unfold mounted. repeat split.
  - intros p. unfold mounted. rewrite initializeGasOptimizer_provider.
    cbn [fst snd intervals isLoading runtime].
    split; [reflexivity |]. split; [reflexivity |]. split; [reflexivity |].
    set (pg1 := with_runtime (snd (initialize h p (runtime pg))) pg).
    split.
    + destruct (updateGasData_run h pg1)
        as [(r & rt' & E & ->) | (e & rt' & E & ->)]; cbn [snd runtime this].
      * destruct (getGasRecommendation_inv _ _ _ _ E) as (_ & _ & -> & _).
        cbn [pg1 with_runtime runtime].
        destruct (initialize_cases p)
          as [e E1 | head answers E0 E1 | head answers k e E0 Hk E1 Ek].
        -- now rewrite (initialize_head_thrown _ _ _ _ E1).
        -- now rewrite (initialize_answered _ _ _ _ _ E0 E1).
        -- now rewrite (initialize_block_thrown _ _ _ _ _ _ _ E0 Hk E1 Ek).
      * destruct (getGasRecommendation_thrown_inv _ _ _ _ E) as (-> & _).
        cbn [pg1 with_runtime runtime].
        destruct (initialize_cases p)
          as [e' E1 | head answers E0 E1 | head answers k e' E0 Hk E1 Ek].
        -- now rewrite (initialize_head_thrown _ _ _ _ E1).
        -- now rewrite (initialize_answered _ _ _ _ _ E0 E1).
        -- now rewrite (initialize_block_thrown _ _ _ _ _ _ _ E0 Hk E1 Ek).
    + assert (H1 : console (runtime pg1) = console (runtime pg)
                   \/ exists e, console (runtime pg1)
                                = console (runtime pg) ++ [(gas_log, e)])
        by apply initialize_console.
      destruct (updateGasData_console h pg1) as [-> | (e2 & ->)];
        destruct H1 as [-> | (e1 & ->)].
      * exists []. rewrite app_nil_r. repeat split; [cbn; lia | constructor].
      * exists [(gas_log, e1)]. repeat split; [cbn; lia |].
        repeat constructor.
      * exists [(update_log, e2)]. repeat split; [cbn; lia |].
        repeat constructor.
      * exists [(gas_log, e1); (update_log, e2)]. rewrite <- app_assoc.
        repeat split; [cbn; lia |]. repeat constructor.
Qed.

(** ** What the page shows *)

Lemma updateGasData_coupled h pg :
  coupled h pg -> coupled h (snd (updateGasData h pg)).
Proof.
  intros Hc. unfold coupled.
  destruct (updateGasData_run h pg)
    as [(r & rt' & E & ->) | (e & rt' & E & ->)];
    cbn [snd gasData gasRecommendation].
  - destruct (getGasRecommendation_inv _ _ _ _ E) as (Hw & Hfee & _). auto.
  - exact Hc.
Qed.

Lemma panels_of_coupled h pg :
  coupled h pg ->
  (recommendation_panel pg = Content <-> chart_panel pg = Content).
Proof.
  unfold coupled, recommendation_panel, chart_panel.
  destruct (isLoading pg); [split; discriminate |].
  destruct (gasRecommendation pg) as [r |].
  - intros [Hne _]. destruct (gasData pg); [easy | split; reflexivity].
  - intros ->. split; discriminate.
Qed.

(** X11.  On every page the component can be in, the recommendation shown
    was computed from the very chart data shown, and there is chart data
    exactly when there is a recommendation: the two panels have content
    together or not at all. *)
Theorem chart_and_recommendation_together h pg :
  displayed h pg ->
  coupled h pg
  /\ (recommendation_panel pg = Content <-> chart_panel pg = Content).
Proof.
  intros Hd.
  assert (Hc : coupled h pg).
  { induction Hd as [rt ethereum | pg _ IH _].
    - unfold mounted. destruct ethereum as [[p | e] |].
      + rewrite initializeGasOptimizer_provider.
        pose proof (updateGasData_coupled h
                      (with_runtime (snd (initialize h p rt)) (fresh_page rt))
                      eq_refl) as Hc.
        exact Hc.
      + reflexivity.
      + reflexivity.
    - now apply updateGasData_coupled. }
  split; [exact Hc | now apply (panels_of_coupled h)].
Qed.

Lemma chart_and_recommendation_together_witness :
  displayed utc (mounted utc (Some (Normal chain)) (fresh_page boot))
  /\ coupled utc (mounted utc (Some (Normal chain)) (fresh_page boot)).
Proof.
  assert (Hd : displayed utc (mounted utc (Some (Normal chain)) (fresh_page boot)))
    by constructor.
  split; [exact Hd |].
  exact (proj1 (chart_and_recommendation_together utc _ Hd)).
Defined.

(** ** The timer *)

Lemma updateGasData_sampler h pg :
  this (runtime (snd (updateGasData h pg))) = this (runtime pg)
  /\ attempts (reads (runtime (snd (updateGasData h pg))))
     = attempts (reads (runtime pg))
  /\ (List.length (reads (runtime (snd (updateGasData h pg))))
      <= S (List.length (reads (runtime pg))))%nat
  /\ draws (runtime (snd (updateGasData h pg))) = draws (runtime pg).
Proof.
  destruct (updateGasData_run h pg)
    as [(r & rt' & E & ->) | (e & rt' & E & ->)];
    cbn [snd runtime this reads draws].
  - destruct (getGasRecommendation_inv _ _ _ _ E)
      as (_ & _ & -> & _ & -> & ->).
    rewrite attempts_app, length_app. cbn. rewrite app_nil_r.
    repeat split. lia.
  - destruct (getGasRecommendation_thrown_inv _ _ _ _ E)
      as (-> & _ & -> & [-> | ->]).
    + repeat split. lia.
    + rewrite attempts_app, length_app. cbn. rewrite app_nil_r.
      repeat split. lia.
Qed.

Lemma getGasRecommendation_reads h rt :
  reads (snd (getGasRecommendation h rt))
  = reads rt ++ live_reads (this rt) 1.
Proof.
  unfold getGasRecommendation, live_reads, bind, get_this, throw.
  destruct (provider (this rt)) as [p |];
    [| cbn [snd]; now rewrite app_nil_r].
  destruct (historicalData (this rt)) as [| d w];
    [cbn [snd]; now rewrite app_nil_r |].
  unfold provider_getFeeData, issue, ret.
  destruct (ethers.getFeeData p); reflexivity.
Qed.

Lemma updateGasData_reads h pg :
  reads (runtime (snd (updateGasData h pg)))
  = reads (runtime pg) ++ live_reads (this (runtime pg)) 1.
Proof.
  pose proof (getGasRecommendation_reads h (runtime pg)) as H.
  destruct (updateGasData_run h pg)
    as [(r & rt' & E & ->) | (e & rt' & E & ->)];
    rewrite E in H; exact H.
Qed.

Lemma live_reads_succ o n :
  live_reads o 1 ++ live_reads o n = live_reads o (S n).
Proof.
  unfold live_reads. destruct (provider o); [| reflexivity].
  destruct (historicalData o); reflexivity.
Qed.

(** X12.  The timer does not refresh the window.  However many times it
    fires, the sampler keeps the window and the provider it had.  The reads
    issued by [n] updates are live fee reads and nothing else, no head read
    and no block read: one per update when the sampler has a provider and a
    window that is not empty, none at all otherwise.  Nothing is drawn, and
    the chart data stay what they were or become that same window. *)
Theorem timer_never_refreshes h n : forall pg,
  this (runtime (ticks h n pg)) = this (runtime pg)
  /\ reads (runtime (ticks h n pg))
     = reads (runtime pg) ++ live_reads (this (runtime pg)) n
  /\ Forall (fun r => r = ReadFeeData) (live_reads (this (runtime pg)) n)
  /\ attempts (reads (runtime (ticks h n pg))) = attempts (reads (runtime pg))
  /\ (List.length (reads (runtime (ticks h n pg)))
      <= List.length (reads (runtime pg)) + n)%nat
  /\ draws (runtime (ticks h n pg)) = draws (runtime pg)
  /\ isLoading (ticks h n pg)
     = match n with O => isLoading pg | S _ => false end
  /\ (gasData (ticks h n pg) = gasData pg
      \/ gasData (ticks h n pg) = historicalData (this (runtime pg))).
Proof.
  assert (Hfee : forall o k,
             Forall (fun r => r = ReadFeeData) (live_reads o k)).
  { intros o k. apply Forall_forall. intros r. unfold live_reads.
    destruct (provider o); [| intros []].
    destruct (historicalData o); [intros [] |]. apply repeat_spec. }
  induction n as [| n IH]; intros pg.
  - cbn [ticks]. split; [reflexivity |]. split.
    { unfold live_reads. destruct (provider (this (runtime pg)));
        [destruct (historicalData (this (runtime pg))) |];
        cbn [repeat]; now rewrite app_nil_r. }
    split; [apply Hfee |]. repeat split; auto. lia.
  - cbn [ticks].
    destruct (IH (snd (updateGasData h pg)))
      as (Ht & Hr & _ & Ha & Hl & Hd & Hload & Hdata).
    destruct (updateGasData_sampler h pg) as (Ht' & Ha' & Hl' & Hd').
    destruct (updateGasData_settles h pg) as (_ & Hload' & _).
    rewrite Ht' in Hr. rewrite Ht, Ha, Hd, Ht', Ha', Hd'.
    split; [reflexivity |]. split.
    { now rewrite Hr, updateGasData_reads, <- app_assoc, live_reads_succ. }
    split; [apply Hfee |].
    split; [reflexivity |]. split; [lia |].
    split; [reflexivity |]. split.
    + rewrite Hload. now destruct n.
    + rewrite Ht' in Hdata. destruct Hdata as [-> | ->]; [| now right].
      destruct (updateGasData_run h pg)
        as [(r & rt' & E & ->) | (e & rt' & E & ->)]; cbn [snd gasData]; auto.
Qed.

(** * The OpenServ client *)

(** ** [fetchFromOpenServ] *)

Lemma fetchFromOpenServ_run b agent endpoint data w :
  fetchFromOpenServ b agent endpoint data w =
    (outcome (fetch b (request agent endpoint data (randomUUID b (uuids w)))),
     {| web_console :=
          web_console w
          ++ logged "OpenServ API Error:"
               (outcome (fetch b (request agent endpoint data
                                    (randomUUID b (uuids w)))));
        sent := sent w ++ [request agent endpoint data (randomUUID b (uuids w))];
        uuids := S (uuids w);
        clock_reads := clock_reads w |}).
Proof.
  unfold fetchFromOpenServ, SE.try_catch, SE.bind, crypto_randomUUID, send.
  cbn [uuids sent web_console clock_reads].
  unfold outcome.
  destruct (fetch b (request agent endpoint data (randomUUID b (uuids w))))
    as [response | e].
  - destruct (ok response); cbn [negb].
    + unfold SE.settle. destruct (json response) as [v | e]; cbn [logged].
      * now rewrite app_nil_r.
      * reflexivity.
    + reflexivity.
  - reflexivity.
Qed.

(** X13.  [fetchFromOpenServ] sends exactly one request: a POST to the
    address of the agent followed by [endpoint], that carries the data and
    the key as bearer.  A rejected [fetch] is rethrown as it is; a response
    that is not [ok] becomes the error "OpenServ API error: " followed by
    its status text, whatever its body; the body of an [ok] response is
    what is returned.  Every failure is logged exactly once, under
    "OpenServ API Error:", with the very error that is thrown; a success
    logs nothing. *)
Theorem fetch_outcomes b agent endpoint data w :
  let r := request agent endpoint data (randomUUID b (uuids w)) in
  sent (snd (fetchFromOpenServ b agent endpoint data w)) = sent w ++ [r]
  /\ url r = (apiUrl agent ++ endpoint)%string
  /\ method r = "POST"%string
  /\ body r = data
  /\ In ("Authorization", "Bearer " ++ text (apiKey agent))%string (headers r)
  /\ (forall e, fetch b r = Throw e ->
        fst (fetchFromOpenServ b agent endpoint data w) = Throw e)
  /\ (forall response, fetch b r = Normal response -> ok response = false ->
        fst (fetchFromOpenServ b agent endpoint data w)
        = Throw (api_error (statusText response)))
  /\ (forall response, fetch b r = Normal response -> ok response = true ->
        fst (fetchFromOpenServ b agent endpoint data w) = json response)
  /\ (forall e, fst (fetchFromOpenServ b agent endpoint data w) = Throw e ->
        web_console (snd (fetchFromOpenServ b agent endpoint data w))
        = web_console w ++ [("OpenServ API Error:"%string, e)])
  /\ (forall v, fst (fetchFromOpenServ b agent endpoint data w) = Normal v ->
        web_console (snd (fetchFromOpenServ b agent endpoint data w))
        = web_console w).
Proof.
  intros r. rewrite fetchFromOpenServ_run. fold r.
  cbn [fst snd sent web_console].
  split; [reflexivity |]. split; [reflexivity |]. split; [reflexivity |].
  split; [reflexivity |]. split; [right; left; reflexivity |].
  split; [now intros e -> |].
  split; [intros response -> Hok; unfold outcome; now rewrite Hok |].
  split; [intros response -> Hok; unfold outcome; now rewrite Hok |].
  split.
  - intros e ->. reflexivity.
  - intros v ->. cbn [logged]. now rewrite app_nil_r.
Qed.

Lemma fetch_outcomes_witness :
  fetch bad_gateway
    (request agent0 "/initialize" JNull (randomUUID bad_gateway 0))
  = Normal {| ok := false; statusText := "Bad Gateway"; json := Normal JNull |}
  /\ fst (fetchFromOpenServ bad_gateway agent0 "/initialize" JNull offline_web)
     = Throw {| message := "OpenServ API error: Bad Gateway" |}.
Proof.
  split; [reflexivity |].
  destruct (fetch_outcomes bad_gateway agent0 "/initialize" JNull offline_web)
    as (_ & _ & _ & _ & _ & _ & Hnotok & _).
  exact (Hnotok _ eq_refl eq_refl).
Defined.

(** ** The calls that relay one request *)

Lemma wrapped_run {A} (body : SE.t Web A) label w :
  SE.try_catch body (fun error => web_error label error ;;- raise error) w
  = (fst (body w),
     advanced (logged label (fst (body w))) [] 0 0 (snd (body w))).
Proof.
  unfold SE.try_catch, SE.bind, web_error, raise, advanced.
  destruct (body w) as [[a | e] w']; cbn [fst snd logged];
    destruct w'; cbn; now rewrite ?app_nil_r, ?Nat.add_0_r.
Qed.

Lemma relays_wrapped {A} b agent endpoint data label (k : value -> A) :
  relays b
    (SE.try_catch
       (v <-- fetchFromOpenServ b agent endpoint data ;; SE.ret (k v))
       (fun error => web_error label error ;;- raise error))
    label
    (fun w => request agent endpoint data (randomUUID b (uuids w))).
Proof.
  intros w. rewrite wrapped_run. unfold SE.bind.
  rewrite fetchFromOpenServ_run. unfold advanced, SE.ret.
  destruct (outcome (fetch b (request agent endpoint data
                                (randomUUID b (uuids w))))) as [v | e];
    cbn [fst snd sent web_console logged]; rewrite ?app_nil_r.
  - split; [reflexivity |]. split; [split; discriminate |].
    split; [discriminate | reflexivity].
  - split; [reflexivity |]. split; [split; congruence |].
    split; [| discriminate]. intros e' E. injection E as <-.
    now rewrite <- app_assoc.
Qed.

Lemma relays_ext {A} b (op op' : SE.t Web A) label r :
  (forall w, op w = op' w) -> relays b op label r -> relays b op' label r.
Proof. intros E H w. rewrite <- E. apply H. Qed.

Lemma bind_ret {S A} (m : SE.t S A) s :
  (v <-- m ;; SE.ret v) s = m s.
Proof. unfold SE.bind, SE.ret. now destruct (m s) as [[a | e] s']. Qed.

(** X14.  [initialize], [getProtocolHealth] and [simulateStrategy] each
    relay one request, to [/initialize], [/protocol/health] and
    [/strategy/simulate]: the call fails exactly when the request does and
    throws the same error, which is then on the console twice, under
    "OpenServ API Error:" and under the label of the call; nothing is
    retried, and a success logs nothing. *)
Theorem calls_relay_one_request b agent strategy :
  relays b (agent_initialize b agent)
    "Failed to initialize OpenServ agent:"
    (fun w => request agent "/initialize" initialize_body
                (randomUUID b (uuids w)))
  /\ relays b (agent_getProtocolHealth b agent)
       "Protocol health check failed:"
       (fun w => request agent "/protocol/health" health_body
                   (randomUUID b (uuids w)))
  /\ relays b (simulateStrategy b agent strategy)
       "Strategy simulation failed:"
       (fun w => request agent "/strategy/simulate" (simulate_body strategy)
                   (randomUUID b (uuids w))).
Proof.
  split; [| split].
  - exact (relays_wrapped b agent "/initialize" initialize_body
             "Failed to initialize OpenServ agent:" (fun _ => tt)).
  - eapply relays_ext;
      [| exact (relays_wrapped b agent "/protocol/health" health_body
                  "Protocol health check failed:" (fun v => v))].
    intros w. unfold agent_getProtocolHealth, SE.try_catch.
    now rewrite bind_ret.
  - eapply relays_ext;
      [| exact (relays_wrapped b agent "/strategy/simulate"
                  (simulate_body strategy)
                  "Strategy simulation failed:" (fun v => v))].
    intros w. unfold simulateStrategy, SE.try_catch.
    now rewrite bind_ret.
Qed.

(** ** [analyzeMarket] *)

Lemma get_field js v key :
  readable v = true -> get js v key = Normal (field v key).
Proof. now destruct v. Qed.

Lemma get_unreadable js v key :
  readable v = false -> get js v key = Throw (TypeError_reading js v key).
Proof. now destruct v. Qed.

(** What the reads of [analyzeMarket] come to. *)
Lemma market_of_first_unreadable js analysis :
  market_of js analysis =
    match first_unreadable analysis with
    | None => Normal (market_view analysis)
    | Some (v, key) => Throw (TypeError_reading js v key)
    end.
Proof.
  unfold first_unreadable, market_of.
  destruct (readable analysis) eqn:Ha; cbn [negb].
  2:{ now rewrite (get_unreadable js _ "trend" Ha). }
  rewrite !(get_field js analysis) by exact Ha.
  destruct (readable (field analysis "trend")) eqn:Ht; cbn [negb].
  2:{ now rewrite (get_unreadable js _ "direction" Ht). }
  rewrite !(get_field js (field analysis "trend")) by exact Ht.
  destruct (readable (field analysis "network")) eqn:Hn; cbn [negb].
  2:{ now rewrite (get_unreadable js _ "gasFees" Hn). }
  rewrite !(get_field js (field analysis "network")) by exact Hn.
  destruct (readable (field analysis "market")) eqn:Hm; cbn [negb].
  2:{ now rewrite (get_unreadable js _ "liquidity" Hm). }
  rewrite !(get_field js (field analysis "market")) by exact Hm.
  reflexivity.
Qed.

Lemma first_unreadable_well_shaped analysis :
  first_unreadable analysis = None <-> well_shaped analysis = true.
Proof.
  unfold first_unreadable, well_shaped.
  destruct (readable analysis); cbn [negb andb]; [| split; discriminate].
  destruct (readable (field analysis "trend")); cbn [negb andb];
    [| split; discriminate].
  destruct (readable (field analysis "network")); cbn [negb andb];
    [| split; discriminate].
  destruct (readable (field analysis "market")); cbn [negb andb];
    split; try discriminate; reflexivity.
Qed.

Lemma first_unreadable_nullish analysis v key :
  first_unreadable analysis = Some (v, key) -> readable v = false.
Proof.
  unfold first_unreadable.
  destruct (readable analysis) eqn:Ha; cbn [negb].
  2:{ intros E. injection E as <- _. exact Ha. }
  destruct (readable (field analysis "trend")) eqn:Ht; cbn [negb].
  2:{ intros E. injection E as <- _. exact Ht. }
  destruct (readable (field analysis "network")) eqn:Hn; cbn [negb].
  2:{ intros E. injection E as <- _. exact Hn. }
  destruct (readable (field analysis "market")) eqn:Hm; cbn [negb].
  2:{ intros E. injection E as <- _. exact Hm. }
  discriminate.
Qed.

Lemma analyzeMarket_run js b agent w :
  let r := market_request b agent w in
  let c := match outcome (fetch b r) with
           | Normal analysis => market_of js analysis
           | Throw e => Throw e
           end in
  analyzeMarket js b agent w =
    (c, advanced (logged "OpenServ API Error:" (outcome (fetch b r))
                  ++ logged "Market analysis failed:" c) [r] 1 1 w).
Proof.
  intros r c. unfold analyzeMarket. rewrite wrapped_run.
  match goal with
  | |- (fst (?body w), _) = _ =>
      assert (E : body w
                  = (c, advanced (logged "OpenServ API Error:"
                                    (outcome (fetch b r))) [r] 1 1 w))
  end.
  { unfold SE.bind at 1. unfold now.
    unfold SE.bind. rewrite fetchFromOpenServ_run.
    cbn [uuids clock_reads web_console sent].
    fold (market_body (Date_now b (clock_reads w))).
    fold (market_request b agent w). fold r.
    unfold SE.settle, advanced. subst c.
    destruct (outcome (fetch b r)) as [analysis | e];
      cbn [logged]; rewrite ?Nat.add_1_r; reflexivity. }
  rewrite E. cbn [fst snd]. f_equal.
  unfold advanced. cbn [web_console sent uuids clock_reads].
  now rewrite ?app_nil_r, ?Nat.add_0_r, <- ?app_assoc.
Qed.

(** X15.  [analyzeMarket] reads the response without checking it.  When
    the request succeeds, the call succeeds exactly when the response and
    its parts [trend], [network] and [market] are neither [undefined] nor
    [null]; it then returns the view of the response, in which a part that
    the response does not have is [undefined], and logs nothing.  Otherwise
    it throws the [TypeError] of the first property it could not read, in
    the order of the source ([trend] of the response, then [direction] of
    its [trend], [gasFees] of its [network], [liquidity] of its [market]),
    and logs that error once, under "Market analysis failed:".  The error
    is the one the engine gives for that read. *)
Theorem market_analysis_shape js b agent w analysis :
  outcome (fetch b (market_request b agent w)) = Normal analysis ->
  (well_shaped analysis = true ->
     fst (analyzeMarket js b agent w) = Normal (market_view analysis)
     /\ web_console (snd (analyzeMarket js b agent w)) = web_console w)
  /\ (well_shaped analysis = false ->
      exists v key,
        first_unreadable analysis = Some (v, key)
        /\ readable v = false
        /\ fst (analyzeMarket js b agent w)
           = Throw (TypeError_reading js v key)
        /\ web_console (snd (analyzeMarket js b agent w))
           = web_console w
             ++ [("Market analysis failed:"%string,
                  TypeError_reading js v key)]).
Proof.
  intros Ho. rewrite analyzeMarket_run. cbv zeta. rewrite Ho.
  cbn [fst snd advanced web_console logged app].
  rewrite market_of_first_unreadable. split.
  - intros Hs. apply first_unreadable_well_shaped in Hs. rewrite Hs.
    cbn [logged]. now rewrite app_nil_r.
  - intros Hs. destruct (first_unreadable analysis) as [[v key] |] eqn:E.
    + exists v, key. split; [reflexivity |].
      split; [exact (first_unreadable_nullish _ _ _ E) |].
      split; reflexivity.
    + apply first_unreadable_well_shaped in E. congruence.
Qed.

Lemma market_analysis_shape_witness :
  well_shaped (JObject [("trend", JNull); ("network", JObject [])]%string)
  = false
  /\ fst (analyzeMarket V8
            {| fetch := fun _ =>
                 Normal {| ok := true; statusText := "OK";
                           json := Normal (JObject [("trend", JNull);
                                                    ("network", JObject [])]) |};
               randomUUID := randomUUID hollow;
               Date_now := Date_now hollow |}%string
            agent0 offline_web)
     = Throw {| message :=
                  "Cannot read properties of null (reading 'direction')" |}.
Proof.
  split; [reflexivity |].
  destruct (market_analysis_shape V8
              {| fetch := fun _ =>
                   Normal {| ok := true; statusText := "OK";
                             json := Normal (JObject [("trend", JNull);
                                                      ("network", JObject [])]) |};
                 randomUUID := randomUUID hollow;
                 Date_now := Date_now hollow |}%string
              agent0 offline_web
              (JObject [("trend", JNull); ("network", JObject [])]%string)
              eq_refl) as [_ Hill].
  destruct (Hill eq_refl) as (v & key & E & _ & Ht & _).
  injection E as <- <-. exact Ht.
Defined.

(** ** [optimizeYield] *)

Lemma sent_since_advanced entries requests ids readings w :
  sent_since w (advanced entries requests ids readings w) = requests.
Proof.
  unfold sent_since, advanced. cbn [sent].
  rewrite skipn_app, skipn_all, Nat.sub_diag. reflexivity.
Qed.

Lemma advanced_advanced e1 r1 i1 c1 e2 r2 i2 c2 w :
  advanced e2 r2 i2 c2 (advanced e1 r1 i1 c1 w)
  = advanced (e1 ++ e2) (r1 ++ r2) (i1 + i2) (c1 + c2) w.
Proof.
  unfold advanced. cbn [web_console sent uuids clock_reads].
  now rewrite <- !app_assoc, <- !Nat.add_assoc.
Qed.

Lemma agent_getProtocolHealth_run b agent w :
  let r := request agent "/protocol/health" health_body
             (randomUUID b (uuids w)) in
  agent_getProtocolHealth b agent w =
    (outcome (fetch b r),
     advanced (logged "OpenServ API Error:" (outcome (fetch b r))
               ++ logged "Protocol health check failed:" (outcome (fetch b r)))
              [r] 1 0 w).
Proof.
  intros r. unfold agent_getProtocolHealth. rewrite wrapped_run.
  rewrite fetchFromOpenServ_run. fold health_body. fold r.
  cbn [fst snd]. f_equal. unfold advanced.
  cbn [web_console sent uuids clock_reads].
  now rewrite ?app_nil_r, ?Nat.add_0_r, ?Nat.add_1_r, <- ?app_assoc.
Qed.

Lemma fetchFromOpenServ_advanced b agent endpoint data w :
  let r := request agent endpoint data (randomUUID b (uuids w)) in
  fetchFromOpenServ b agent endpoint data w =
    (outcome (fetch b r),
     advanced (logged "OpenServ API Error:" (outcome (fetch b r))) [r] 1 0 w).
Proof.
  intros r. rewrite fetchFromOpenServ_run. fold r. f_equal.
  unfold advanced. now rewrite Nat.add_0_r, Nat.add_1_r.
Qed.

(** An [analyzeMarket] that returns has sent its request, drawn one
    identifier, read the clock once and logged nothing. *)
Lemma analyzeMarket_returned js b agent w marketData :
  fst (analyzeMarket js b agent w) = Normal marketData ->
  snd (analyzeMarket js b agent w)
  = advanced [] [market_request b agent w] 1 1 w.
Proof.
  rewrite analyzeMarket_run. cbv zeta. cbn [fst snd].
  destruct (outcome (fetch b (market_request b agent w))) as [analysis | e];
    [| discriminate].
  intros ->. reflexivity.
Qed.

Lemma analyzeMarket_sent js b agent w :
  sent_since w (snd (analyzeMarket js b agent w)) = [market_request b agent w].
Proof.
  rewrite analyzeMarket_run. cbv zeta. cbn [snd].
  apply sent_since_advanced.
Qed.

(** The body of [optimizeYield], before its [catch], step by step. *)
Lemma optimizeYield_body js b agent balance preferences w :
  (marketData <-- analyzeMarket js b agent ;;
   protocolHealth <-- agent_getProtocolHealth b agent ;;
   result <-- fetchFromOpenServ b agent "/strategy/optimize"
                (optimize_body balance preferences
                   marketData protocolHealth) ;;
   SE.settle (get js result "strategy")) w
  = match analyzeMarket js b agent w with
    | (Throw e, w1) => (Throw e, w1)
    | (Normal marketData, _) =>
        let r1 := market_request b agent w in
        let r2 := health_request b agent w in
        match outcome (fetch b r2) with
        | Throw e =>
            (Throw e,
             advanced [("OpenServ API Error:", e);
                       ("Protocol health check failed:", e)]%string
               [r1; r2] 2 1 w)
        | Normal protocolHealth =>
            let r3 := optimize_request b agent w balance preferences
                        marketData protocolHealth in
            match outcome (fetch b r3) with
            | Throw e =>
                (Throw e,
                 advanced [("OpenServ API Error:"%string, e)]
                   [r1; r2; r3] 3 1 w)
            | Normal result =>
                (get js result "strategy", advanced [] [r1; r2; r3] 3 1 w)
            end
        end
    end.
Proof.
  unfold SE.bind at 1.
  pose proof (analyzeMarket_returned js b agent w) as H1.
  destruct (analyzeMarket js b agent w) as [[marketData | e1] w1];
    [| reflexivity].
  cbn [fst snd] in H1. rewrite (H1 marketData eq_refl). clear H1.
  unfold SE.bind at 1. rewrite agent_getProtocolHealth_run. cbv zeta.
  change (uuids (advanced [] [market_request b agent w] 1 1 w))
    with (uuids w + 1)%nat.
  fold (health_request b agent w).
  destruct (outcome (fetch b (health_request b agent w)))
    as [protocolHealth | e2]; cbn [logged app];
    [| now rewrite advanced_advanced].
  rewrite advanced_advanced.
  unfold SE.bind at 1. rewrite fetchFromOpenServ_advanced. cbv zeta.
  change (uuids (advanced ([] ++ [])
                   ([market_request b agent w] ++ [health_request b agent w])
                   (1 + 1) (1 + 0) w))
    with (uuids w + 2)%nat.
  fold (optimize_request b agent w balance preferences
          marketData protocolHealth).
  destruct (outcome (fetch b (optimize_request b agent w balance preferences
                               marketData protocolHealth)))
    as [result | e3]; cbn [logged]; rewrite advanced_advanced; reflexivity.
Qed.

(** X16.  [optimizeYield] posts to [/market/analyze], [/protocol/health]
    and [/strategy/optimize], in this order, with the next three
    identifiers, and stops at the first step that fails.
    - When [analyzeMarket] throws, that error is thrown, the market request
      is the only one sent, and the error is logged once more, under
      "Yield optimization failed:", after what [analyzeMarket] logged.
    - When the market view is returned and the health request fails, its
      error is thrown and only these two requests were sent.
    - When the health report is returned, the third request carries the
      balance, the preferences, the market view and the health report just
      fetched; when it fails its error is thrown.
    - When all three are answered, the value returned is the [strategy] of
      the last response, [undefined] when the response has none, and
      nothing is logged; a response that is [undefined] or [null] makes the
      call throw the engine's [TypeError] for that read.
    Whenever the call throws, the error is the last one logged, under
    "Yield optimization failed:". *)
Theorem optimize_route_in_order js b agent balance preferences w :
  let run := optimizeYield js b agent balance preferences w in
  let r1 := market_request b agent w in
  let r2 := health_request b agent w in
  let r3 := optimize_request b agent w balance preferences in
  (forall e,
      fst (analyzeMarket js b agent w) = Throw e ->
      fst run = Throw e
      /\ sent_since w (snd run) = [r1]
      /\ web_console (snd run)
         = web_console (snd (analyzeMarket js b agent w))
           ++ [("Yield optimization failed:"%string, e)])
  /\ (forall marketData e,
        fst (analyzeMarket js b agent w) = Normal marketData ->
        outcome (fetch b r2) = Throw e ->
        fst run = Throw e
        /\ sent_since w (snd run) = [r1; r2]
        /\ web_console (snd run)
           = web_console w
             ++ [("OpenServ API Error:", e);
                 ("Protocol health check failed:", e);
                 ("Yield optimization failed:", e)]%string)
  /\ (forall marketData protocolHealth e,
        fst (analyzeMarket js b agent w) = Normal marketData ->
        outcome (fetch b r2) = Normal protocolHealth ->
        outcome (fetch b (r3 marketData protocolHealth)) = Throw e ->
        fst run = Throw e
        /\ sent_since w (snd run) = [r1; r2; r3 marketData protocolHealth]
        /\ web_console (snd run)
           = web_console w
             ++ [("OpenServ API Error:", e);
                 ("Yield optimization failed:", e)]%string)
  /\ (forall marketData protocolHealth result,
        fst (analyzeMarket js b agent w) = Normal marketData ->
        outcome (fetch b r2) = Normal protocolHealth ->
        outcome (fetch b (r3 marketData protocolHealth)) = Normal result ->
        sent_since w (snd run) = [r1; r2; r3 marketData protocolHealth]
        /\ (if readable result
            then fst run = Normal (field result "strategy")
                 /\ web_console (snd run) = web_console w
            else fst run = Throw (TypeError_reading js result "strategy")
                 /\ web_console (snd run)
                    = web_console w
                      ++ [("Yield optimization failed:"%string,
                           TypeError_reading js result "strategy")])).
Proof.
  intros run r1 r2 r3. subst run. unfold optimizeYield.
  rewrite wrapped_run.
  pose proof (optimizeYield_body js b agent balance preferences w) as E.
  unfold optimize_body in E at 1. rewrite E. clear E.
  pose proof (analyzeMarket_sent js b agent w) as Hsent.
  fold r1 in Hsent. cbv zeta. fold r1 r2.
  destruct (analyzeMarket js b agent w) as [[marketData | e1] w1];
    cbn [fst snd] in *.
  2:{ split; [| split; [| split]]; try (intros; discriminate).
      intros e E. injection E as <-.
      unfold advanced, sent_since in *.
      cbn [fst snd sent web_console logged].
      rewrite app_nil_r. repeat split. exact Hsent. }
  split; [intros; discriminate |].
  split; [| split].
  - intros m e E Eh. injection E as <-. rewrite Eh. cbn [fst snd logged].
    rewrite advanced_advanced, sent_since_advanced.
    repeat split.
  - intros m ph e E Eh Eo. injection E as <-. rewrite Eh.
    fold (r3 marketData ph). rewrite Eo. cbn [fst snd logged].
    rewrite advanced_advanced, sent_since_advanced.
    repeat split.
  - intros m ph result E Eh Eo. injection E as <-. rewrite Eh.
    fold (r3 marketData ph). rewrite Eo. cbn [fst snd].
    rewrite advanced_advanced, sent_since_advanced.
    split; [reflexivity |].
    unfold advanced. cbn [web_console app].
    destruct (readable result) eqn:Hr.
    + rewrite (get_field js _ _ Hr). cbn [logged].
      now rewrite !app_nil_r.
    + rewrite (get_unreadable js _ _ Hr). cbn [logged].
      split; reflexivity.
Qed.

Lemma optimize_route_in_order_witness :
  fst (analyzeMarket V8 sparse agent0 offline_web)
  = Normal (market_view (JObject [ ("trend", JObject [("direction", JString "up")]);
                                   ("network", JObject []);
                                   ("market", JObject []) ]%string))
  /\ fst (optimizeYield V8 sparse agent0 (JString "1.5") (JObject [])
            offline_web)
     = Normal JUndefined
  /\ map url (sent_since offline_web
                (snd (optimizeYield V8 sparse agent0 (JString "1.5")
                        (JObject []) offline_web)))
     = optimize_route agent0.
Proof.
  split; [reflexivity |].
  destruct (optimize_route_in_order V8 sparse agent0 (JString "1.5")
              (JObject []) offline_web) as (_ & _ & _ & H).
  destruct (H _ (JObject []) (JObject []) eq_refl eq_refl eq_refl)
    as (Hsent & Hv & _).
  split; [exact Hv |]. rewrite Hsent. reflexivity.
Defined.

Example optimize_without_strategy :
  fst (optimizeYield V8 sparse agent0 (JString "1.5") (JObject []) offline_web)
  = Normal JUndefined
  /\ map url (sent (snd (optimizeYield V8 sparse agent0 (JString "1.5")
                           (JObject []) offline_web)))
     = optimize_route agent0.
Proof. split; reflexivity. Qed.

Example optimize_backend_down :
  optimizeYield V8 unreachable agent0 (JString "1.5") (JObject []) offline_web
  = (Throw {| message := "Failed to fetch" |},
     {| web_console :=
          [ ("OpenServ API Error:", {| message := "Failed to fetch" |});
            ("Market analysis failed:", {| message := "Failed to fetch" |});
            ("Yield optimization failed:", {| message := "Failed to fetch" |})
          ]%string;
        sent := [request agent0 "/market/analyze" (market_body 1700000000000)
                   "00000000-0000-4000-8000-000000000000"];
        uuids := 1;
        clock_reads := 1 |}).
Proof. reflexivity. Qed.

(** * The recommendation in binary64 *)

(** ** The literals *)

(** [1.2] and [0.5] are the correctly rounded quotients 6/5 and 1/2, and
    [1.2] is within half a unit in the last place of 6/5. *)
Example literals_rounded :
  Double.literal_1_2 = Double.div (Double.of_Z 6) (Double.of_Z 5)
  /\ Double.literal_0_5 = Double.div (Double.of_Z 1) (Double.of_Z 2)
  /\ Double.real Double.literal_0_5 = Fin (4503599627370496 # 9007199254740992)
  /\ exists q,
       Double.real Double.literal_1_2 = Fin q
       /\ Qabs (q - 6 / 5) < 1 # 9007199254740992.
Proof.
  split; [vm_compute; reflexivity |]. split; [vm_compute; reflexivity |].
  split; [vm_compute; reflexivity |].
  eexists. split; [vm_compute; reflexivity |]. vm_compute. reflexivity.
Qed.

(** ** The buckets *)

Lemma getUTCHours_bound t : (getUTCHours t < 24)%nat.
Proof.
  unfold getUTCHours.
  pose proof (Z.mod_pos_bound (t / msPerHour) 24) as Hb. lia.
Qed.

Lemma double_getHours_bound h t hour :
  Double.getHours h t = Some hour -> (hour < 24)%nat.
Proof.
  unfold Double.getHours. destruct (Double.TimeClip t); [| discriminate].
  intros E. injection E as <-. apply getUTCHours_bound.
Qed.

Lemma double_getHours_dated h d :
  Double.dated d = true ->
  exists hour, Double.getHours h (Double.timestamp d) = Some hour.
Proof.
  unfold Double.dated, Double.getHours.
  destruct (Double.TimeClip (Double.timestamp d)); [eauto | discriminate].
Qed.

Lemma double_getHours_undated h d :
  Double.dated d = false -> Double.getHours h (Double.timestamp d) = None.
Proof.
  unfold Double.dated, Double.getHours.
  now destruct (Double.TimeClip (Double.timestamp d)).
Qed.

Lemma double_nth_error_bump hour p : forall bs k,
  nth_error (Double.bump hour p bs) k =
    if Nat.eqb hour k
    then option_map
           (fun b => {| Double.sum := Double.add (Double.sum b) p;
                        Double.count := S (Double.count b) |})
           (nth_error bs k)
    else nth_error bs k.
Proof.
  induction hour as [| hour IH]; intros [| b bs] [| k]; try reflexivity.
  - cbn [Double.bump nth_error Nat.eqb]. now destruct (Nat.eqb hour k).
  - cbn [Double.bump nth_error Nat.eqb]. apply IH.
Qed.

Lemma double_bump_length hour p : forall bs,
  List.length (Double.bump hour p bs) = List.length bs.
Proof.
  induction hour as [| hour IH]; intros [| b bs];
    cbn [Double.bump List.length]; try reflexivity.
  now rewrite IH.
Qed.

Lemma double_bump_count hour p : forall bs,
  (hour < List.length bs)%nat ->
  Double.total_count (Double.bump hour p bs) = S (Double.total_count bs).
Proof.
  induction hour as [| hour IH]; intros [| b bs] Hlt;
    cbn [List.length] in Hlt; try lia.
  - cbn [Double.bump Double.total_count fold_right Double.count]. lia.
  - cbn [Double.bump Double.total_count fold_right].
    fold (Double.total_count (Double.bump hour p bs)).
    fold (Double.total_count bs). rewrite IH by lia. lia.
Qed.

Lemma double_prices_at_cons h k d window hour :
  Double.getHours h (Double.timestamp d) = Some hour ->
  Double.prices_at h k (d :: window) =
    if Nat.eqb hour k
    then Double.price d :: Double.prices_at h k window
    else Double.prices_at h k window.
Proof.
  intros Eh. unfold Double.prices_at. cbn [filter].
  unfold Double.in_hour at 1. rewrite Eh.
  now destruct (Nat.eqb hour k).
Qed.

(** The [forEach] over a window of dated samples: it completes, and the
    bucket of hour [k] has had the prices of that hour added to it in the
    order of the window. *)
Lemma forEach_dated js h window : forall bs,
  forallb Double.dated window = true ->
  exists buckets,
    Double.forEach js h window bs = Normal buckets
    /\ List.length buckets = List.length bs
    /\ ((24 <= List.length bs)%nat ->
        Double.total_count buckets
        = (Double.total_count bs + List.length window)%nat)
    /\ forall k,
         nth_error buckets k
         = option_map
             (fun b =>
                {| Double.sum :=
                     fold_left Double.add (Double.prices_at h k window)
                       (Double.sum b);
                   Double.count :=
                     Double.count b
                     + List.length (Double.prices_at h k window) |})
             (nth_error bs k).
Proof.
  induction window as [| d window IH]; intros bs Hd.
  - exists bs. split; [reflexivity |]. split; [reflexivity |].
    split; [cbn [List.length]; lia |]. intros k.
    cbn [Double.prices_at filter map fold_left List.length].
    destruct (nth_error bs k) as [[s c] |]; [| reflexivity].
    cbn [option_map Double.sum Double.count]. now rewrite Nat.add_0_r.
  - cbn [forallb] in Hd. apply andb_true_iff in Hd. destruct Hd as [Hd Hw].
    destruct (double_getHours_dated h d Hd) as (hour & Eh).
    cbn [Double.forEach]. rewrite Eh.
    destruct (IH (Double.bump hour (Double.price d) bs) Hw)
      as (buckets & E & Hl & Hc & Hn).
    exists buckets. split; [exact E |].
    rewrite double_bump_length in Hl, Hc. split; [exact Hl |]. split.
    + intros H24. rewrite (Hc H24), double_bump_count.
      * cbn [List.length]. lia.
      * pose proof (double_getHours_bound _ _ _ Eh). lia.
    + intros k.
      rewrite Hn, double_nth_error_bump, (double_prices_at_cons _ _ _ _ _ Eh).
      destruct (Nat.eqb hour k);
        destruct (nth_error bs k) as [[s c] |]; try reflexivity.
      cbn [option_map Double.sum Double.count map fold_left List.length].
      now rewrite Nat.add_succ_r.
Qed.

(** A sample whose time is no date makes the [forEach] throw. *)
Lemma forEach_undated js h window : forall bs,
  forallb Double.dated window = false ->
  Double.forEach js h window bs
  = Throw (TypeError_reading js JUndefined "sum").
Proof.
  induction window as [| d window IH]; intros bs Hd; [discriminate |].
  cbn [forallb] in Hd. cbn [Double.forEach].
  destruct (Double.dated d) eqn:Ed.
  - destruct (double_getHours_dated h d Ed) as (hour & ->).
    apply IH. exact Hd.
  - now rewrite (double_getHours_undated h d Ed).
Qed.

(** X1.  The buckets of [hourlyAverages], as the engine fills them.  Over
    a window all of whose times are dates there are 24 buckets, every
    sample is counted in exactly one of them (the counts add up to the
    length of the window), and the bucket of an hour holds the number of
    the samples of that hour and the sum of their prices, added to [+0] in
    the order of the window with a rounding at each addition.  A window
    with a time that is no date has no bucket for it: the [forEach] throws
    the [TypeError] of reading [sum] of [undefined]. *)
Theorem hourly_buckets_partition js h window :
  (forallb Double.dated window = true ->
   exists buckets,
     Double.hourlyAverages js h window = Normal buckets
     /\ List.length buckets = 24%nat
     /\ Double.total_count buckets = List.length window
     /\ forall k, (k < 24)%nat ->
                  nth_error buckets k = Some (Double.bucket_at h k window))
  /\ (forallb Double.dated window = false ->
      Double.hourlyAverages js h window
      = Throw (TypeError_reading js JUndefined "sum")).
Proof.
  unfold Double.hourlyAverages. split.
  - intros Hd.
    destruct (forEach_dated js h window
                (repeat {| Double.sum := Double.of_Z 0; Double.count := 0 |} 24)
                Hd) as (buckets & E & Hl & Hc & Hn).
    exists buckets. split; [exact E |]. rewrite repeat_length in Hl, Hc.
    split; [exact Hl |]. split.
    + rewrite (Hc (le_n 24)). reflexivity.
    + intros k Hk. rewrite Hn, nth_error_repeat by exact Hk. reflexivity.
  - apply forEach_undated.
Qed.

Lemma hourly_buckets_partition_witness :
  (exists buckets,
      Double.hourlyAverages V8 utc
        [Double.at_hour 3 (Double.of_Z 2); Double.at_hour 3 (Double.of_Z 1);
         Double.at_hour 5 (Double.of_Z 4)]
      = Normal buckets
      /\ option_map Double.count (nth_error buckets 3) = Some 2%nat)
  /\ Double.hourlyAverages V8 utc
       [Double.at_hour 3 (Double.of_Z 2);
        Double.at_hour 2400000001 (Double.of_Z 1)]
     = Throw {| message :=
                  "Cannot read properties of undefined (reading 'sum')" |}.
Proof.
  split.
  - destruct (hourly_buckets_partition V8 utc
                [Double.at_hour 3 (Double.of_Z 2);
                 Double.at_hour 3 (Double.of_Z 1);
                 Double.at_hour 5 (Double.of_Z 4)]) as [Hall _].
    destruct (Hall eq_refl) as (buckets & E & _ & _ & Hn).
    exists buckets. split; [exact E |].
    rewrite (Hn 3%nat (le_n_S _ _ (le_n_S _ _ (le_n_S _ _ (le_n_S _ _
               (Nat.le_0_l _)))))).
    reflexivity.
  - destruct (hourly_buckets_partition V8 utc
                [Double.at_hour 3 (Double.of_Z 2);
                 Double.at_hour 2400000001 (Double.of_Z 1)]) as [_ Hthrow].
    exact (Hthrow eq_refl).
Defined.

(** ** The call *)

(** Over a window of dated samples the call returns, with the fields the
    source gives them. *)
Lemma double_recommendation js h o p fee :
  Double.provider o = Some p ->
  Double.historicalData o <> [] ->
  ethers.getFeeData p = Normal fee ->
  forallb Double.dated (Double.historicalData o) = true ->
  exists buckets,
    Double.hourlyAverages js h (Double.historicalData o) = Normal buckets
    /\ Double.getGasRecommendation js h o =
         Normal
           {| Double.bestTime := hour_window (Double.bestHour buckets);
              Double.estimatedSavings :=
                (Double.toFixed h
                   (Double.potentialSavings (Double.liveGwei fee)
                      (Double.lowest (Double.historicalData o)))
                 ++ "%")%string;
              Double.currentGwei := Double.Math_round (Double.liveGwei fee);
              Double.historicalLow :=
                Double.Math_round (Double.lowest (Double.historicalData o));
              Double.batchingRecommendation :=
                if Double.shouldBatch (Double.liveGwei fee)
                     (Double.avgPrice (Double.historicalData o))
                then Batching else Individual |}.
Proof.
  intros Hp Hw Hfee Hd.
  destruct (forEach_dated js h (Double.historicalData o)
              (repeat {| Double.sum := Double.of_Z 0; Double.count := 0 |} 24)
              Hd) as (buckets & E & _).
  exists buckets. split; [exact E |].
  unfold Double.getGasRecommendation. rewrite Hp, Hfee.
  destruct (Double.historicalData o) as [| d w] eqn:Ew; [now destruct Hw |].
  unfold Double.recommend, Double.hourlyAverages. rewrite E. reflexivity.
Qed.

(** A number less itself is [+0]. *)
Lemma double_sub_diag s m e :
  Double.sub (S754_finite s m e) (S754_finite s m e) = S754_zero false.
Proof.
  unfold Double.sub, SFsub. rewrite Z.min_id. unfold shl_align.
  now rewrite Z.sub_diag.
Qed.

Lemma double_savings_diag h s m e :
  Double.toFixed h
    (Double.potentialSavings (S754_finite s m e) (S754_finite s m e))
  = "0.0"%string.
Proof.
  unfold Double.potentialSavings. rewrite double_sub_diag.
  now destruct s.
Qed.

(** ** The least price *)

Lemma double_ltb_place x y :
  Double.ltb x y = true <->
  Double.is_nan x = false /\ Double.is_nan y = false
  /\ Double.before (Double.place x) (Double.place y).
Proof.
  unfold Double.ltb, SFltb, SFcompare.
  destruct x as [sx | sx | | sx mx ex], y as [sy | sy | | sy my ey];
    try destruct sx; try destruct sy;
    cbn [Double.is_nan Double.place Double.before];
    try (split; [intros; try discriminate; repeat split; lia
                | intros (? & ? & ?); try discriminate; try reflexivity; lia]).
  all: change (PosDef.Pos.compare_cont Eq mx my) with (Pos.compare mx my).
  all: destruct (Z.compare_spec ex ey); destruct (Pos.compare_spec mx my);
    cbn [CompOpp];
    (split; [intros; try discriminate; repeat split; lia
            | intros (? & ? & ?); try discriminate; try reflexivity; lia]).
Qed.

Lemma double_ltb_false x y :
  Double.is_nan x = false -> Double.is_nan y = false ->
  (Double.ltb x y = false
   <-> ~ Double.before (Double.place x) (Double.place y)).
Proof.
  intros Hx Hy. pose proof (double_ltb_place x y) as H.
  destruct (Double.ltb x y).
  - split; [discriminate |]. intros Hn. destruct Hn. now apply H.
  - split; [| reflexivity]. intros _ Hb.
    assert (false = true) by (apply H; auto). discriminate.
Qed.

(** One step of [Math.min] keeps the lower of the two. *)
Lemma double_lower_spec lowest x :
  Double.is_nan lowest = false -> Double.is_nan x = false ->
  (Double.lower lowest x = lowest \/ Double.lower lowest x = x)
  /\ Double.is_nan (Double.lower lowest x) = false
  /\ ~ Double.before (Double.place lowest)
                     (Double.place (Double.lower lowest x))
  /\ ~ Double.before (Double.place x)
                     (Double.place (Double.lower lowest x)).
Proof.
  intros Hl Hx.
  assert (Hcases :
            (x = S754_zero true /\ lowest = S754_zero false
             /\ Double.lower lowest x = x)
            \/ Double.lower lowest x
               = if Double.ltb x lowest then x else lowest).
  { unfold Double.lower. destruct x as [[|] | | |]; auto.
    destruct lowest as [[|] | | |]; auto. }
  destruct Hcases as [(-> & -> & ->) | ->].
  - split; [now right |]. split; [reflexivity |].
    cbn [Double.place Double.before]. split; lia.
  - destruct (Double.ltb x lowest) eqn:E.
    + apply double_ltb_place in E. destruct E as (_ & _ & E).
      split; [now right |]. split; [exact Hx |].
      destruct (Double.place x) as [[a1 a2] a3],
               (Double.place lowest) as [[b1 b2] b3].
      cbn [Double.before] in *. split; lia.
    + apply (double_ltb_false _ _ Hx Hl) in E.
      split; [now left |]. split; [exact Hl |]. split; [| exact E].
      destruct (Double.place lowest) as [[b1 b2] b3].
      cbn [Double.before]. lia.
Qed.

Lemma double_fold_lower xs : forall lowest,
  Double.is_nan lowest = false ->
  existsb Double.is_nan xs = false ->
  (fold_left Double.lower xs lowest = lowest
   \/ In (fold_left Double.lower xs lowest) xs)
  /\ Double.is_nan (fold_left Double.lower xs lowest) = false
  /\ ~ Double.before (Double.place lowest)
                     (Double.place (fold_left Double.lower xs lowest))
  /\ forall x, In x xs ->
                ~ Double.before (Double.place x)
                    (Double.place (fold_left Double.lower xs lowest)).
Proof.
  induction xs as [| y xs IH]; intros lowest Hl Hn.
  - cbn [fold_left]. split; [now left |]. split; [exact Hl |].
    split; [| intros x []].
    destruct (Double.place lowest) as [[b1 b2] b3]. cbn [Double.before]. lia.
  - cbn [existsb] in Hn. apply orb_false_iff in Hn. destruct Hn as [Hy Hn].
    destruct (double_lower_spec lowest y Hl Hy) as (Hc & Hn' & Hb1 & Hb2).
    destruct (IH (Double.lower lowest y) Hn' Hn) as (Hi & Hr & Hb & Hall).
    cbn [fold_left].
    set (r := fold_left Double.lower xs (Double.lower lowest y)) in *.
    split.
    { destruct Hi as [-> | Hi]; [| right; now right].
      destruct Hc as [-> | ->]; [now left | right; now left]. }
    split; [exact Hr |].
    assert (Htrans : forall z,
               ~ Double.before (Double.place z)
                   (Double.place (Double.lower lowest y)) ->
               ~ Double.before (Double.place z) (Double.place r)).
    { intros z Hz. revert Hz Hb.
      destruct (Double.place z) as [[a1 a2] a3],
               (Double.place (Double.lower lowest y)) as [[b1 b2] b3],
               (Double.place r) as [[c1 c2] c3].
      cbn [Double.before]. lia. }
    split; [now apply Htrans |].
    intros x [<- | Hx]; [now apply Htrans | now apply Hall].
Qed.

(** [Math.min] of prices none of which is NaN is one of them, and none of
    them is below it. *)
Lemma double_Math_min_spec xs :
  xs <> [] ->
  existsb Double.is_nan xs = false ->
  In (Double.Math_min xs) xs
  /\ forall x, In x xs -> Double.ltb x (Double.Math_min xs) = false.
Proof.
  intros Hne Hn. unfold Double.Math_min. rewrite Hn.
  destruct xs as [| y xs]; [now destruct Hne |]. clear Hne.
  cbn [existsb] in Hn. apply orb_false_iff in Hn. destruct Hn as [Hy Hn].
  cbn [fold_left].
  assert (E : Double.lower Double.Infinity y = y).
  { destruct y as [[|] | [|] | | [|] m e]; try reflexivity; discriminate. }
  rewrite E.
  destruct (double_fold_lower xs y Hy Hn) as (Hi & Hr & Hb & Hall).
  split.
  - destruct Hi as [-> | Hi]; [now left | now right].
  - intros x Hx.
    assert (Hnx : Double.is_nan x = false).
    { destruct Hx as [<- | Hx]; [exact Hy |].
      destruct (Double.is_nan x) eqn:Ex; [| reflexivity].
      assert (existsb Double.is_nan xs = true)
        by (apply existsb_exists; eauto).
      congruence. }
    apply (double_ltb_false _ _ Hnx Hr).
    destruct Hx as [<- | Hx]; [exact Hb | now apply Hall].
Qed.

(** C4, as the code has it.  For a sampler with a provider and a window
    that is not empty, all of whose times are dates, and a live read that
    succeeds, the call returns, and [estimatedSavings] is the text
    [potentialSavings.toFixed(1)] followed by a percent sign, where
    [potentialSavings] is [((currentGwei - historicalLow) / currentGwei) *
    100] evaluated in binary64, each of the three operations rounded, on
    the live price [Number(gasPrice) / 1e9] and on the least price of the
    window, neither of them rounded to an integer.  The text is "0.0%" when
    the live price is a finite number other than zero and equals that least
    price.  A value below zero is returned as any other, with its minus
    sign.  The least price is [Math.min] of the prices: when none of them
    is NaN it is one of them and none of them is below it. *)
Theorem savings_formula js h o p fee :
  Double.provider o = Some p ->
  Double.historicalData o <> [] ->
  ethers.getFeeData p = Normal fee ->
  forallb Double.dated (Double.historicalData o) = true ->
  let current :=
    Double.div (Double.Number_of (ethers.gasPrice fee))
      (Double.of_Z 1000000000) in
  let low := Double.Math_min (map Double.price (Double.historicalData o)) in
  let savings :=
    Double.mul (Double.div (Double.sub current low) current)
      (Double.of_Z 100) in
  exists r,
    Double.getGasRecommendation js h o = Normal r
    /\ Double.estimatedSavings r
       = (toFixed1 h (Double.real savings) ++ "%")%string
    /\ (forall s m e,
          current = S754_finite s m e -> low = current ->
          Double.estimatedSavings r = "0.0%"%string)
    /\ (forall q,
          Double.real savings = Fin q -> q < 0 ->
          exists rest,
            Double.estimatedSavings r = ("-" ++ rest ++ "%")%string)
    /\ (existsb Double.is_nan (map Double.price (Double.historicalData o))
        = false ->
        In low (map Double.price (Double.historicalData o))
        /\ forall d, In d (Double.historicalData o) ->
                     SFltb (Double.price d) low = false).
Proof.
  intros Hp Hw Hfee Hd current low savings.
  destruct (double_recommendation js h o p fee Hp Hw Hfee Hd)
    as (buckets & _ & E).
  change (Double.liveGwei fee) with current in E.
  change (Double.lowest (Double.historicalData o)) with low in E.
  change (Double.potentialSavings current low) with savings in E.
  eexists. split; [exact E |]. cbn [Double.estimatedSavings].
  split; [reflexivity |]. split; [| split].
  - intros s m e Ec El. unfold savings. rewrite El, Ec.
    fold (Double.potentialSavings (S754_finite s m e) (S754_finite s m e)).
    now rewrite double_savings_diag.
  - intros q Eq Hq. unfold Double.toFixed. rewrite Eq.
    destruct (toFixed1_negative h q Hq) as (rest & ->).
    exists rest. reflexivity.
  - intros Hn.
    assert (Hne : map Double.price (Double.historicalData o) <> []).
    { destruct (Double.historicalData o); [now destruct Hw | discriminate]. }
    destruct (double_Math_min_spec _ Hne Hn) as [Hin Hmin].
    split; [exact Hin |]. intros d Hd'. apply Hmin. now apply in_map.
Qed.

Lemma savings_formula_witness :
  forallb Double.dated Double.three_blocks = true
  /\ (exists r,
        Double.getGasRecommendation V8 utc
          (Double.running (Double.live 1000000000) Double.three_blocks)
        = Normal r
        /\ Double.estimatedSavings r = "-50.0%"%string)
  /\ (exists r,
        Double.getGasRecommendation V8 utc
          (Double.running (Double.live 1500000000) Double.three_blocks)
        = Normal r
        /\ Double.estimatedSavings r = "0.0%"%string).
Proof.
  assert (Hw : Double.three_blocks <> []) by discriminate.
  split; [reflexivity |]. split.
  - destruct (savings_formula V8 utc
                (Double.running (Double.live 1000000000) Double.three_blocks)
                (Double.live 1000000000)
                {| ethers.gasPrice := Some 1000000000%Z |}
                eq_refl Hw eq_refl eq_refl) as (r & E & Ht & _).
    exists r. split; [exact E |]. rewrite Ht. reflexivity.
  - destruct (savings_formula V8 utc
                (Double.running (Double.live 1500000000) Double.three_blocks)
                (Double.live 1500000000)
                {| ethers.gasPrice := Some 1500000000%Z |}
                eq_refl Hw eq_refl eq_refl) as (r & E & _ & Hz & _).
    exists r. split; [exact E |].
    exact (Hz false 6755399441055744%positive (-52)%Z eq_refl eq_refl).
Defined.

(** C4 does not hold as stated.  The field is a text with one decimal, and
    its digits are those of the value computed in binary64, not of the
    formula: with a base fee of 1.11 gwei in the window and a live price of
    4 gwei the formula gives 72.25, the value computed is
    72.24999999999999 and the field reads 72.2%. *)
Lemma savings_digit_rounded :
  (inject_Z 4000000000 / 1e9 - inject_Z 1110000000 / 1e9)
  / (inject_Z 4000000000 / 1e9) * 100 == 72.25
  /\ exists r,
       Double.getGasRecommendation V8 utc
         (Double.running (Double.live 4000000000)
            [Double.block_sample 1110000000])
       = Normal r
       /\ Double.estimatedSavings r = "72.2%"%string
       /\ Double.potentialSavings
            (Double.liveGwei {| ethers.gasPrice := Some 4000000000%Z |})
            (Double.lowest [Double.block_sample 1110000000])
          = S754_finite false 5084141766836223 (-46)
       /\ inject_Z 5084141766836223 * 2 ^ (-46) < 72.25.
Proof.
  split; [reflexivity |].
  eexists. split; [vm_compute; reflexivity |].
  split; [vm_compute; reflexivity |].
  split; [vm_compute; reflexivity |]. reflexivity.
Qed.

(** The live price in wei is below the base fee of the window, and the
    savings read 0.0%: 2^53 + 1 wei and 2^53 wei are one double. *)
Example savings_of_neighbouring_fees :
  exists r,
    Double.getGasRecommendation V8 utc
      (Double.running (Double.live 9007199254740992)
         [Double.block_sample 9007199254740993])
    = Normal r
    /\ Double.estimatedSavings r = "0.0%"%string.
Proof. eexists. split; vm_compute; reflexivity. Qed.

Lemma double_fold_prices window : forall acc,
  fold_left (fun sum d => Double.add sum (Double.price d)) window acc
  = fold_left Double.add (map Double.price window) acc.
Proof.
  induction window as [| d w IH]; intros acc; [reflexivity | apply IH].
Qed.

(** C5, as the code has it.  For a sampler with a provider and a window
    that is not empty, all of whose times are dates, and a live read that
    succeeds, the call returns, and the advice is for batching exactly when
    [currentGwei > avgPrice * 1.2] as the engine evaluates it: [avgPrice]
    is the sum of the prices of the window, added to [+0] from the first
    on with a rounding at each addition, divided by their number; [1.2] is
    the double nearest to 6/5; the product is rounded; and the comparison
    is that of the two doubles.  When the live price equals the product so
    computed, or when one of the two is NaN, the advice is for individual
    transactions. *)
Theorem batching_advice js h o p fee :
  Double.provider o = Some p ->
  Double.historicalData o <> [] ->
  ethers.getFeeData p = Normal fee ->
  forallb Double.dated (Double.historicalData o) = true ->
  let current :=
    Double.div (Double.Number_of (ethers.gasPrice fee))
      (Double.of_Z 1000000000) in
  let avgPrice :=
    Double.div
      (fold_left Double.add (map Double.price (Double.historicalData o))
         (Double.of_Z 0))
      (Double.of_Z (Z.of_nat (List.length (Double.historicalData o)))) in
  let threshold := Double.mul avgPrice Double.literal_1_2 in
  exists r,
    Double.getGasRecommendation js h o = Normal r
    /\ (Double.batchingRecommendation r = Batching
        <-> SFcompare threshold current = Some Lt)
    /\ (Double.batchingRecommendation r = Individual
        <-> SFcompare threshold current <> Some Lt)
    /\ (SFcompare threshold current = Some Eq ->
        Double.batchingRecommendation r = Individual)
    /\ (SFcompare threshold current = None ->
        Double.batchingRecommendation r = Individual).
Proof.
  intros Hp Hw Hfee Hd current avgPrice threshold.
  destruct (double_recommendation js h o p fee Hp Hw Hfee Hd)
    as (buckets & _ & E).
  eexists. split; [exact E |]. cbn [Double.batchingRecommendation].
  assert (Ea : Double.avgPrice (Double.historicalData o) = avgPrice).
  { unfold Double.avgPrice, avgPrice, Double.of_nat.
    now rewrite double_fold_prices. }
  rewrite Ea. unfold Double.shouldBatch, Double.gtb, SFltb.
  fold threshold. change (Double.liveGwei fee) with current.
  destruct (SFcompare threshold current) as [[| |] |];
    repeat split; try reflexivity; try discriminate; try congruence.
Qed.

Lemma batching_advice_witness :
  forallb Double.dated Double.three_blocks = true
  /\ (exists r,
        Double.getGasRecommendation V8 utc
          (Double.running (Double.live 2700000000) Double.three_blocks)
        = Normal r
        /\ Double.batchingRecommendation r = Batching)
  /\ (exists r,
        Double.getGasRecommendation V8 utc
          (Double.running (Double.live 2500000000) Double.three_blocks)
        = Normal r
        /\ Double.batchingRecommendation r = Individual).
Proof.
  assert (Hw : Double.three_blocks <> []) by discriminate.
  split; [reflexivity |]. split.
  - destruct (batching_advice V8 utc
                (Double.running (Double.live 2700000000) Double.three_blocks)
                (Double.live 2700000000)
                {| ethers.gasPrice := Some 2700000000%Z |}
                eq_refl Hw eq_refl eq_refl) as (r & E & Hb & _).
    exists r. split; [exact E |]. apply (proj2 Hb).
    vm_compute. reflexivity.
  - destruct (batching_advice V8 utc
                (Double.running (Double.live 2500000000) Double.three_blocks)
                (Double.live 2500000000)
                {| ethers.gasPrice := Some 2500000000%Z |}
                eq_refl Hw eq_refl eq_refl) as (r & E & _ & Hi & _).
    exists r. split; [exact E |]. apply (proj2 Hi).
    intros Hc. vm_compute in Hc. discriminate Hc.
Defined.

(** C5 does not hold as stated.  A live price of 3.6 gwei is exactly 1.2
    times the one price of the window, 3 gwei, and the advice is for
    batching: [3 * 1.2] evaluates to 3.5999999999999996, one unit in the
    last place below the double of 3.6. *)
Lemma batching_at_the_boundary :
  inject_Z 3600000000 / 1e9 == 1.2 * (inject_Z 3000000000 / 1e9)
  /\ exists r,
       Double.getGasRecommendation V8 utc
         (Double.running (Double.live 3600000000)
            [Double.block_sample 3000000000])
       = Normal r
       /\ Double.batchingRecommendation r = Batching
       /\ Double.liveGwei {| ethers.gasPrice := Some 3600000000%Z |}
          = S754_finite false 8106479329266893 (-51)
       /\ Double.mul (Double.avgPrice [Double.block_sample 3000000000])
            Double.literal_1_2
          = S754_finite false 8106479329266892 (-51).
Proof.
  split; [reflexivity |].
  eexists. split; [vm_compute; reflexivity |].
  split; [vm_compute; reflexivity |].
  split; vm_compute; reflexivity.
Qed.

(** ** Further examples in binary64 *)

(** The mean of an hour is rounded: hour 3 holds 0.2 and 0.1 gwei, whose
    computed mean is 0.15000000000000002, hour 5 holds 0.15 gwei, and the
    hour chosen is 5. *)
Example hour_mean_rounded :
  exists r,
    Double.getGasRecommendation V8 utc
      (Double.running (Double.live 1000000000)
         [Double.at_hour 3 (Double.div (Double.of_Z 2) (Double.of_Z 10));
          Double.at_hour 3 (Double.div (Double.of_Z 1) (Double.of_Z 10));
          Double.at_hour 5 (Double.div (Double.of_Z 15) (Double.of_Z 100))])
    = Normal r
    /\ Double.bestTime r = "5:00 - 6:00 UTC"%string.
Proof. eexists. split; vm_compute; reflexivity. Qed.

(** The priority of a sample reaches 2.5: for the largest double below 1
    the sum [r * 2 + 0.5] is rounded up to it. *)
Example priority_of_largest_draw :
  Double.real (S754_finite false 9007199254740991 (-53))
  = Fin (9007199254740991 # 9007199254740992)
  /\ Double.priority
       (Double.sample {| ethers.timestamp := 1700000000;
                         ethers.baseFeePerGas := None |}
          (S754_finite false 9007199254740991 (-53)))
     = Double.div (Double.of_Z 5) (Double.of_Z 2).
Proof. split; vm_compute; reflexivity. Qed.

(** A time beyond the range of [Date] makes the call throw. *)
Example recommendation_of_undated_sample :
  Double.getGasRecommendation V8 utc
    (Double.running (Double.live 1000000000)
       [Double.at_hour 2400000001 (Double.of_Z 1)])
  = Throw {| message := "Cannot read properties of undefined (reading 'sum')" |}.
Proof. vm_compute. reflexivity. Qed.
